(** * Spinifex test-data generator: a shallow embedding of
      [scripts/generate_test_data.py] and the properties of its outputs. *)

From Stdlib Require Import ZArith List String Ascii Bool Lia.
From Stdlib Require Import SpecFloat DecimalString.
Import ListNotations.

Local Open Scope string_scope.
Local Open Scope Z_scope.

(** ** Python floats: IEEE 754 binary64, computed by [SpecFloat] *)

Module Float.

Definition float : Type := spec_float.

Definition prec : Z := 53.
Definition emax : Z := 1024.

Definition add : float -> float -> float := SFadd prec emax.
Definition sub : float -> float -> float := SFsub prec emax.
Definition mul : float -> float -> float := SFmul prec emax.
Definition div : float -> float -> float := SFdiv prec emax.
Definition neg : float -> float := SFopp.
Definition ltb : float -> float -> bool := SFltb.
Definition leb : float -> float -> bool := SFleb.

(** [float(z)] for a Python int. *)
Definition of_Z (z : Z) : float := binary_normalize prec emax z 0 false.

(** The double nearest to [m * 2^e]. *)
Definition ldexp (m e : Z) : float := binary_normalize prec emax m e false.

(** A decimal literal [n / d] with [d] a power of ten, for instance
    [lit 1165 10] for [116.5]: the correctly rounded quotient of two
    exactly representable integers is the double nearest to the decimal. *)
Definition lit (n d : Z) : float := div (of_Z n) (of_Z d).

(** [math.pi], the double [0x400921FB54442D18]. *)
Definition pi : float := S754_finite false 7074237752028440 (-51).

End Float.

Notation float := Float.float.

(** ** Python values, as far as the script builds them *)

(** Dicts keep their insertion order (it decides the CSV header and the
    shapefile fields), so a dict is an association list. *)
Inductive value : Type :=
| Int (z : Z)
| Flt (f : float)
| Str (s : string)
| Lst (l : list value)
| Dict (d : list (string * value)).

Inductive exn : Type :=
| IndexError
| ValueError
| TypeError
| KeyError (k : string)
| AttributeError
| OverflowError
| OSError (p : string).

Inductive outcome (A : Type) : Type :=
| Ok (a : A)
| Raise (e : exn).
Arguments Ok {A} a.
Arguments Raise {A} e.

(** Numbers that are either an int or a float ([max(20, min(68, x))] mixes
    the two). *)
Inductive number : Type :=
| NInt (z : Z)
| NFlt (f : float).

(** The conversion of an int operand in mixed arithmetic ([x * i],
    [x / n]): an int whose nearest double would be infinite raises
    [OverflowError] ("int too large to convert to float"). *)
Definition float_of_int (z : Z) : outcome float :=
  match Float.of_Z z with
  | S754_infinity _ => Raise OverflowError
  | x => Ok x
  end.

(** The least int that does not convert: [2^1024 - 2^970], half an ulp
    above the largest double. *)
Definition float_limit : Z := 2 ^ 1024 - 2 ^ 970.

Definition number_float (x : number) : float :=
  match x with NInt z => Float.of_Z z | NFlt f => f end.

Definition number_ltb (a b : number) : bool :=
  match a, b with
  | NInt x, NInt y => x <? y
  | _, _ => Float.ltb (number_float a) (number_float b)
  end.

Definition number_value (x : number) : value :=
  match x with NInt z => Int z | NFlt f => Flt f end.

(** [min(a, b)] and [max(a, b)]: the first argument is kept unless the
    second is strictly smaller (larger). *)
Definition py_min (a b : number) : number := if number_ltb b a then b else a.
Definition py_max (a b : number) : number := if number_ltb a b then b else a.

(** ** Dict and list access *)

Fixpoint assoc (k : string) (d : list (string * value)) : option value :=
  match d with
  | [] => None
  | (k', v) :: d' => if String.eqb k k' then Some v else assoc k d'
  end.

Definition keys (d : list (string * value)) : list string := map fst d.

(** [v[k]] *)
Definition getitem (v : value) (k : string) : outcome value :=
  match v with
  | Dict d => match assoc k d with Some x => Ok x | None => Raise (KeyError k) end
  | _ => Raise TypeError
  end.

(** ** String formatting *)

(** The decimal digits of [|z|]. *)
Definition digits (z : Z) : string :=
  NilZero.string_of_uint (N.to_uint (Z.abs_N z)).

Fixpoint zeros (n : nat) : string :=
  match n with O => "" | S n' => String "0" (zeros n') end.

(** [str(z)] and [f"{z:0wd}"] *)
Definition str_Z (z : Z) : string :=
  if z <? 0 then "-" ++ digits z else digits z.

Definition fmt_0d (w : nat) (z : Z) : string :=
  if z <? 0
  then "-" ++ zeros (w - 1 - String.length (digits z)) ++ digits z
  else zeros (w - String.length (digits z)) ++ digits z.

(** ** State and exceptions *)

Definition Eff (S A : Type) : Type := S -> outcome A * S.

Definition ret {S A} (a : A) : Eff S A := fun s => (Ok a, s).

Definition bind {S A B} (m : Eff S A) (k : A -> Eff S B) : Eff S B :=
  fun s => match m s with
           | (Ok a, s') => k a s'
           | (Raise e, s') => (Raise e, s')
           end.

Definition raise {S A} (e : exn) : Eff S A := fun s => (Raise e, s).

(** An expression that returns or raises without touching the state. *)
Definition of_outcome {S A} (o : outcome A) : Eff S A := fun s => (o, s).

Declare Scope eff_scope.
Delimit Scope eff_scope with eff.
Notation "x <- m ;; k" := (bind m (fun x => k))
  (at level 61, m at next level, right associativity) : eff_scope.
Notation "m ;; k" := (bind m (fun _ => k))
  (at level 61, right associativity) : eff_scope.
Local Open Scope eff_scope.

(** [returns m s Q]: run from [s], [m] returns normally, with a result and a
    final state that satisfy [Q]; [raises m s e Q]: it raises [e] and leaves a
    state that satisfies [Q]. *)
Definition returns {S A} (m : Eff S A) (s : S) (Q : A -> S -> Prop) : Prop :=
  exists a s', m s = (Ok a, s') /\ Q a s'.

Definition raises {S A} (m : Eff S A) (s : S) (e : exn) (Q : S -> Prop) : Prop :=
  exists s', m s = (Raise e, s') /\ Q s'.

(** [for x in xs: ys.append(body(x))] *)
Fixpoint for_each {S A B} (xs : list A) (body : A -> Eff S B) : Eff S (list B) :=
  match xs with
  | [] => ret []
  | x :: xs' => y <- body x ;; ys <- for_each xs' body ;; ret (y :: ys)
  end.

(** [range(n)] *)
Definition range (n : Z) : list Z := map Z.of_nat (seq 0 (Z.to_nat n)).

(** ** The runtime the script imports *)

(** The module [random], reduced to the draws CPython's functions are built
    from: the 53-bit integer behind [random()], [_randbelow(n)] and the
    standard normal deviate behind [gauss]. *)
Class RandomSource : Type := {
  rstate : Type;
  bits53 : rstate -> Z * rstate;
  randbelow : Z -> rstate -> Z * rstate;
  normal : rstate -> float * rstate;
  bits53_range : forall s, 0 <= fst (bits53 s) < 2 ^ 53;
  randbelow_range : forall n s, 0 < n -> 0 <= fst (randbelow n s) < n
}.

(** [math.cos], [math.sin] and the built-in [round] on floats. *)
Class MathLib : Type := {
  cos : float -> float;
  sin : float -> float;
  round_float : float -> Z -> float
}.

(** What indexing out of range yields in [nth]; never reached, since the
    index is checked first. *)
Class Blank (A : Type) : Type := blank : A.
#[global] Instance blank_string : Blank string := "".
#[global] Instance blank_Z : Blank Z := 0.

Section Generators.

Context {RS : RandomSource} {ML : MathLib}.

Definition Rand (A : Type) : Type := Eff rstate A.

(** [random.random()]: [k * 2^-53]. *)
Definition random : Rand float :=
  fun s => let (k, s') := bits53 s in (Ok (Float.ldexp k (-53)), s').

(** [random.uniform(a, b)]: [a + (b - a) * random()]. *)
Definition uniform (a b : float) : Rand float :=
  r <- random ;; ret (Float.add a (Float.mul (Float.sub b a) r)).

(** [random.gauss(mu, sigma)]: [mu + z * sigma]. *)
Definition gauss (mu sigma : float) : Rand float :=
  fun s => let (z, s') := normal s in
           (Ok (Float.add mu (Float.mul z sigma)), s').

(** [random.randint(a, b)]: [randrange(a, b + 1)]. *)
Definition randint (a b : Z) : Rand Z :=
  fun s => if 0 <? b + 1 - a
           then let (r, s') := randbelow (b + 1 - a) s in (Ok (a + r), s')
           else (Raise ValueError, s).

(** [random.choice(seq)]: [seq[_randbelow(len(seq))]]. *)
Definition choice {A} `{Blank A} (seq : list A) : Rand A :=
  fun s => match seq with
           | [] => (Raise IndexError, s)
           | _ => let (i, s') := randbelow (Z.of_nat (List.length seq)) s in
                  (Ok (nth (Z.to_nat i) seq blank), s')
           end.

(** [round(x, ndigits)]: an int is returned as it is. *)
Definition py_round (x : number) (ndigits : Z) : number :=
  match x with
  | NInt z => NInt z
  | NFlt f => NFlt (round_float f ndigits)
  end.

Definition round_value (f : float) (ndigits : Z) : value :=
  Flt (round_float f ndigits).

(** *** Bounds and primitive shapes *)

Record bounds : Type := {
  minLon : float; maxLon : float; minLat : float; maxLat : float
}.

Definition BOUNDS : bounds := {|
  minLon := Float.lit 1165 10;
  maxLon := Float.lit 1185 10;
  minLat := Float.neg (Float.lit 235 10);
  maxLat := Float.neg (Float.lit 215 10)
|}.

(** A coordinate pair [[x, y]]. *)
Definition point : Type := (float * float)%type.

Definition point_value (p : point) : value := Lst [Flt (fst p); Flt (snd p)].

Definition random_point : Rand point :=
  lon <- uniform (minLon BOUNDS) (maxLon BOUNDS) ;;
  lat <- uniform (minLat BOUNDS) (maxLat BOUNDS) ;;
  ret (lon, lat).

(** [coords[0]] *)
Definition first {S A} (coords : list A) : Eff S A :=
  match coords with
  | [] => raise IndexError
  | c :: _ => ret c
  end.

(** In the angle [(2 * math.pi * i) / vertices + random.uniform(-0.3, 0.3)]
    the ints [i] and [vertices] are converted to floats, in this order and
    before the draw; either conversion can raise [OverflowError]. *)
Definition random_polygon (center : point) (size : float) (vertices : Z)
  : Rand (list point) :=
  coords <- for_each (range vertices) (fun i =>
    i' <- of_outcome (float_of_int i) ;;
    vertices' <- of_outcome (float_of_int vertices) ;;
    jitter <- uniform (Float.neg (Float.lit 3 10)) (Float.lit 3 10) ;;
    let angle :=
      Float.add
        (Float.div (Float.mul (Float.mul (Float.of_Z 2) Float.pi) i') vertices')
        jitter in
    u <- uniform (Float.lit 5 10) (Float.lit 10 10) ;;
    let r := Float.mul size u in
    ret (Float.add (fst center) (Float.mul r (cos angle)),
         Float.add (snd center)
                   (Float.mul (Float.mul r (sin angle)) (Float.lit 7 10)))) ;;
  c0 <- first coords ;;
  ret (coords ++ [c0])%list.


(** [for x in xs: acc = body(x, acc)] *)
Fixpoint for_fold {S A X} (xs : list X) (body : X -> A -> Eff S A) (acc : A)
  : Eff S A :=
  match xs with
  | [] => ret acc
  | x :: xs' => acc' <- body x acc ;; for_fold xs' body acc'
  end.

(** *** GeoJSON generation *)

Definition generate_drillholes_geojson (n : Z) : Rand value :=
  let rock_types := ["BIF"; "Shale"; "Dolerite"; "Granite"; "Laterite"] in
  features <- for_each (range n) (fun i =>
    point <- random_point ;;
    base_fe <- gauss (Float.of_Z 45) (Float.of_Z 15) ;;
    let base_fe := py_max (NInt 20) (py_min (NInt 68) (NFlt base_fe)) in
    depth_m <- randint 50 400 ;;
    sio2 <- uniform (Float.of_Z 2) (Float.of_Z 15) ;;
    al2o3 <- uniform (Float.of_Z 1) (Float.of_Z 8) ;;
    loi <- uniform (Float.of_Z 2) (Float.of_Z 12) ;;
    rock_type <- choice rock_types ;;
    year <- randint 2018 2024 ;;
    ret (Dict [
      ("type", Str "Feature");
      ("geometry", Dict [
        ("type", Str "Point");
        ("coordinates", point_value point)]);
      ("properties", Dict [
        ("hole_id", Str ("DDH-" ++ fmt_0d 4 (i + 1)));
        ("depth_m", Int depth_m);
        ("fe_pct", number_value (py_round base_fe 2));
        ("sio2_pct", round_value sio2 2);
        ("al2o3_pct", round_value al2o3 2);
        ("loi_pct", round_value loi 2);
        ("rock_type", Str rock_type);
        ("year", Int year)])])) ;;
  ret (Dict [("type", Str "FeatureCollection"); ("features", Lst features)]).

Record geology_unit : Type := {
  code : string; name : string; age_ma : Z; color : string
}.
#[local] Instance blank_unit : Blank geology_unit :=
  {| code := ""; name := ""; age_ma := 0; color := "" |}.

Definition generate_geology_geojson (n : Z) : Rand value :=
  let units := [
    {| code := "BIF"; name := "Banded Iron Formation"; age_ma := 2500; color := "#8B0000" |};
    {| code := "SHL"; name := "Shale"; age_ma := 2450; color := "#556B2F" |};
    {| code := "DOL"; name := "Dolerite"; age_ma := 2000; color := "#2F4F4F" |};
    {| code := "GRN"; name := "Granite"; age_ma := 2700; color := "#FFB6C1" |};
    {| code := "LAT"; name := "Laterite"; age_ma := 50; color := "#CD853F" |};
    {| code := "ALV"; name := "Alluvium"; age_ma := 1; color := "#F5DEB3" |}] in
  features <- for_each (range n) (fun i =>
    center <- random_point ;;
    unit <- choice units ;;
    size <- uniform (Float.lit 15 100) (Float.lit 4 10) ;;
    ring <- random_polygon center size 6 ;;
    confidence <- choice ["High"; "Medium"; "Low"] ;;
    ret (Dict [
      ("type", Str "Feature");
      ("geometry", Dict [
        ("type", Str "Polygon");
        ("coordinates", Lst [Lst (map point_value ring)])]);
      ("properties", Dict [
        ("unit_id", Int (i + 1));
        ("code", Str (code unit));
        ("name", Str (name unit));
        ("age_ma", Int (age_ma unit));
        ("color", Str (color unit));
        ("confidence", Str confidence)])])) ;;
  ret (Dict [("type", Str "FeatureCollection"); ("features", Lst features)]).

(** The ring of one tenement, as the list literal builds it. *)
Definition tenement_ring (center : point) (size : float) : list point :=
  let dy := Float.mul size (Float.lit 6 10) in
  [ (Float.sub (fst center) size, Float.sub (snd center) dy);
    (Float.add (fst center) size, Float.sub (snd center) dy);
    (Float.add (fst center) size, Float.add (snd center) dy);
    (Float.sub (fst center) size, Float.add (snd center) dy);
    (Float.sub (fst center) size, Float.sub (snd center) dy) ].

Definition generate_tenements_geojson (n : Z) : Rand value :=
  let tenement_types := ["Exploration"; "Mining"; "Prospecting"; "Retention"] in
  let companies :=
    ["Iron Ore Co"; "Pilbara Mining"; "Red Earth Resources"; "Outback Minerals"] in
  features <- for_each (range n) (fun i =>
    center <- random_point ;;
    size <- uniform (Float.lit 2 10) (Float.lit 5 10) ;;
    let coords := tenement_ring center size in
    id1 <- randint 45 52 ;;
    id2 <- randint 1000 9999 ;;
    type <- choice tenement_types ;;
    holder <- choice companies ;;
    let area :=
      Float.mul (Float.mul (Float.mul (Float.mul size size) (Float.of_Z 111))
                           (Float.of_Z 111))
                (Float.lit 6 10) in
    gy <- randint 2010 2023 ;;
    gm <- randint 1 12 ;;
    gd <- randint 1 28 ;;
    status <- choice ["Active"; "Active"; "Active"; "Pending"] ;;
    ret (Dict [
      ("type", Str "Feature");
      ("geometry", Dict [
        ("type", Str "Polygon");
        ("coordinates", Lst [Lst (map point_value coords)])]);
      ("properties", Dict [
        ("tenement_id", Str ("E" ++ str_Z id1 ++ "/" ++ str_Z id2));
        ("type", Str type);
        ("holder", Str holder);
        ("area_km2", round_value area 1);
        ("granted", Str (str_Z gy ++ "-" ++ fmt_0d 2 gm ++ "-" ++ fmt_0d 2 gd));
        ("status", Str status)])])) ;;
  ret (Dict [("type", Str "FeatureCollection"); ("features", Lst features)]).

Definition generate_tracks_geojson (n : Z) : Rand value :=
  let track_types :=
    ["Haul Road"; "Access Track"; "Exploration Track"; "Service Road"] in
  features <- for_each (range n) (fun i =>
    start <- random_point ;;
    steps <- randint 5 12 ;;
    walk <- for_fold (range steps) (fun _ '(current, coords) =>
      dx <- uniform (Float.neg (Float.lit 1 10)) (Float.lit 1 10) ;;
      dy <- uniform (Float.neg (Float.lit 1 10)) (Float.lit 1 10) ;;
      let current := (Float.add (fst current) dx, Float.add (snd current) dy) in
      ret (current, (coords ++ [current])%list)) (start, [start]) ;;
    let coords := snd walk in
    track_type <- choice track_types ;;
    surface <- choice ["Gravel"; "Dirt"; "Sealed"] ;;
    width_m <- choice [4; 6; 8; 10; 15] ;;
    ret (Dict [
      ("type", Str "Feature");
      ("geometry", Dict [
        ("type", Str "LineString");
        ("coordinates", Lst (map point_value coords))]);
      ("properties", Dict [
        ("track_id", Int (i + 1));
        ("name", Str (track_type ++ " " ++ str_Z (i + 1)));
        ("surface", Str surface);
        ("width_m", Int width_m)])])) ;;
  ret (Dict [("type", Str "FeatureCollection"); ("features", Lst features)]).

(** *** CSV generation *)

Definition generate_assays_csv (n : Z) : Rand (list value) :=
  for_each (range n) (fun i =>
    point <- random_point ;;
    fe <- gauss (Float.of_Z 50) (Float.of_Z 12) ;;
    sio2 <- uniform (Float.of_Z 2) (Float.of_Z 12) ;;
    al2o3 <- uniform (Float.of_Z 1) (Float.of_Z 6) ;;
    p <- uniform (Float.lit 2 100) (Float.lit 15 100) ;;
    s <- uniform (Float.lit 1 100) (Float.lit 8 100) ;;
    sample_type <- choice ["RC"; "DD"; "Surface"; "Trench"] ;;
    ret (Dict [
      ("sample_id", Str ("S" ++ fmt_0d 5 (i + 1)));
      ("longitude", round_value (fst point) 6);
      ("latitude", round_value (snd point) 6);
      ("easting", round_value (Float.mul (fst point) (Float.of_Z 111000)) 1);
      ("northing", round_value (Float.mul (snd point) (Float.of_Z 111000)) 1);
      ("fe_pct", round_value fe 2);
      ("sio2_pct", round_value sio2 2);
      ("al2o3_pct", round_value al2o3 2);
      ("p_pct", round_value p 3);
      ("s_pct", round_value s 3);
      ("sample_type", Str sample_type)])).

Definition generate_survey_csv (n : Z) : Rand (list value) :=
  for_each (range n) (fun i =>
    point <- random_point ;;
    elevation <- uniform (Float.of_Z 300) (Float.of_Z 600) ;;
    description <- choice ["Control"; "Boundary"; "Feature"; "Grid"] ;;
    ret (Dict [
      ("point_id", Int (i + 1));
      ("x", round_value (fst point) 6);
      ("y", round_value (snd point) 6);
      ("elevation_m", round_value elevation 2);
      ("description", Str description)])).

End Generators.

(** ** The world outside the interpreter *)

Inductive shape_kind : Type := POINT | POLYLINE | POLYGON.

(** What a run does to its surroundings, in order.  Paths are relative to
    [OUTPUT_DIR]. *)
Inductive event : Type :=
| Print (line : string)
| Mkdir
| Open (path : string)
| Write (path : string) (text : string)
| ShpWriter (target : string) (kind : shape_kind)
| ShpField (target : string) (name : string) (ftype : string) (size decimal : Z)
| ShpPoint (target : string) (x y : value)
| ShpLine (target : string) (lines : value)
| ShpPoly (target : string) (polys : value)
| ShpRecord (target : string) (values : list value)
| ShpClose (target : string)
| Raster (path : string) (bands : Z)
| Zip (path : string) (members : list string).

(** Where the script runs: the modules that can be imported, the files
    [open] can create, the directory's earlier content, and the standard
    encoders.  The third-party writers are taken to succeed on what the
    script hands them, and [OUTPUT_DIR.mkdir(exist_ok=True)] to succeed. *)
Class Environment : Type := {
  output_dir : string;
  importable : string -> bool;
  can_open : string -> bool;
  listing : list string;
  json_text : value -> string;
  csv_line : list value -> string;
  str_exn : exn -> string
}.

Definition nl : string := String "010"%char "".
Definition dq : string := String "034"%char "".

(** [bool(v)] *)
Definition truthy (v : value) : bool :=
  match v with
  | Int z => negb (z =? 0)
  | Flt f => negb (SFeqb f (S754_zero false))
  | Str s => negb (String.eqb s "")
  | Lst l => match l with [] => false | _ => true end
  | Dict d => match d with [] => false | _ => true end
  end.

(** [v[0]]; dict keys are strings here, so a dict has no key [0]. *)
Definition getitem0 (v : value) : outcome value :=
  match v with
  | Lst (x :: _) => Ok x
  | Lst [] => Raise IndexError
  | Str (String c _) => Ok (Str (String c ""))
  | Str EmptyString => Raise IndexError
  | Dict _ => Raise (KeyError "0")
  | _ => Raise TypeError
  end.

(** [len(v)] *)
Definition len (v : value) : outcome Z :=
  match v with
  | Lst l => Ok (Z.of_nat (List.length l))
  | Str s => Ok (Z.of_nat (String.length s))
  | Dict d => Ok (Z.of_nat (List.length d))
  | _ => Raise TypeError
  end.

(** [v == s] for a string literal [s] *)
Definition eq_str (v : value) (s : string) : bool :=
  match v with Str s' => String.eqb s' s | _ => false end.

(** [v.items()] *)
Definition items (v : value) : outcome (list (string * value)) :=
  match v with Dict d => Ok d | _ => Raise AttributeError end.

Fixpoint chars (s : string) : list value :=
  match s with
  | EmptyString => []
  | String c s' => Str (String c "") :: chars s'
  end.

(** The elements a loop over [v], or unpacking [v] into arguments, runs
    over. *)
Definition iterate (v : value) : outcome (list value) :=
  match v with
  | Lst l => Ok l
  | Str s => Ok (chars s)
  | Dict d => Ok (map Str (keys d))
  | _ => Raise TypeError
  end.

(** [csv.DictWriter._dict_to_list]: a key outside [fieldnames] is an error,
    a missing one is written as the empty string. *)
Definition dict_to_list (fieldnames : list string) (row : value)
  : outcome (list value) :=
  match row with
  | Dict d =>
      if forallb (fun k => existsb (String.eqb k) fieldnames) (keys d)
      then Ok (map (fun k => match assoc k d with Some v => v | None => Str "" end)
                   fieldnames)
      else Raise ValueError
  | _ => Raise AttributeError
  end.

Section Script.

Context {RS : RandomSource} {ML : MathLib} {Env : Environment}.

Record world : Type := { rng : rstate; log : list event }.

Definition IO (A : Type) : Type := Eff world A.

Definition draw {A} (m : Rand A) : IO A :=
  fun w => let (r, s') := m (rng w) in (r, {| rng := s'; log := log w |}).

Definition emit (e : event) : IO unit :=
  fun w => (Ok tt, {| rng := rng w; log := (log w ++ [e])%list |}).

Definition print (line : string) : IO unit := emit (Print line).

Definition lift {A} (o : outcome A) : IO A := fun w => (o, w).

(** [try: m  except Exception as e: handler(e)] *)
Definition try_except {A} (m : IO A) (handler : exn -> IO A) : IO A :=
  fun w => match m w with
           | (Ok a, w') => (Ok a, w')
           | (Raise e, w') => handler e w'
           end.

(** [open(path, "w")] *)
Definition open_w (path : string) : IO unit :=
  if can_open path then emit (Open path) else raise (OSError path).

(** *** Shapefile generation *)

Definition prj_content : string :=
  "GEOGCS[" ++ dq ++ "WGS 84" ++ dq ++ ",DATUM[" ++ dq ++ "WGS_1984" ++ dq
  ++ ",SPHEROID[" ++ dq ++ "WGS 84" ++ dq ++ ",6378137,298.257223563]],PRIMEM["
  ++ dq ++ "Greenwich" ++ dq ++ ",0],UNIT[" ++ dq ++ "degree" ++ dq
  ++ ",0.0174532925199433]]".

(** The writer the geometry type selects, if any. *)
Definition writer_kind (geom_type : value) : option shape_kind :=
  if eq_str geom_type "Point" then Some POINT
  else if eq_str geom_type "LineString" then Some POLYLINE
  else if eq_str geom_type "Polygon" then Some POLYGON
  else None.

(** [w.field(key[:10], ...)], by the type of the first feature's value.
    A [string] is a sequence of bytes, so [key[:10]] is exact for ASCII
    keys, and a [value] is never a [bool]: both hold for every property
    the generators build. *)
Definition add_field (target : string) (kv : string * value) : IO unit :=
  let (key, val) := kv in
  match val with
  | Int _ => emit (ShpField target (substring 0 10 key) "N" 10 0)
  | Flt _ => emit (ShpField target (substring 0 10 key) "N" 16 6)
  | _ => emit (ShpField target (substring 0 10 key) "C" 100 0)
  end.

(** [w.point] on the unpacked coordinates, [w.line([coordinates])] or
    [w.poly(coordinates)].  The call is recorded with its arguments; what
    the writer itself makes of them is outside the model, and it is taken to
    accept them, as it does the coordinates the generators build. *)
Definition add_shape (target : string) (kind : shape_kind) (geom : value)
  : IO unit :=
  coordinates <- lift (getitem geom "coordinates") ;;
  match kind with
  | POINT =>
      args <- lift (iterate coordinates) ;;
      match args with
      | [x; y] => emit (ShpPoint target x y)
      | _ => raise TypeError
      end
  | POLYLINE => emit (ShpLine target (Lst [coordinates]))
  | POLYGON => emit (ShpPoly target coordinates)
  end.

(** [[props.get(k, "") for k in ks]] *)
Definition record_values (ks : list string) (props : value)
  : outcome (list value) :=
  match ks, props with
  | [], _ => Ok []
  | _, Dict d =>
      Ok (map (fun k => match assoc k d with Some v => v | None => Str "" end) ks)
  | _, _ => Raise AttributeError
  end.

Definition generate_shapefile (geojson_data : value) (name : string) : IO bool :=
  if negb (importable "shapefile") then
    print ("  Skipping " ++ name ++ ".shp (pip install pyshp)") ;;
    ret false
  else
    features <- lift (getitem geojson_data "features") ;;
    if negb (truthy features) then ret false else
    f0 <- lift (getitem0 features) ;;
    geometry0 <- lift (getitem f0 "geometry") ;;
    geom_type <- lift (getitem geometry0 "type") ;;
    match writer_kind geom_type with
    | None => ret false
    | Some kind =>
        emit (ShpWriter name kind) ;;
        props0 <- lift (getitem f0 "properties") ;;
        fields <- lift (items props0) ;;
        for_each fields (add_field name) ;;
        fs <- lift (iterate features) ;;
        for_each fs (fun f =>
          geom <- lift (getitem f "geometry") ;;
          props <- lift (getitem f "properties") ;;
          add_shape name kind geom ;;
          values <- lift (record_values (keys fields) props) ;;
          emit (ShpRecord name values)) ;;
        emit (ShpClose name) ;;
        open_w (name ++ ".prj") ;;
        emit (Write (name ++ ".prj") prj_content) ;;
        ret true
    end.

(** *** GeoTIFF generation *)

(** The rasters are numpy arrays (with noise from numpy's own generator,
    not from [random]); only the two files written are recorded. *)
Definition generate_geotiff : IO bool :=
  if negb (importable "numpy" && importable "rasterio") then
    print "  Skipping GeoTIFF (pip install numpy rasterio)" ;;
    ret false
  else
    emit (Raster "elevation.tif" 1) ;;
    emit (Raster "satellite_rgb.tif" 3) ;;
    ret true.

(** *** Main *)

Definition created (e : event) : list string :=
  match e with
  | Open p => [p]
  | ShpWriter t _ => [t ++ ".shp"; t ++ ".shx"; t ++ ".dbf"]
  | Raster p _ => [p]
  | Zip p _ => [p]
  | _ => []
  end.

(** The files of [OUTPUT_DIR]: the earlier ones, then those of this run. *)
Definition directory (w : world) : list string :=
  nodup string_dec (listing ++ flat_map created (log w)).

(** [OUTPUT_DIR.glob(stem + "*")] *)
Definition glob (stem : string) : IO (list string) :=
  fun w => (Ok (filter (String.prefix stem) (directory w)), w).

(** [with open(path, "w") as f: json.dump(data, f, indent=2)] *)
Definition write_json (path : string) (data : value) : IO unit :=
  open_w path ;;
  emit (Write path (json_text data)).

(** The [csv.DictWriter] block: header from the first row's keys, then
    one line per row. *)
Definition write_csv (path : string) (rows : list value) : IO unit :=
  open_w path ;;
  row0 <- lift (getitem0 (Lst rows)) ;;
  fields <- lift (items row0) ;;
  let fieldnames := keys fields in
  emit (Write path (csv_line (map Str fieldnames))) ;;
  for_each rows (fun row =>
    values <- lift (dict_to_list fieldnames row) ;;
    emit (Write path (csv_line values))) ;;
  ret tt.

Definition main : IO unit :=
  print "Generating Spinifex test data..." ;;
  print ("Output directory: " ++ output_dir) ;;
  emit Mkdir ;;
  print (nl ++ "GeoJSON files:") ;;
  drillholes <- draw (generate_drillholes_geojson 50) ;;
  geology <- draw (generate_geology_geojson 15) ;;
  tenements <- draw (generate_tenements_geojson 8) ;;
  tracks <- draw (generate_tracks_geojson 5) ;;
  let datasets := [("drillholes", drillholes); ("geology", geology);
                   ("tenements", tenements); ("tracks", tracks)] in
  for_each datasets (fun '(name, data) =>
    let path := name ++ ".geojson" in
    write_json path data ;;
    features <- lift (getitem data "features") ;;
    count <- lift (len features) ;;
    print ("  " ++ path ++ " (" ++ str_Z count ++ " features)")) ;;
  print (nl ++ "CSV files:") ;;
  assays <- draw (generate_assays_csv 100) ;;
  write_csv "assays.csv" assays ;;
  print ("  assays.csv (" ++ str_Z (Z.of_nat (List.length assays)) ++ " rows)") ;;
  survey <- draw (generate_survey_csv 200) ;;
  write_csv "survey_points.csv" survey ;;
  print ("  survey_points.csv (" ++ str_Z (Z.of_nat (List.length survey)) ++ " rows)") ;;
  print (nl ++ "Shapefiles:") ;;
  for_each datasets (fun '(name, data) =>
    written <- generate_shapefile data name ;;
    if written then print ("  " ++ name ++ ".shp") else ret tt) ;;
  print (nl ++ "GeoTIFF files:") ;;
  written <- generate_geotiff ;;
  (if written then
     print "  elevation.tif (single band)" ;;
     print "  satellite_rgb.tif (3 bands)"
   else ret tt) ;;
  try_except
    (shp_files <- glob "drillholes." ;;
     match shp_files with
     | [] => ret tt
     | _ =>
         (if can_open "drillholes_shp.zip"
          then emit (Zip "drillholes_shp.zip" shp_files)
          else raise (OSError "drillholes_shp.zip")) ;;
         print (nl ++ "Zipped shapefile: drillholes_shp.zip")
     end)
    (fun e => print ("  Could not create zip: " ++ str_exn e)) ;;
  print (nl ++ "Done! Drag files onto Spinifex to test.").

End Script.

(** ** Reading generated values *)

(** The two dict shapes every generator builds. *)
Definition collection (features : list value) : value :=
  Dict [("type", Str "FeatureCollection"); ("features", Lst features)].

Definition feature (gtype : string) (coords : value) (props : list (string * value))
  : value :=
  Dict [("type", Str "Feature");
        ("geometry", Dict [("type", Str gtype); ("coordinates", coords)]);
        ("properties", Dict props)].

(** What [uniform a b] returns when [random()] is [k * 2^-53]. *)
Definition scaled (a b : float) (k : Z) : float :=
  Float.add a (Float.mul (Float.sub b a) (Float.ldexp k (-53))).


Definition and_then {A B} (o : outcome A) (k : A -> outcome B) : outcome B :=
  match o with Ok a => k a | Raise e => Raise e end.

(** [f["geometry"]["type"]], [f["geometry"]["coordinates"]] and
    [f["properties"][k]] *)
Definition geometry_type (f : value) : outcome value :=
  and_then (getitem f "geometry") (fun g => getitem g "type").

Definition coordinates (f : value) : outcome value :=
  and_then (getitem f "geometry") (fun g => getitem g "coordinates").

Definition property (f : value) (k : string) : outcome value :=
  and_then (getitem f "properties") (fun p => getitem p k).

(** Every element of [v["features"]] satisfies [P]. *)
Definition features_all (P : value -> Prop) (v : value) : Prop :=
  exists fs, getitem v "features" = Ok (Lst fs) /\ Forall P fs.

(** A GeoJSON feature collection: the object and each of its features have
    the members the format asks for. *)
Definition geojson_feature (f : value) : Prop :=
  getitem f "type" = Ok (Str "Feature") /\
  (exists geometry gtype coords,
     getitem f "geometry" = Ok (Dict geometry) /\
     getitem (Dict geometry) "type" = Ok (Str gtype) /\
     getitem (Dict geometry) "coordinates" = Ok coords) /\
  (exists props, getitem f "properties" = Ok (Dict props)).

Definition geojson_collection (v : value) : Prop :=
  getitem v "type" = Ok (Str "FeatureCollection") /\ features_all geojson_feature v.

(** A collection of exactly [n] features. *)
Definition counted (n : Z) (v : value) : Prop :=
  exists fs, getitem v "features" = Ok (Lst fs) /\ Z.of_nat (List.length fs) = n.

(** A non-empty ["properties"] object. *)
Definition has_properties (f : value) : Prop :=
  exists d, getitem f "properties" = Ok (Dict d) /\ d <> [].

Definition within (lo hi x : float) : Prop :=
  Float.leb lo x = true /\ Float.leb x hi = true.

Definition in_bounds (p : float * float) : Prop :=
  within (Float.lit 1165 10) (Float.lit 1185 10) (fst p) /\
  within (Float.neg (Float.lit 235 10)) (Float.neg (Float.lit 215 10)) (snd p).

(** A ring that ends where it starts. *)
Definition closed_ring {A} (ring : list A) : Prop :=
  match ring with
  | [] => False
  | c0 :: _ => last ring c0 = c0
  end.

(** A collection of [n] features, or a table of [n] rows, that all satisfy
    [P]. *)
Definition collects (P : value -> Prop) (n : Z) (v : value) : Prop :=
  exists fs, v = collection fs /\ List.length fs = Z.to_nat n /\ Forall P fs.

Definition rows (P : value -> Prop) (n : Z) (l : list value) : Prop :=
  List.length l = Z.to_nat n /\ Forall P l.

(** *** What one feature or row of each generator looks like *)

Definition drillhole (f : value) : Prop :=
  exists p props,
    f = feature "Point" (point_value p) props /\ in_bounds p /\ props <> [].

Definition geology_polygon (f : value) : Prop :=
  exists ring props,
    f = feature "Polygon" (Lst [Lst (map point_value ring)]) props /\
    Z.of_nat (List.length ring) = 7 /\ closed_ring ring /\ props <> [].

Definition tenement_fields : list string :=
  ["tenement_id"; "type"; "holder"; "area_km2"; "granted"; "status"].

Definition tenement (f : value) : Prop :=
  exists center size props type status,
    f = feature "Polygon" (Lst [Lst (map point_value (tenement_ring center size))]) props /\
    keys props = tenement_fields /\
    assoc "type" props = Some (Str type) /\
    In type ["Exploration"; "Mining"; "Prospecting"; "Retention"] /\
    assoc "status" props = Some (Str status) /\
    In status ["Active"; "Pending"].

Definition track (f : value) : Prop :=
  exists coords props,
    f = feature "LineString" (Lst (map point_value coords)) props /\ props <> [].

Definition assay_fields : list string :=
  ["sample_id"; "longitude"; "latitude"; "easting"; "northing"; "fe_pct";
   "sio2_pct"; "al2o3_pct"; "p_pct"; "s_pct"; "sample_type"].

Definition survey_fields : list string :=
  ["point_id"; "x"; "y"; "elevation_m"; "description"].

(** A row whose fields are [fields] and whose two coordinate columns hold
    the rounded coordinates of a point within the bounds. *)
Definition located_row {ML : MathLib} (fields : list string) (x y : string)
  (row : value) : Prop :=
  exists p d,
    row = Dict d /\ keys d = fields /\ in_bounds p /\
    assoc x d = Some (round_value (fst p) 6) /\
    assoc y d = Some (round_value (snd p) 6).

(** *** What a run leaves in the log *)

Section Traces.

Context {RS : RandomSource} {ML : MathLib} {Env : Environment}.

(** The CSV generators return a list of rows; as one value it is a list. *)
Definition as_value (m : Rand (list value)) : Rand value :=
  table <- m ;; ret (Lst table).

Definition generators : list (Z -> Rand value) :=
  [generate_drillholes_geojson; generate_geology_geojson;
   generate_tenements_geojson; generate_tracks_geojson;
   fun n => as_value (generate_assays_csv n);
   fun n => as_value (generate_survey_csv n)].

(** Running [first] beforehand does not change what [second] returns. *)
Definition independent (first second : Rand value) (s : rstate) : Prop :=
  fst (second (snd (first s))) = fst (second s).

Definition opening : list event :=
  [Print "Generating Spinifex test data...";
   Print ("Output directory: " ++ output_dir);
   Mkdir;
   Print (nl ++ "GeoJSON files:")].

(** One [.geojson] file written and reported. *)
Definition saved_json (name : string) (data : value) (count : Z) : list event :=
  [Open (name ++ ".geojson");
   Write (name ++ ".geojson") (json_text data);
   Print ("  " ++ (name ++ ".geojson") ++ " (" ++ str_Z count ++ " features)")].

(** The cells of a row in the order of [fields]. *)
Definition cells (fields : list string) (row : value) : list value :=
  match row with
  | Dict d => map (fun k => match assoc k d with Some v => v | None => Str "" end) fields
  | _ => []
  end.

(** One [.csv] file written: a header line, then a line per row. *)
Definition saved_csv (path : string) (fields : list string) (table : list value)
  : list event :=
  (Open path
   :: Write path (csv_line (map Str fields))
   :: map (fun row => Write path (csv_line (cells fields row))) table)%list.

Definition reported_csv (path : string) (count : Z) : event :=
  Print ("  " ++ path ++ " (" ++ str_Z count ++ " rows)").

Definition dataset_names : list string :=
  ["drillholes"; "geology"; "tenements"; "tracks"].

(** The events of the three later phases. *)
Definition shapefile_event (e : event) : bool :=
  match e with
  | Print _ => true
  | ShpWriter t _ | ShpField t _ _ _ _ | ShpPoint t _ _ | ShpLine t _
  | ShpPoly t _ | ShpRecord t _ | ShpClose t =>
      existsb (String.eqb t) dataset_names
  | Open p | Write p _ =>
      existsb (fun t => String.eqb p (t ++ ".prj")) dataset_names
  | _ => false
  end.

Definition raster_event (e : event) : bool :=
  match e with
  | Print _ => true
  | Raster p _ => String.eqb p "elevation.tif" || String.eqb p "satellite_rgb.tif"
  | _ => false
  end.

Definition zip_event (e : event) : bool :=
  match e with
  | Print _ => true
  | Zip p _ => String.eqb p "drillholes_shp.zip"
  | _ => false
  end.

(** The six generators run once each, in this order, threading the
    random state from [s0] to [s6]; [s4] and [s5] are the states after the
    GeoJSON datasets and after the assays. *)
Definition generated (s0 : rstate) (d g t k : value) (a v : list value)
  (s4 s5 s6 : rstate) : Prop :=
  exists s1 s2 s3,
    generate_drillholes_geojson 50 s0 = (Ok d, s1) /\
    generate_geology_geojson 15 s1 = (Ok g, s2) /\
    generate_tenements_geojson 8 s2 = (Ok t, s3) /\
    generate_tracks_geojson 5 s3 = (Ok k, s4) /\
    generate_assays_csv 100 s4 = (Ok a, s5) /\
    generate_survey_csv 200 s5 = (Ok v, s6).

(** The log of the first two phases. *)
Definition geojson_phase (d g t k : value) : list event :=
  (saved_json "drillholes" d 50 ++ saved_json "geology" g 15
   ++ saved_json "tenements" t 8 ++ saved_json "tracks" k 5)%list.

Definition csv_phase (a v : list value) : list event :=
  (Print (nl ++ "CSV files:")
   :: saved_csv "assays.csv" assay_fields a
   ++ reported_csv "assays.csv" 100
   :: saved_csv "survey_points.csv" survey_fields v
   ++ [reported_csv "survey_points.csv" 200])%list.

(** The text of [path] after the events [l]: the chunks written since it
    was last opened, if it was. *)
Fixpoint contents (path : string) (l : list event) (acc : option (list string))
  : option (list string) :=
  match l with
  | [] => acc
  | Open p :: l' =>
      contents path l' (if String.eqb p path then Some [] else acc)
  | Write p text :: l' =>
      contents path l'
        (if String.eqb p path
         then match acc with Some c => Some (c ++ [text])%list | None => None end
         else acc)
  | _ :: l' => contents path l' acc
  end.

(** [w] after the events [l]. *)
Definition logged (w : world) (l : list event) : world :=
  {| rng := rng w; log := (log w ++ l)%list |}.

(** [w'] is [w] after more events, all of them of kind [P]; the random
    state is untouched. *)
Definition extends (P : event -> bool) (w w' : world) : Prop :=
  exists l, w' = logged w l /\ forallb P l = true.

(** A row that is a dict with exactly the keys [fields], in that order. *)
Definition keyed (fields : list string) (row : value) : Prop :=
  exists d, row = Dict d /\ keys d = fields.

(** A feature the writer of kind [kind] accepts. *)
Definition shaped (kind : shape_kind) (f : value) : Prop :=
  exists g coords props,
    f = feature g coords props /\ writer_kind (Str g) = Some kind /\
    (kind = POINT -> exists x y, coords = Lst [x; y]).

Definition finale : event :=
  Print (nl ++ "Done! Drag files onto Spinifex to test.").

Definition zipped (members : list string) : list event :=
  [Zip "drillholes_shp.zip" members;
   Print (nl ++ "Zipped shapefile: drillholes_shp.zip")].

(** The four GeoJSON generators run once each, in this order. *)
Definition generated_geojson (s0 : rstate) (d g t k : value) (s4 : rstate)
  : Prop :=
  exists s1 s2 s3,
    generate_drillholes_geojson 50 s0 = (Ok d, s1) /\
    generate_geology_geojson 15 s1 = (Ok g, s2) /\
    generate_tenements_geojson 8 s2 = (Ok t, s3) /\
    generate_tracks_geojson 5 s3 = (Ok k, s4).

(** Every file the run opens itself can be opened. *)
Definition outputs_writable : Prop :=
  (forall name, In name dataset_names -> can_open (name ++ ".geojson") = true) /\
  can_open "assays.csv" = true /\
  can_open "survey_points.csv" = true /\
  (importable "shapefile" = true ->
   forall name, In name dataset_names -> can_open (name ++ ".prj") = true).

(** A run of [main] from [w] to [w'] that went through every phase. *)
Definition complete_run (w w' : world) : Prop :=
  exists d g t k a v s4 s5 shp tif zip,
    generated (rng w) d g t k a v s4 s5 (rng w') /\
    (collects drillhole 50 d /\ collects geology_polygon 15 g /\
     collects tenement 8 t /\ collects track 5 k /\
     rows (located_row assay_fields "longitude" "latitude") 100 a /\
     rows (located_row survey_fields "x" "y") 200 v) /\
    log w' =
      (log w ++ opening ++ geojson_phase d g t k ++ csv_phase a v
       ++ Print (nl ++ "Shapefiles:") :: shp
       ++ Print (nl ++ "GeoTIFF files:") :: tif
       ++ zip ++ [finale])%list /\
    forallb shapefile_event shp = true /\
    forallb raster_event tif = true /\
    forallb zip_event zip = true /\
    (can_open "drillholes_shp.zip" = true ->
     exists members, In "drillholes.geojson" members /\ zip = zipped members).

(** Whether an event opens or writes [path]. *)
Definition touches (path : string) (e : event) : bool :=
  match e with
  | Open p | Write p _ => String.eqb p path
  | _ => false
  end.

Definition output_files : list string :=
  ["drillholes.geojson"; "geology.geojson"; "tenements.geojson"; "tracks.geojson";
   "assays.csv"; "survey_points.csv"].

(** The six files as a complete run leaves them. *)
Definition files_written (l : list event) (d g t k : value) (a v : list value)
  : Prop :=
  contents "drillholes.geojson" l None = Some [json_text d] /\
  contents "geology.geojson" l None = Some [json_text g] /\
  contents "tenements.geojson" l None = Some [json_text t] /\
  contents "tracks.geojson" l None = Some [json_text k] /\
  contents "assays.csv" l None =
    Some (csv_line (map Str assay_fields)
          :: map (fun row => csv_line (cells assay_fields row)) a) /\
  contents "survey_points.csv" l None =
    Some (csv_line (map Str survey_fields)
          :: map (fun row => csv_line (cells survey_fields row)) v).

End Traces.

(** ** Further readings of generated values *)

(** The items of [l] carry [label 1], [label 2], ... under [read], in the
    order of the list. *)
Definition numbered (read : value -> outcome value) (label : Z -> value)
  (l : list value) : Prop :=
  forall i x, nth_error l i = Some x -> read x = Ok (label (Z.of_nat i + 1)).



(** The stratigraphic table of [generate_geology_geojson]. *)
Definition stratigraphy : list geology_unit := [
  {| code := "BIF"; name := "Banded Iron Formation"; age_ma := 2500; color := "#8B0000" |};
  {| code := "SHL"; name := "Shale"; age_ma := 2450; color := "#556B2F" |};
  {| code := "DOL"; name := "Dolerite"; age_ma := 2000; color := "#2F4F4F" |};
  {| code := "GRN"; name := "Granite"; age_ma := 2700; color := "#FFB6C1" |};
  {| code := "LAT"; name := "Laterite"; age_ma := 50; color := "#CD853F" |};
  {| code := "ALV"; name := "Alluvium"; age_ma := 1; color := "#F5DEB3" |}].

(** The four unit attributes of a geology feature are those of one row of
    the table. *)
Definition geology_attributes (f : value) : Prop :=
  (exists unit, In unit stratigraphy /\
     property f "code" = Ok (Str (code unit)) /\
     property f "name" = Ok (Str (name unit)) /\
     property f "age_ma" = Ok (Int (age_ma unit)) /\
     property f "color" = Ok (Str (color unit))) /\
  (exists confidence, property f "confidence" = Ok (Str confidence) /\
     In confidence ["High"; "Medium"; "Low"]).

(** A track: a "LineString" of one starting point within the bounds followed
    by 5 to 12 further points, with attributes from the fixed lists. *)
Definition track_line (f : value) : Prop :=
  geometry_type f = Ok (Str "LineString") /\
  exists start rest,
    coordinates f = Ok (Lst (map point_value (start :: rest))) /\
    in_bounds start /\ (5 <= List.length rest <= 12)%nat /\
    (exists surface, property f "surface" = Ok (Str surface) /\
       In surface ["Gravel"; "Dirt"; "Sealed"]) /\
    (exists width, property f "width_m" = Ok (Int width) /\
       In width [4; 6; 8; 10; 15]).

(** [YYYY-MM-DD] with a day that exists in every month. *)
Definition iso_date (s : string) : Prop :=
  exists y m d,
    2010 <= y <= 2023 /\ 1 <= m <= 12 /\ 1 <= d <= 28 /\
    s = str_Z y ++ "-" ++ fmt_0d 2 m ++ "-" ++ fmt_0d 2 d /\
    String.length s = 10%nat.

(** [E<district>/<number>], eight characters. *)
Definition tenement_number (s : string) : Prop :=
  exists district number,
    45 <= district <= 52 /\ 1000 <= number <= 9999 /\
    s = "E" ++ str_Z district ++ "/" ++ str_Z number /\
    String.length s = 8%nat.

Definition tenement_attributes (f : value) : Prop :=
  (exists id, property f "tenement_id" = Ok (Str id) /\ tenement_number id) /\
  (exists holder, property f "holder" = Ok (Str holder) /\
     In holder ["Iron Ore Co"; "Pilbara Mining"; "Red Earth Resources";
                "Outback Minerals"]) /\
  (exists granted, property f "granted" = Ok (Str granted) /\ iso_date granted).

(** *** What the shapefile writer is asked to do *)

(** The field declared for one property of the first feature. *)
Definition field_event (target : string) (kv : string * value) : event :=
  match snd kv with
  | Int _ => ShpField target (substring 0 10 (fst kv)) "N" 10 0
  | Flt _ => ShpField target (substring 0 10 (fst kv)) "N" 16 6
  | _ => ShpField target (substring 0 10 (fst kv)) "C" 100 0
  end.

(** [props.get(k, "")] *)
Definition get_or_blank (props : list (string * value)) (k : string) : value :=
  match assoc k props with Some v => v | None => Str "" end.

(** The shape a writer of kind [kind] is given for [coords]. *)
Definition draws (target : string) (kind : shape_kind) (coords : value)
  (e : event) : Prop :=
  match kind with
  | POINT => exists x y, coords = Lst [x; y] /\ e = ShpPoint target x y
  | POLYLINE => e = ShpLine target (Lst [coords])
  | POLYGON => e = ShpPoly target coords
  end.

(** A feature on which the writer calls as modelled go through, whatever
    its own geometry type says: only [w.point] looks at the coordinates.
    The writer itself takes fewer; the generated features are among them. *)
Definition accepted (kind : shape_kind) (f : value) : Prop :=
  exists g coords props,
    f = feature g coords props /\
    (kind = POINT -> exists x y, coords = Lst [x; y]).

(** One feature written: its shape, then a record with one value for each
    of the keys [ks]. *)
Definition feature_written (target : string) (kind : shape_kind)
  (ks : list string) (f : value) (es : list event) : Prop :=
  exists g coords props shape,
    f = feature g coords props /\ draws target kind coords shape /\
    es = [shape; ShpRecord target (map (get_or_blank props) ks)].

(** The events up to, and not including, closing the writer. *)
Definition shapefile_begun (target : string) (kind : shape_kind)
  (props0 : list (string * value)) (fs : list value) (l : list event) : Prop :=
  exists body,
    Forall2 (feature_written target kind (keys props0)) fs body /\
    l = (ShpWriter target kind :: map (field_event target) props0
         ++ List.concat body)%list.

Definition shapefile_end (target : string) : list event :=
  [ShpClose target; Open (target ++ ".prj");
   Write (target ++ ".prj") prj_content].

(** A whole shapefile written from the features [fs]. *)
Definition shapefile_written (target : string) (kind : shape_kind)
  (fs : list value) (l : list event) : Prop :=
  exists g0 c0 props0 rest begun,
    fs = feature g0 c0 props0 :: rest /\
    writer_kind (Str g0) = Some kind /\
    shapefile_begun target kind props0 fs begun /\
    l = (begun ++ shapefile_end target)%list.

(** The number of events of [l] that satisfy [p]. *)
Definition count_events (p : event -> bool) (l : list event) : nat :=
  List.length (filter p l).

Definition is_field (e : event) : bool :=
  match e with ShpField _ _ _ _ _ => true | _ => false end.

Definition is_record (e : event) : bool :=
  match e with ShpRecord _ _ => true | _ => false end.

Definition is_shape (e : event) : bool :=
  match e with ShpPoint _ _ _ | ShpLine _ _ | ShpPoly _ _ => true | _ => false end.

(** Field names have at most 10 characters and records [arity] values. *)
Definition well_formed (arity : nat) (e : event) : Prop :=
  match e with
  | ShpField _ name _ _ _ => (String.length name <= 10)%nat
  | ShpRecord _ values => List.length values = arity
  | _ => True
  end.

(** *** The later phases of a run, event by event *)

Section LaterPhases.

Context {RS : RandomSource} {ML : MathLib} {Env : Environment}.

(** The datasets [main] hands to [generate_shapefile], each with the kind
    of writer its features select. *)
Definition shapefile_inputs : list ((Z -> Rand value) * shape_kind) :=
  [(generate_drillholes_geojson, POINT); (generate_geology_geojson, POLYGON);
   (generate_tenements_geojson, POLYGON); (generate_tracks_geojson, POLYLINE)].

Definition skipped_shapefile (name : string) : event :=
  Print ("  Skipping " ++ name ++ ".shp (pip install pyshp)").

(** One dataset in the shapefile phase: written and reported, or skipped. *)
Definition shapefile_step (name : string) (kind : shape_kind) (data : value)
  (l : list event) : Prop :=
  if importable "shapefile"
  then exists fs written,
         data = collection fs /\ shapefile_written name kind fs written /\
         l = (written ++ [Print ("  " ++ name ++ ".shp")])%list
  else l = [skipped_shapefile name].

Definition shapefile_phase (d g t k : value) (shp : list event) : Prop :=
  exists ld lg lt lk,
    shapefile_step "drillholes" POINT d ld /\
    shapefile_step "geology" POLYGON g lg /\
    shapefile_step "tenements" POLYGON t lt /\
    shapefile_step "tracks" POLYLINE k lk /\
    shp = (ld ++ lg ++ lt ++ lk)%list.

Definition geotiff_phase : list event :=
  if importable "numpy" && importable "rasterio"
  then [Raster "elevation.tif" 1; Raster "satellite_rgb.tif" 3;
        Print "  elevation.tif (single band)";
        Print "  satellite_rgb.tif (3 bands)"]
  else [Print "  Skipping GeoTIFF (pip install numpy rasterio)"].

(** The files [glob("drillholes.*")] finds after the events [before]. *)
Definition zip_members (before : list event) : list string :=
  filter (String.prefix "drillholes.")
         (nodup string_dec (listing ++ flat_map created before)).

Definition zip_failure : event :=
  Print ("  Could not create zip: " ++ str_exn (OSError "drillholes_shp.zip")).

Definition zip_phase (before : list event) : list event :=
  match zip_members before with
  | [] => []
  | members =>
      if can_open "drillholes_shp.zip" then zipped members else [zip_failure]
  end.

(** The events of a run before the zip step. *)
Definition before_zip (d g t k : value) (a v : list value) (shp : list event)
  : list event :=
  (opening ++ geojson_phase d g t k ++ csv_phase a v
   ++ Print (nl ++ "Shapefiles:") :: shp
   ++ Print (nl ++ "GeoTIFF files:") :: geotiff_phase)%list.

(** A run of [main] from [w] to [w'], event by event. *)
Definition run_trace (w w' : world) : Prop :=
  exists d g t k a v s4 s5 shp,
    generated (rng w) d g t k a v s4 s5 (rng w') /\
    (collects drillhole 50 d /\ collects geology_polygon 15 g /\
     collects tenement 8 t /\ collects track 5 k /\
     rows (located_row assay_fields "longitude" "latitude") 100 a /\
     rows (located_row survey_fields "x" "y") 200 v) /\
    shapefile_phase d g t k shp /\
    log w' =
      (log w ++ before_zip d g t k a v shp
       ++ zip_phase (log w ++ before_zip d g t k a v shp) ++ [finale])%list.

(** The files of a shapefile. *)
Definition shapefile_parts (name : string) : list string :=
  [name ++ ".shp"; name ++ ".shx"; name ++ ".dbf"; name ++ ".prj"].

(** The two rasters. *)
Definition raster_files : list string := ["elevation.tif"; "satellite_rgb.tif"].

(** The values of a row in the order of its keys. *)
Definition row_values (row : value) : list value :=
  match row with Dict d => map snd d | _ => [] end.

End LaterPhases.

(** ** A concrete runtime for closed examples *)

Module Demo.

(** A 64-bit linear congruential generator (Knuth's MMIX constants); every
    draw advances it by one step. *)
Definition lcg_next (x : Z) : Z :=
  (6364136223846793005 * x + 1442695040888963407) mod 2 ^ 64.

Definition lcg_bits53 (x : Z) : Z * Z :=
  let x' := lcg_next x in (x' / 2 ^ 11, x').

Definition lcg_randbelow (n x : Z) : Z * Z :=
  let x' := lcg_next x in ((x' / 2 ^ 11) mod n, x').

(** A deviate in [-4, 4): enough for a run, with no claim to normality. *)
Definition lcg_normal (x : Z) : float * Z :=
  let x' := lcg_next x in (Float.ldexp (x' / 2 ^ 11 - 2 ^ 52) (-50), x').

#[export, refine] Instance lcg : RandomSource := {|
  rstate := Z;
  bits53 := lcg_bits53;
  randbelow := lcg_randbelow;
  normal := lcg_normal
|}.
Proof.
  - intros s. unfold lcg_bits53, lcg_next. cbn [fst].
    set (x := (6364136223846793005 * s + 1442695040888963407) mod 2 ^ 64).
    assert (0 <= x < 2 ^ 64) by (apply Z.mod_pos_bound; lia).
    split; [apply Z.div_pos; lia|].
    apply Z.div_lt_upper_bound; [lia|]. change (2 ^ 11 * 2 ^ 53) with (2 ^ 64). lia.
  - intros n s Hn. unfold lcg_randbelow. cbn [fst]. apply Z.mod_pos_bound. lia.
Defined.

(** Sixteen terms of the Taylor series stand in for [math.cos] and
    [math.sin]; [series x2 k j] is [1 - x2/(j(j+1)) * (1 - x2/((j+2)(j+3)) * ...)]. *)
Fixpoint series (x2 : float) (k : nat) (j : Z) : float :=
  match k with
  | O => Float.of_Z 1
  | S k' =>
      Float.sub (Float.of_Z 1)
        (Float.mul (Float.div x2 (Float.of_Z (j * (j + 1)))) (series x2 k' (j + 2)))
  end.

Definition taylor_cos (x : float) : float := series (Float.mul x x) 16 1.

Definition taylor_sin (x : float) : float :=
  Float.mul x (series (Float.mul x x) 16 2).

(** Rounding to [ndigits] decimals, half to even on the exact value, then
    back to the nearest double. *)
Definition half_even (num den : Z) : Z :=
  let q := num / den in
  match 2 * (num mod den) ?= den with
  | Lt => q
  | Gt => q + 1
  | Eq => if Z.even q then q else q + 1
  end.

Definition decimal_round (x : float) (ndigits : Z) : float :=
  match x with
  | S754_finite s m e =>
      let p := 10 ^ ndigits in
      let n := if 0 <=? e then Zpos m * 2 ^ e * p
               else half_even (Zpos m * p) (2 ^ (- e)) in
      let r := Float.div (Float.of_Z n) (Float.of_Z p) in
      if s then Float.neg r else r
  | _ => x
  end.

#[export] Instance math : MathLib := {|
  cos := taylor_cos;
  sin := taylor_sin;
  round_float := decimal_round
|}.

(** A compact JSON printer; a finite double is printed as its exact
    decimal expansion. *)
Definition decimal (f : float) : string :=
  match f with
  | S754_zero s => if s then "-0.0" else "0.0"
  | S754_infinity s => if s then "-Infinity" else "Infinity"
  | S754_nan => "NaN"
  | S754_finite s m e =>
      (if s then "-" else "") ++
      (if 0 <=? e then str_Z (Zpos m * 2 ^ e) ++ ".0"
       else let n := Zpos m * 5 ^ (- e) in
            str_Z (n / 10 ^ (- e)) ++ "." ++ fmt_0d (Z.to_nat (- e)) (n mod 10 ^ (- e)))
  end.

Fixpoint json (v : value) : string :=
  match v with
  | Int z => str_Z z
  | Flt f => decimal f
  | Str s => dq ++ s ++ dq
  | Lst l =>
      "[" ++ (fix elements (l : list value) : string :=
                match l with
                | [] => ""
                | [x] => json x
                | x :: r => json x ++ "," ++ elements r
                end) l ++ "]"
  | Dict d =>
      "{" ++ (fix members (d : list (string * value)) : string :=
                match d with
                | [] => ""
                | [(k, x)] => dq ++ k ++ dq ++ ":" ++ json x
                | (k, x) :: r => dq ++ k ++ dq ++ ":" ++ json x ++ "," ++ members r
                end) d ++ "}"
  end.

Definition cell (v : value) : string :=
  match v with Str s => s | _ => json v end.

Definition line (cells : list value) : string :=
  String.concat "," (map cell cells) ++ String "013"%char nl.

(** A bare interpreter in an empty, writable directory. *)
#[export] Instance bare : Environment := {|
  output_dir := "test_data";
  importable := fun _ => false;
  can_open := fun _ => true;
  listing := [];
  json_text := json;
  csv_line := line;
  str_exn := fun _ => "error"
|}.

(** The same with every optional module installed. *)
Definition full : Environment := {|
  output_dir := "test_data";
  importable := fun _ => true;
  can_open := fun _ => true;
  listing := [];
  json_text := json;
  csv_line := line;
  str_exn := fun _ => "error"
|}.

(** Everything installed but [shapefile]; everything but [numpy]. *)
Definition no_pyshp : Environment := {|
  output_dir := "test_data";
  importable := fun m => negb (String.eqb m "shapefile");
  can_open := fun _ => true;
  listing := [];
  json_text := json;
  csv_line := line;
  str_exn := fun _ => "error"
|}.

Definition no_numpy : Environment := {|
  output_dir := "test_data";
  importable := fun m => negb (String.eqb m "numpy");
  can_open := fun _ => true;
  listing := [];
  json_text := json;
  csv_line := line;
  str_exn := fun _ => "error"
|}.



(** A directory in which only the zip archive cannot be created. *)
Definition no_zip : Environment := {|
  output_dir := "test_data";
  importable := fun _ => false;
  can_open := fun p => negb (String.eqb p "drillholes_shp.zip");
  listing := [];
  json_text := json;
  csv_line := line;
  str_exn := fun _ => "error"
|}.


(** The source at state 0 and nothing logged yet. *)
Definition start : world (RS := lcg) := @Build_world lcg 0 [].

End Demo.

(** * Properties *)

(** ** Reasoning about [Eff] computations *)

Lemma returns_ret {S A} (a : A) (s : S) (Q : A -> S -> Prop) :
  Q a s -> returns (ret a) s Q.
Proof. intros HQ. exists a, s. split; [reflexivity | exact HQ]. Qed.

Lemma returns_bind {S A B} (m : Eff S A) (k : A -> Eff S B) s (Q : B -> S -> Prop) :
  returns m s (fun a s' => returns (k a) s' Q) -> returns (bind m k) s Q.
Proof.
  intros (a & s' & Hm & b & s'' & Hk & HQ).
  exists b, s''. unfold bind. rewrite Hm. split; assumption.
Qed.

Lemma returns_weaken {S A} (m : Eff S A) s (P Q : A -> S -> Prop) :
  returns m s P -> (forall a s', P a s' -> Q a s') -> returns m s Q.
Proof. intros (a & s' & Hm & HP) HPQ. exists a, s'. auto. Qed.

Lemma returns_and {S A} (m : Eff S A) s (P Q : A -> S -> Prop) :
  returns m s P -> returns m s Q -> returns m s (fun a s' => P a s' /\ Q a s').
Proof.
  intros (a & s' & Hm & HP) (a' & s'' & Hm' & HQ).
  rewrite Hm in Hm'. injection Hm' as <- <-. exists a, s'. auto.
Qed.

Lemma returns_for_each {S A B} (P : A -> B -> Prop) (body : A -> Eff S B) xs :
  (forall x s, In x xs -> returns (body x) s (fun y _ => P x y)) ->
  forall s, returns (for_each xs body) s (fun ys _ => Forall2 P xs ys).
Proof.
  induction xs as [|x xs IH]; intros Hbody s; simpl.
  - apply returns_ret. constructor.
  - apply returns_bind.
    eapply returns_weaken; [apply Hbody; left; reflexivity|].
    intros y s1 Hy. apply returns_bind.
    eapply returns_weaken; [apply IH; intros; apply Hbody; right; assumption|].
    intros ys s2 Hys. apply returns_ret. constructor; assumption.
Qed.

Lemma Forall2_Forall_r {A B} (P : A -> B -> Prop) (Q : B -> Prop) xs ys :
  Forall2 P xs ys -> (forall x y, In x xs -> P x y -> Q y) -> Forall Q ys.
Proof.
  induction 1 as [|x y xs ys Hxy Hrest IH]; intros HPQ; constructor.
  - apply (HPQ x); [left; reflexivity | assumption].
  - apply IH. intros x' y' Hin. apply HPQ. right; assumption.
Qed.

Lemma Forall2_length_eq {A B} (P : A -> B -> Prop) xs ys :
  Forall2 P xs ys -> List.length ys = List.length xs.
Proof. induction 1; simpl; congruence. Qed.

Lemma range_length n : List.length (range n) = Z.to_nat n.
Proof. unfold range. rewrite length_map, length_seq. reflexivity. Qed.

Section Draws.

Context {RS : RandomSource} {ML : MathLib}.

Lemma returns_random s :
  returns random s (fun r _ => exists k, 0 <= k < 2 ^ 53 /\ r = Float.ldexp k (-53)).
Proof.
  unfold returns, random. pose proof (bits53_range s) as Hk.
  destruct (bits53 s) as [k s']. simpl in Hk.
  exists (Float.ldexp k (-53)), s'. split; [reflexivity|]. exists k. auto.
Qed.

Lemma returns_uniform a b s :
  returns (uniform a b) s (fun x _ => exists k, 0 <= k < 2 ^ 53 /\ x = scaled a b k).
Proof.
  unfold uniform. apply returns_bind.
  eapply returns_weaken; [apply returns_random|].
  intros r s' (k & Hk & ->). apply returns_ret. exists k. auto.
Qed.

Lemma returns_gauss mu sigma s : returns (gauss mu sigma) s (fun _ _ => True).
Proof.
  unfold returns, gauss. destruct (normal s) as [z s'].
  exists (Float.add mu (Float.mul z sigma)), s'. auto.
Qed.

Lemma returns_randint a b s :
  a <= b -> returns (randint a b) s (fun r _ => a <= r <= b).
Proof.
  intros Hab. unfold returns, randint.
  destruct (Z.ltb_spec 0 (b + 1 - a)); [|lia].
  pose proof (randbelow_range (b + 1 - a) s ltac:(lia)) as Hr.
  destruct (randbelow (b + 1 - a) s) as [r s']. simpl in Hr.
  exists (a + r), s'. split; [reflexivity | lia].
Qed.

Lemma returns_choice {A} `{Blank A} (seq : list A) s :
  seq <> [] -> returns (choice seq) s (fun x _ => In x seq).
Proof.
  intros Hne. unfold returns, choice. destruct seq as [|x0 seq']; [congruence|].
  set (l := x0 :: seq') in *.
  pose proof (randbelow_range (Z.of_nat (List.length l)) s) as Hr.
  destruct (randbelow (Z.of_nat (List.length l)) s) as [i s'].
  simpl fst in Hr. exists (nth (Z.to_nat i) l blank), s'. split; [reflexivity|].
  apply nth_In. subst l. simpl List.length in *. lia.
Qed.

End Draws.

(** ** Binary64 arithmetic behind [uniform] *)

Section Binary64.

Lemma digits2_pos_size p : digits2_pos p = Pos.size p.
Proof. induction p; simpl; congruence. Qed.

Lemma Zdigits2_log2 p : Zdigits2 (Zpos p) = Z.log2 (Zpos p) + 1.
Proof.
simpl Zdigits2. rewrite digits2_pos_size.
destruct p; simpl; try rewrite Pos2Z.inj_succ; lia.
Qed.

Lemma Zdigits2_bounds m d :
0 < d -> 2 ^ (d - 1) <= m < 2 ^ d -> Zdigits2 m = d.
Proof.
intros Hd [Hlo Hhi].
assert (0 < m) by (pose proof (Z.pow_pos_nonneg 2 (d - 1)); lia).
destruct m as [|p|p]; try lia.
rewrite Zdigits2_log2.
rewrite (Z.log2_unique (Zpos p) (d - 1)); [lia | lia |].
replace (Z.succ (d - 1)) with d by lia. lia.
Qed.

Lemma iter_pos_nat {A} (f : A -> A) p x :
iter_pos f p x = Nat.iter (Pos.to_nat p) f x.
Proof.
revert x. induction p as [p IH|p IH|]; intros x; simpl iter_pos.
- rewrite !IH, Pos2Nat.inj_xI.
  replace (S (2 * Pos.to_nat p))%nat with (Pos.to_nat p + Pos.to_nat p + 1)%nat by lia.
  rewrite !Nat.iter_add. reflexivity.
- rewrite !IH, Pos2Nat.inj_xO.
  replace (2 * Pos.to_nat p)%nat with (Pos.to_nat p + Pos.to_nat p)%nat by lia.
  rewrite Nat.iter_add. reflexivity.
- reflexivity.
Qed.

Lemma shr_1_spec m r s :
0 <= m ->
shr_1 {| shr_m := m; shr_r := r; shr_s := s |} =
{| shr_m := m / 2; shr_r := Z.odd m; shr_s := r || s |}.
Proof.
intros Hm. rewrite <- Z.div2_div.
destruct m as [|[p|p|]|p]; try lia; reflexivity.
Qed.

Lemma shr_iter_spec m j :
0 <= m ->
exists r s,
  Nat.iter j shr_1 {| shr_m := m; shr_r := false; shr_s := false |} =
  {| shr_m := m / 2 ^ Z.of_nat j; shr_r := r; shr_s := s |} /\
  (m mod 2 ^ Z.of_nat j = 0 -> r = false /\ s = false).
Proof.
intros Hm. induction j as [|j (r & s & Hit & Hex)].
- exists false, false. simpl. rewrite Z.div_1_r. auto.
- exists (Z.odd (m / 2 ^ Z.of_nat j)), (r || s)%bool.
  assert (Hp : 0 < 2 ^ Z.of_nat j) by (apply Z.pow_pos_nonneg; lia).
  simpl Nat.iter. rewrite Hit, shr_1_spec by (apply Z.div_pos; lia).
  rewrite Nat2Z.inj_succ, Z.pow_succ_r by lia.
  split.
  + f_equal. rewrite (Z.mul_comm 2), <- Z.div_div by lia. reflexivity.
  + intros Hmod.
    assert (Hdiv : (2 * 2 ^ Z.of_nat j | m)) by (apply Z.mod_divide; lia).
    destruct Hdiv as [q Hq].
    assert (Hmj : m mod 2 ^ Z.of_nat j = 0).
    { apply Z.mod_divide; [lia|]. exists (q * 2). lia. }
    destruct (Hex Hmj) as [-> ->].
    replace m with (q * 2 * 2 ^ Z.of_nat j) by lia.
    rewrite Z.div_mul by lia. rewrite Z.odd_mul. simpl. rewrite andb_false_r. auto.
Qed.

Lemma shr_spec mrs e n :
0 <= n -> shr mrs e n = (Nat.iter (Z.to_nat n) shr_1 mrs, e + n).
Proof.
intros Hn. destruct n as [|p|p]; try lia; simpl.
- rewrite Z.add_0_r. reflexivity.
- rewrite iter_pos_nat. reflexivity.
Qed.

Lemma round_nearest_even_cases m l :
round_nearest_even m l = m \/ round_nearest_even m l = m + 1.
Proof.
destruct l as [|[]]; simpl; auto. destruct (Z.even m); auto.
Qed.

Lemma fexp_normal e : -1074 <= e - 53 -> fexp Float.prec Float.emax e = e - 53.
Proof. unfold fexp, emin, Float.prec, Float.emax. lia. Qed.

(** Rounding [m * 2^e] to the binade of exponent [e + n]: the mantissa stays
  between any two mantissas of that binade that bracket the exact value. *)
Lemma binary_round_aux_between sx m e n ml mu :
0 <= n -> 2 ^ 52 <= ml -> mu < 2 ^ 53 ->
ml * 2 ^ n <= m <= mu * 2 ^ n ->
-1074 <= e + n <= 971 ->
exists M,
  binary_round_aux Float.prec Float.emax sx m e loc_Exact = S754_finite sx M (e + n) /\
  ml <= Zpos M <= mu.
Proof.
intros Hn Hml Hmu [Hlo Hhi] He.
assert (Hp : 0 < 2 ^ n) by (apply Z.pow_pos_nonneg; lia).
assert (Hm : 0 < m) by nia.
assert (Hmlu : ml <= mu) by nia.
assert (Hdig : Zdigits2 m = 53 + n).
{ apply Zdigits2_bounds; [lia|].
  replace (53 + n - 1) with (52 + n) by lia.
  rewrite !Z.pow_add_r by lia. nia. }
unfold binary_round_aux, shr_fexp.
rewrite Hdig, fexp_normal by lia.
replace (53 + n + e - 53 - e) with n by lia.
simpl shr_record_of_loc. rewrite shr_spec by lia.
destruct (shr_iter_spec m (Z.to_nat n) ltac:(lia)) as (r & s & Hit & Hex).
rewrite Z2Nat.id in Hit, Hex by lia. rewrite Hit. cbv iota beta. simpl shr_m.
set (M0 := m / 2 ^ n) in *.
set (M := round_nearest_even M0 _).
assert (HM0 : ml <= M0) by (apply Z.div_le_lower_bound; lia).
assert (HM : ml <= M <= mu).
{ destruct (Z.eq_dec m (mu * 2 ^ n)) as [Heq|Hne].
  - assert (Hmod : m mod 2 ^ n = 0) by (rewrite Heq; apply Z.mod_mul; lia).
    destruct (Hex Hmod) as [-> ->]. subst M. simpl.
    subst M0. rewrite Heq, Z.div_mul by lia. lia.
  - assert (M0 < mu) by (apply Z.div_lt_upper_bound; lia).
    subst M. destruct (round_nearest_even_cases M0
      (loc_of_shr_record {| shr_m := M0; shr_r := r; shr_s := s |})) as [-> | ->]; lia. }
clearbody M.
assert (Hdig' : Zdigits2 M = 53) by (apply Zdigits2_bounds; [lia | change (53 - 1) with 52; lia]).
rewrite Hdig', fexp_normal by lia.
replace (53 + (e + n) - 53 - (e + n)) with 0 by lia.
simpl shr. cbv iota beta. simpl shr_m.
destruct M as [|p|p]; try lia.
exists p. split; [|lia].
destruct (Z.leb_spec (e + n) (Float.emax - Float.prec)); [reflexivity|].
unfold Float.emax, Float.prec in *. lia.
Qed.

Lemma pos_iter_xO m d : Zpos (Pos.iter xO m d) = Zpos m * 2 ^ Zpos d.
Proof.
induction d as [|d IH] using Pos.peano_ind.
- simpl. lia.
- rewrite Pos.iter_succ, Pos2Z.inj_xO, IH, Pos2Z.inj_succ, Z.pow_succ_r by lia. lia.
Qed.

Lemma shl_align_spec m e e' :
e' <= e ->
shl_align m e e' = (Z.to_pos (Zpos m * 2 ^ (e - e')), e').
Proof.
intros He. unfold shl_align.
destruct (e' - e) as [|d|d] eqn:Hd; try lia.
- replace (e - e') with 0 by lia. replace e' with e by lia.
  rewrite Z.mul_1_r. reflexivity.
- replace (e - e') with (Zpos d) by lia. rewrite <- pos_iter_xO. reflexivity.
Qed.

Lemma shl_align_keep m e e' : e <= e' -> shl_align m e e' = (m, e).
Proof.
intros He. unfold shl_align. destruct (e' - e) as [|d|d] eqn:Hd; try lia; reflexivity.
Qed.

Lemma binary_round_between sx m e n ml mu :
0 <= n -> 2 ^ 52 <= ml -> mu < 2 ^ 53 ->
ml * 2 ^ n <= Zpos m <= mu * 2 ^ n ->
-1074 <= e + n <= 971 ->
exists M,
  binary_round Float.prec Float.emax sx m e = S754_finite sx M (e + n) /\
  ml <= Zpos M <= mu.
Proof.
intros Hn Hml Hmu Hm He. unfold binary_round.
assert (Hp : 0 < 2 ^ n) by (apply Z.pow_pos_nonneg; lia).
assert (Hdig : Zdigits2 (Zpos m) = 53 + n).
{ apply Zdigits2_bounds; [lia|].
  replace (53 + n - 1) with (52 + n) by lia.
  rewrite !Z.pow_add_r by lia. nia. }
simpl Zdigits2 in Hdig. rewrite Hdig, fexp_normal by lia.
rewrite shl_align_keep by lia.
apply binary_round_aux_between; assumption.
Qed.

(** [random()] is a normal double below one, or zero. *)
Lemma ldexp_unit_interval k :
0 < k < 2 ^ 53 ->
exists m e, Float.ldexp k (-53) = S754_finite false m e /\
            2 ^ 52 <= Zpos m < 2 ^ 53 /\ -105 <= e <= -53.
Proof.
intros Hk. destruct k as [|p|p]; try lia.
unfold Float.ldexp, binary_normalize, binary_round.
set (d := Z.log2 (Zpos p) + 1).
assert (Hd : 2 ^ (d - 1) <= Zpos p < 2 ^ d).
{ subst d. replace (Z.log2 (Zpos p) + 1 - 1) with (Z.log2 (Zpos p)) by lia.
  pose proof (Z.log2_spec (Zpos p) ltac:(lia)). lia. }
assert (Hd0 : 0 < d) by (subst d; pose proof (Z.log2_nonneg (Zpos p)); lia).
assert (Hd53 : d <= 53).
{ destruct (Z.le_gt_cases d 53) as [|Hgt]; [assumption|].
  assert (2 ^ 53 <= 2 ^ (d - 1)) by (apply Z.pow_le_mono_r; lia). lia. }
assert (Hdig : Zpos (digits2_pos p) = d) by (apply (Zdigits2_bounds (Zpos p)); lia).
rewrite Hdig, fexp_normal by lia.
rewrite shl_align_spec by lia.
replace (-53 - (d + -53 - 53)) with (53 - d) by lia.
set (m' := Zpos p * 2 ^ (53 - d)).
assert (Hm' : 2 ^ 52 <= m' < 2 ^ 53).
{ assert (E1 : 2 ^ 52 = 2 ^ (d - 1) * 2 ^ (53 - d))
    by (rewrite <- Z.pow_add_r by lia; f_equal; lia).
  assert (E2 : 2 ^ 53 = 2 ^ d * 2 ^ (53 - d))
    by (rewrite <- Z.pow_add_r by lia; f_equal; lia).
  assert (0 < 2 ^ (53 - d)) by (apply Z.pow_pos_nonneg; lia).
  subst m'. rewrite E1, E2. nia. }
destruct (binary_round_aux_between false m' (d + -53 - 53) 0 m' m')
  as (M & HM & Hb); try lia.
rewrite Z2Pos.id by lia. rewrite HM.
exists M, (d + -53 - 53 + 0). split; [reflexivity|]. lia.
Qed.

Lemma mul_two m e :
2 ^ 52 <= Zpos m < 2 ^ 53 -> -1075 <= e <= 970 ->
Float.mul (S754_finite false 4503599627370496 (-51)) (S754_finite false m e) =
S754_finite false m (e + 1).
Proof.
intros Hm He. unfold Float.mul, SFmul. simpl xorb.
destruct (binary_round_aux_between false (Zpos (4503599627370496 * m)) (-51 + e) 52
            (Zpos m) (Zpos m)) as (M & HM & Hb); try lia.
rewrite HM. f_equal; lia.
Qed.

Lemma add_between_pos m_lo m_hi E my ey :
2 ^ 52 <= Zpos m_lo -> Zpos m_hi < 2 ^ 53 -> ey <= E -> -1074 <= E <= 971 ->
Zpos my <= (Zpos m_hi - Zpos m_lo) * 2 ^ (E - ey) ->
exists M,
  Float.add (S754_finite false m_lo E) (S754_finite false my ey) = S754_finite false M E /\
  Zpos m_lo <= Zpos M <= Zpos m_hi.
Proof.
intros Hlo Hhi Hey HE Hmy. unfold Float.add, SFadd.
rewrite Z.min_r by lia.
rewrite shl_align_spec by lia. rewrite (shl_align_keep my ey ey) by lia.
cbn [fst cond_Zopp].
assert (Hp : 0 < 2 ^ (E - ey)) by (apply Z.pow_pos_nonneg; lia).
set (q := Z.to_pos (Zpos m_lo * 2 ^ (E - ey))).
assert (Hq : Zpos q = Zpos m_lo * 2 ^ (E - ey)) by (subst q; rewrite Z2Pos.id; lia).
set (z := Zpos q + Zpos my).
assert (Hz : Zpos m_lo * 2 ^ (E - ey) <= z <= Zpos m_hi * 2 ^ (E - ey)) by (subst z; nia).
clearbody z. destruct z as [|p|p]; try lia.
unfold binary_normalize.
destruct (binary_round_between false p ey (E - ey) (Zpos m_lo) (Zpos m_hi))
  as (M & HM & Hb); try lia.
exists M. rewrite HM. split; [f_equal; lia | assumption].
Qed.

Lemma add_between_neg m_lo m_hi E my ey :
2 ^ 52 <= Zpos m_hi -> Zpos m_lo < 2 ^ 53 -> ey <= E -> -1074 <= E <= 971 ->
Zpos my <= (Zpos m_lo - Zpos m_hi) * 2 ^ (E - ey) ->
exists M,
  Float.add (S754_finite true m_lo E) (S754_finite false my ey) = S754_finite true M E /\
  Zpos m_hi <= Zpos M <= Zpos m_lo.
Proof.
intros Hhi Hlo Hey HE Hmy. unfold Float.add, SFadd.
rewrite Z.min_r by lia.
rewrite shl_align_spec by lia. rewrite (shl_align_keep my ey ey) by lia.
cbn [fst cond_Zopp].
assert (Hp : 0 < 2 ^ (E - ey)) by (apply Z.pow_pos_nonneg; lia).
set (q := Z.to_pos (Zpos m_lo * 2 ^ (E - ey))).
assert (Hq : Zpos q = Zpos m_lo * 2 ^ (E - ey)) by (subst q; rewrite Z2Pos.id; lia).
set (z := - Zpos q + Zpos my).
assert (Hz : Zpos m_hi * 2 ^ (E - ey) <= - z <= Zpos m_lo * 2 ^ (E - ey)) by (subst z; nia).
clearbody z. destruct z as [|p|p]; try lia.
unfold binary_normalize.
destruct (binary_round_between true p ey (E - ey) (Zpos m_hi) (Zpos m_lo))
  as (M & HM & Hb); try lia.
exists M. rewrite HM. split; [f_equal; lia | assumption].
Qed.

Lemma leb_same_binade (s : bool) a b E :
(if s then Zpos b <= Zpos a else Zpos a <= Zpos b) ->
Float.leb (S754_finite s a E) (S754_finite s b E) = true.
Proof.
intros H. unfold Float.leb, SFleb, SFcompare. rewrite Z.compare_refl.
change (Pos.compare_cont Eq a b) with (Pos.compare a b).
destruct s; destruct (Pos.compare_spec a b); simpl; try reflexivity; lia.
Qed.

(** [uniform(116.5, 118.5)] and [uniform(-23.5, -21.5)] stay within their
  arguments for every 53-bit draw, upper end included. *)
Lemma lon_range k :
0 <= k < 2 ^ 53 ->
within (Float.lit 1165 10) (Float.lit 1185 10)
       (scaled (Float.lit 1165 10) (Float.lit 1185 10) k).
Proof.
intros Hk. destruct (Z.eq_dec k 0) as [->|Hk0]; [split; vm_compute; reflexivity|].
destruct (ldexp_unit_interval k ltac:(lia)) as (m & e & Hr & Hm & He).
unfold within, scaled. rewrite Hr.
change (Float.sub (Float.lit 1185 10) (Float.lit 1165 10))
  with (S754_finite false 4503599627370496 (-51)).
rewrite mul_two by lia.
change (Float.lit 1165 10) with (S754_finite false 8197958696697856 (-46)).
change (Float.lit 1185 10) with (S754_finite false 8338696185053184 (-46)).
destruct (add_between_pos 8197958696697856 8338696185053184 (-46) m (e + 1))
  as (M & HM & Hb); try lia.
{ assert (H : 2 ^ 53 <= 2 ^ (-46 - (e + 1) + 47)) by (apply Z.pow_le_mono_r; lia).
  rewrite Z.pow_add_r in H by lia. lia. }
rewrite HM. split; apply leb_same_binade; lia.
Qed.

Lemma lat_range k :
0 <= k < 2 ^ 53 ->
within (Float.neg (Float.lit 235 10)) (Float.neg (Float.lit 215 10))
       (scaled (Float.neg (Float.lit 235 10)) (Float.neg (Float.lit 215 10)) k).
Proof.
intros Hk. destruct (Z.eq_dec k 0) as [->|Hk0]; [split; vm_compute; reflexivity|].
destruct (ldexp_unit_interval k ltac:(lia)) as (m & e & Hr & Hm & He).
unfold within, scaled. rewrite Hr.
change (Float.sub (Float.neg (Float.lit 215 10)) (Float.neg (Float.lit 235 10)))
  with (S754_finite false 4503599627370496 (-51)).
rewrite mul_two by lia.
change (Float.neg (Float.lit 235 10)) with (S754_finite true 6614661952700416 (-48)).
change (Float.neg (Float.lit 215 10)) with (S754_finite true 6051711999279104 (-48)).
destruct (add_between_neg 6614661952700416 6051711999279104 (-48) m (e + 1))
  as (M & HM & Hb); try lia.
{ assert (H : 2 ^ 53 <= 2 ^ (-48 - (e + 1) + 49)) by (apply Z.pow_le_mono_r; lia).
  rewrite Z.pow_add_r in H by lia. lia. }
rewrite HM. split; apply leb_same_binade; lia.
Qed.

End Binary64.

(** *** Ints too large for a double *)

(** The round bit after [j + 1] shifts is bit [j] of the mantissa. *)
Lemma shr_iter_round_bit m j :
  0 <= m ->
  exists s,
    Nat.iter (S j) shr_1 {| shr_m := m; shr_r := false; shr_s := false |} =
    {| shr_m := m / 2 ^ Z.of_nat (S j);
       shr_r := Z.odd (m / 2 ^ Z.of_nat j); shr_s := s |}.
Proof.
  intros Hm. destruct (shr_iter_spec m j Hm) as (r & s & Hit & _).
  exists (r || s)%bool.
  assert (Hp : 0 < 2 ^ Z.of_nat j) by (apply Z.pow_pos_nonneg; lia).
  simpl Nat.iter. rewrite Hit, shr_1_spec by (apply Z.div_pos; lia).
  rewrite Nat2Z.inj_succ, Z.pow_succ_r by lia.
  f_equal. rewrite (Z.mul_comm 2), <- Z.div_div by lia. reflexivity.
Qed.

Lemma round_up_needs_round_bit m s :
  round_nearest_even m (loc_of_shr_record {| shr_m := m; shr_r := false; shr_s := s |}) = m.
Proof. destruct s; reflexivity. Qed.

Lemma round_up_with_round_bit m s :
  Z.odd m = true ->
  round_nearest_even m (loc_of_shr_record {| shr_m := m; shr_r := true; shr_s := s |}) = m + 1.
Proof.
  intros Hodd. destruct s; simpl; [reflexivity|].
  rewrite <- Z.negb_odd, Hodd. reflexivity.
Qed.

(** Rounding an int of [53 + n] digits, [n >= 1]: what the two shifts of
    [binary_round_aux] leave. *)
Lemma of_Z_large z n :
  1 <= n -> 2 ^ (52 + n) <= z < 2 ^ (53 + n) ->
  exists M,
    (M = z / 2 ^ n \/ M = z / 2 ^ n + 1) /\
    (Z.odd (z / 2 ^ (n - 1)) = false -> M = z / 2 ^ n) /\
    (Z.odd (z / 2 ^ (n - 1)) = true -> Z.odd (z / 2 ^ n) = true -> M = z / 2 ^ n + 1) /\
    Float.of_Z z =
      if M <? 2 ^ 53
      then (if n <=? 971 then S754_finite false (Z.to_pos M) n
            else S754_infinity false)
      else (if n + 1 <=? 971 then S754_finite false (Z.to_pos (2 ^ 52)) (n + 1)
            else S754_infinity false).
Proof.
  intros Hn [Hlo Hhi].
  assert (Hp : 0 < 2 ^ n) by (apply Z.pow_pos_nonneg; lia).
  assert (Hz : 0 < z) by (pose proof (Z.pow_pos_nonneg 2 (52 + n)); lia).
  destruct z as [|p|p]; try lia.
  assert (Hdig : Zdigits2 (Zpos p) = 53 + n).
  { apply Zdigits2_bounds; [lia|]. replace (53 + n - 1) with (52 + n) by lia. lia. }
  unfold Float.of_Z, binary_normalize, binary_round.
  simpl Zdigits2 in Hdig. rewrite Hdig, Z.add_0_r, fexp_normal by lia.
  rewrite shl_align_keep by lia.
  unfold binary_round_aux, shr_fexp.
  change (Zdigits2 (Zpos p)) with (Zpos (digits2_pos p)). rewrite Hdig, Z.add_0_r.
  rewrite fexp_normal by lia.
  replace (53 + n - 53 - 0) with n by lia.
  simpl shr_record_of_loc. rewrite shr_spec by lia.
  destruct (shr_iter_round_bit (Zpos p) (Z.to_nat (n - 1)) ltac:(lia)) as (s & Hit).
  replace (S (Z.to_nat (n - 1))) with (Z.to_nat n) in Hit by lia.
  rewrite !Z2Nat.id in Hit by lia. rewrite Hit. cbv iota beta. simpl shr_m.
  set (M0 := Zpos p / 2 ^ n) in *.
  set (rb := Z.odd (Zpos p / 2 ^ (n - 1))) in *.
  set (M := round_nearest_even M0 _).
  assert (HM0 : 2 ^ 52 <= M0 < 2 ^ 53).
  { subst M0. rewrite !Z.pow_add_r in Hlo, Hhi by lia. split.
    - apply Z.div_le_lower_bound; lia.
    - apply Z.div_lt_upper_bound; lia. }
  assert (Hcases : M = M0 \/ M = M0 + 1) by (apply round_nearest_even_cases).
  assert (Hdown : rb = false -> M = M0).
  { intros Hrb. subst M. rewrite Hrb. apply round_up_needs_round_bit. }
  assert (Hup : rb = true -> Z.odd M0 = true -> M = M0 + 1).
  { intros Hrb Hodd. subst M. rewrite Hrb. apply round_up_with_round_bit, Hodd. }
  clearbody M. exists M. split; [exact Hcases|]. split; [exact Hdown|]. split; [exact Hup|].
  rewrite Z.add_0_l.
  destruct (Z.ltb_spec M (2 ^ 53)) as [Hlt|Hge].
  - assert (Hdig' : Zdigits2 M = 53)
      by (apply Zdigits2_bounds; [lia | change (53 - 1) with 52; lia]).
    rewrite Hdig', fexp_normal by lia.
    replace (53 + n - 53 - n) with 0 by lia.
    simpl shr. cbv iota beta. simpl shr_m.
    destruct M as [|q|q]; try lia. simpl Z.to_pos.
    unfold Float.emax, Float.prec. change (1024 - 53) with 971. reflexivity.
  - assert (HM : M = 2 ^ 53) by lia. subst M.
    change (Zdigits2 (2 ^ 53)) with 54. rewrite fexp_normal by lia.
    replace (54 + n - 53 - n) with 1 by lia.
    unfold Float.emax, Float.prec. change (1024 - 53) with 971.
    reflexivity.
Qed.

Lemma of_Z_small z :
  0 < z < 2 ^ 53 -> exists m e, Float.of_Z z = S754_finite false m e.
Proof.
  intros Hz. destruct z as [|p|p]; try lia.
  unfold Float.of_Z, binary_normalize, binary_round.
  set (d := Z.log2 (Zpos p) + 1).
  assert (Hd : 2 ^ (d - 1) <= Zpos p < 2 ^ d).
  { subst d. replace (Z.log2 (Zpos p) + 1 - 1) with (Z.log2 (Zpos p)) by lia.
    pose proof (Z.log2_spec (Zpos p) ltac:(lia)). lia. }
  assert (Hd0 : 0 < d) by (subst d; pose proof (Z.log2_nonneg (Zpos p)); lia).
  assert (Hd53 : d <= 53).
  { destruct (Z.le_gt_cases d 53) as [|Hgt]; [assumption|].
    assert (2 ^ 53 <= 2 ^ (d - 1)) by (apply Z.pow_le_mono_r; lia). lia. }
  assert (Hdig : Zpos (digits2_pos p) = d) by (apply (Zdigits2_bounds (Zpos p)); lia).
  rewrite Hdig, fexp_normal by lia.
  rewrite shl_align_spec by lia.
  replace (0 - (d + 0 - 53)) with (53 - d) by lia.
  set (m' := Zpos p * 2 ^ (53 - d)).
  assert (Hm' : 2 ^ 52 <= m' < 2 ^ 53).
  { assert (E1 : 2 ^ 52 = 2 ^ (d - 1) * 2 ^ (53 - d))
      by (rewrite <- Z.pow_add_r by lia; f_equal; lia).
    assert (E2 : 2 ^ 53 = 2 ^ d * 2 ^ (53 - d))
      by (rewrite <- Z.pow_add_r by lia; f_equal; lia).
    assert (0 < 2 ^ (53 - d)) by (apply Z.pow_pos_nonneg; lia).
    subst m'. rewrite E1, E2. nia. }
  destruct (binary_round_aux_between false m' (d + 0 - 53) 0 m' m')
    as (M & HM & Hb); try lia.
  rewrite Z2Pos.id by lia. rewrite HM. eauto.
Qed.

(** The binade of a positive int. *)
Lemma binade z :
  2 ^ 53 <= z -> exists n, 1 <= n /\ 2 ^ (52 + n) <= z < 2 ^ (53 + n).
Proof.
  intros Hz. exists (Z.log2 z - 52).
  assert (H53 : 53 <= Z.log2 z).
  { change 53 with (Z.log2 (2 ^ 53)). apply Z.log2_le_mono. assumption. }
  pose proof (Z.log2_spec z ltac:(lia)) as [Hlo Hhi].
  replace (52 + (Z.log2 z - 52)) with (Z.log2 z) by lia.
  replace (53 + (Z.log2 z - 52)) with (Z.succ (Z.log2 z)) by lia.
  split; [lia|]. split; assumption.
Qed.

Lemma float_limit_eq : float_limit = (2 ^ 54 - 1) * 2 ^ 970.
Proof. reflexivity. Qed.

Lemma of_Z_finite z :
  0 <= z < float_limit ->
  match Float.of_Z z with S754_infinity _ => False | _ => True end.
Proof.
  intros [Hz0 Hz].
  destruct (Z.eq_dec z 0) as [->|Hnz]; [exact I|].
  destruct (Z.lt_ge_cases z (2 ^ 53)) as [Hsmall|Hbig].
  { destruct (of_Z_small z ltac:(lia)) as (m & e & ->). exact I. }
  destruct (binade z Hbig) as (n & Hn & Hlo & Hhi).
  assert (Hn971 : n <= 971).
  { destruct (Z.le_gt_cases n 971) as [|Hgt]; [assumption|].
    assert (2 ^ 1024 <= 2 ^ (52 + n)) by (apply Z.pow_le_mono_r; lia).
    unfold float_limit in Hz. pose proof (Z.pow_pos_nonneg 2 970). lia. }
  destruct (of_Z_large z n Hn (conj Hlo Hhi)) as (M & Hcases & Hdown & _ & ->).
  assert (Hp : 0 < 2 ^ n) by (apply Z.pow_pos_nonneg; lia).
  assert (HM0 : z / 2 ^ n < 2 ^ 53).
  { rewrite Z.pow_add_r in Hhi by lia. apply Z.div_lt_upper_bound; lia. }
  destruct (Z.ltb_spec M (2 ^ 53)) as [Hlt|Hge].
  - destruct (Z.leb_spec n 971); [exact I | lia].
  - destruct (Z.leb_spec (n + 1) 971) as [|Hov]; [exact I|].
    assert (n = 971) by lia. subst n. exfalso.
    destruct (Z.odd (z / 2 ^ (971 - 1))) eqn:Hrb; [|specialize (Hdown eq_refl); lia].
    change (971 - 1) with 970 in Hrb.
    assert (HM0' : z / 2 ^ 971 = 2 ^ 53 - 1) by lia.
    assert (Hq : z / 2 ^ 970 / 2 = z / 2 ^ 971).
    { rewrite Z.div_div by lia. reflexivity. }
    pose proof (Z.div_mod (z / 2 ^ 970) 2 ltac:(lia)) as Hdm.
    rewrite Zodd_mod in Hrb. apply Zeq_is_eq_bool in Hrb.
    assert (Hz970 : z / 2 ^ 970 = 2 ^ 54 - 1) by lia.
    pose proof (Z.mul_div_le z (2 ^ 970) ltac:(lia)) as Hle.
    rewrite Hz970 in Hle. rewrite float_limit_eq in Hz. lia.
Qed.


Lemma float_of_int_ok z :
  0 <= z < float_limit -> float_of_int z = Ok (Float.of_Z z).
Proof.
  intros Hz. unfold float_of_int. pose proof (of_Z_finite z Hz) as Hfin.
  destruct (Float.of_Z z); [reflexivity | contradiction | reflexivity | reflexivity].
Qed.


(** ** What the generators return *)

Section GeneratorFacts.

Context {RS : RandomSource} {ML : MathLib}.

Lemma returns_random_point s : returns random_point s (fun p _ => in_bounds p).
Proof.
  unfold random_point. apply returns_bind.
  eapply returns_weaken; [apply returns_uniform|].
  intros lon s1 (k1 & Hk1 & ->). apply returns_bind.
  eapply returns_weaken; [apply returns_uniform|].
  intros lat s2 (k2 & Hk2 & ->). apply returns_ret.
  split; [apply lon_range | apply lat_range]; assumption.
Qed.

Lemma returns_for_fold {S A X} (I : A -> Prop) (body : X -> A -> Eff S A) xs :
  (forall x a s, I a -> returns (body x a) s (fun a' _ => I a')) ->
  forall a s, I a -> returns (for_fold xs body a) s (fun a' _ => I a').
Proof.
  intros Hbody. induction xs as [|x xs IH]; intros a s Ha; simpl.
  - apply returns_ret. assumption.
  - apply returns_bind. eapply returns_weaken; [apply Hbody; assumption|].
    intros a' s' Ha'. apply IH. assumption.
Qed.

Lemma closed_ring_snoc {A} (c0 : A) rest : closed_ring ((c0 :: rest) ++ [c0]).
Proof. unfold closed_ring. simpl app. apply (last_last (c0 :: rest) c0 c0). Qed.

Lemma in_range i n : In i (range n) -> 0 <= i < n.
Proof.
  unfold range. intros Hin. apply in_map_iff in Hin as (k & <- & Hk).
  apply in_seq in Hk. lia.
Qed.

Lemma returns_of_outcome {S A} (a : A) (s : S) (Q : A -> S -> Prop) :
  Q a s -> returns (of_outcome (Ok a)) s Q.
Proof. intros HQ. exists a, s. split; [reflexivity | exact HQ]. Qed.

Lemma returns_random_polygon center size vertices s :
  1 <= vertices < float_limit ->
  returns (random_polygon center size vertices) s (fun ring _ =>
    Z.of_nat (List.length ring) = vertices + 1 /\ closed_ring ring).
Proof.
  intros Hv. unfold random_polygon. apply returns_bind.
  eapply returns_weaken.
  { apply (returns_for_each (fun _ _ => True)). intros i s0 Hi.
    apply in_range in Hi.
    rewrite (float_of_int_ok i), (float_of_int_ok vertices) by lia.
    apply returns_bind, returns_of_outcome, returns_bind, returns_of_outcome.
    apply returns_bind. eapply returns_weaken; [apply returns_uniform|].
    intros jitter s1 _. apply returns_bind.
    eapply returns_weaken; [apply returns_uniform|].
    intros u s2 _. apply returns_ret. exact I. }
  intros coords s1 Hcoords. apply Forall2_length_eq in Hcoords.
  rewrite range_length in Hcoords.
  destruct coords as [|c0 rest]; [simpl in Hcoords; lia|].
  apply returns_bind. apply returns_ret. apply returns_ret. split.
  - rewrite length_app, Hcoords. simpl. lia.
  - apply closed_ring_snoc.
Qed.

Lemma range_nonpositive n : n <= 0 -> range n = [].
Proof. intros Hn. unfold range. replace (Z.to_nat n) with 0%nat by lia. reflexivity. Qed.



(** One step through a generator body. *)
Ltac draw :=
  lazymatch goal with
  | |- returns (bind _ _) _ _ => apply returns_bind
  | |- returns (ret _) _ _ => apply returns_ret
  | |- returns random_point _ _ =>
      eapply returns_weaken; [apply returns_random_point | intros ? ? ?]
  | |- returns (uniform _ _) _ _ =>
      eapply returns_weaken; [apply returns_uniform | intros ? ? _]
  | |- returns (gauss _ _) _ _ =>
      eapply returns_weaken; [apply returns_gauss | intros ? ? _]
  | |- returns (randint _ _) _ _ =>
      eapply returns_weaken; [apply returns_randint; lia | intros ? ? ?]
  | |- returns (choice _) _ _ =>
      eapply returns_weaken; [apply returns_choice; discriminate | intros ? ? ?]
  | |- returns (random_polygon _ _ _) _ _ =>
      eapply returns_weaken;
      [apply returns_random_polygon; split; [lia | reflexivity] | intros ? ? [? ?]]
  end; cbv beta in *.

(** A generator that loops [n] times and wraps the items in a collection. *)
Ltac collect P :=
  apply returns_bind; eapply returns_weaken;
  [ apply (returns_for_each (fun _ => P)); intros i ? _
  | intros fs ? Hfs; apply returns_ret; exists fs; split; [reflexivity|]; split;
    [ rewrite (Forall2_length_eq _ _ _ Hfs), range_length; reflexivity
    | apply (Forall2_Forall_r _ _ _ _ Hfs); auto ] ].

Lemma drillholes_collected n s :
  returns (generate_drillholes_geojson n) s (fun v _ => collects drillhole n v).
Proof.
  unfold generate_drillholes_geojson. collect drillhole.
  repeat draw. eexists _, _. split; [reflexivity|]. split; [assumption|discriminate].
Qed.

Lemma geology_collected n s :
  returns (generate_geology_geojson n) s (fun v _ => collects geology_polygon n v).
Proof.
  unfold generate_geology_geojson. collect geology_polygon.
  repeat draw. eexists _, _. split; [reflexivity|].
  repeat split; try assumption. discriminate.
Qed.

Lemma tenements_collected n s :
  returns (generate_tenements_geojson n) s (fun v _ => collects tenement n v).
Proof.
  unfold generate_tenements_geojson. collect tenement.
  repeat draw.
  eexists _, _, _, _, _.
  split; [reflexivity|]. split; [reflexivity|].
  split; [reflexivity|]. split; [assumption|]. split; [reflexivity|].
  match goal with
  | Hs : In ?st ["Active"; "Active"; "Active"; "Pending"] |- In ?st _ =>
      simpl in Hs |- *; intuition
  end.
Qed.

Lemma tracks_collected n s :
  returns (generate_tracks_geojson n) s (fun v _ => collects track n v).
Proof.
  unfold generate_tracks_geojson. collect track.
  draw. draw. draw. draw. draw.
  eapply returns_weaken.
  { apply (returns_for_fold (fun _ => True)); [|exact I].
    intros _ [current coords] ? _. repeat draw. exact I. }
  intros walk ? _. repeat draw.
  eexists _, _. split; [reflexivity|discriminate].
Qed.

Ltac tabulate P :=
  eapply returns_weaken;
  [ apply (returns_for_each (fun _ => P)); intros i ? _
  | intros fs ? Hfs; split;
    [ rewrite (Forall2_length_eq _ _ _ Hfs), range_length; reflexivity
    | apply (Forall2_Forall_r _ _ _ _ Hfs); auto ] ].

Lemma assays_tabulated n s :
  returns (generate_assays_csv n) s (fun l _ =>
    rows (located_row assay_fields "longitude" "latitude") n l).
Proof.
  unfold generate_assays_csv.
  tabulate (located_row assay_fields "longitude" "latitude").
  repeat draw. eexists _, _. split; [reflexivity|].
  repeat split; try reflexivity; apply H.
Qed.

Lemma survey_tabulated n s :
  returns (generate_survey_csv n) s (fun l _ =>
    rows (located_row survey_fields "x" "y") n l).
Proof.
  unfold generate_survey_csv.
  tabulate (located_row survey_fields "x" "y").
  repeat draw. eexists _, _. split; [reflexivity|].
  repeat split; try reflexivity; apply H.
Qed.

End GeneratorFacts.

(** ** What the script does to the world *)

Lemma raises_now {S A B} (m : Eff S A) (k : A -> Eff S B) s e Q :
  raises m s e Q -> raises (bind m k) s e Q.
Proof.
  intros (s' & Hm & HQ). exists s'. unfold bind. rewrite Hm. auto.
Qed.

Lemma raises_later {S A B} (m : Eff S A) (k : A -> Eff S B) s e Q :
  returns m s (fun a s' => raises (k a) s' e Q) -> raises (bind m k) s e Q.
Proof.
  intros (a & s' & Hm & s'' & Hk & HQ). exists s''. unfold bind. rewrite Hm. auto.
Qed.

Lemma returns_run {S A} (m : Eff S A) s (P : A -> S -> Prop) :
  returns m s P -> returns m s (fun a s' => m s = (Ok a, s') /\ P a s').
Proof. intros (a & s' & Hm & HP). exists a, s'. auto. Qed.

Lemma returns_for_each_inv {S A B} (I : S -> Prop) (body : A -> Eff S B) xs :
  (forall x s, In x xs -> I s -> returns (body x) s (fun _ s' => I s')) ->
  forall s, I s -> returns (for_each xs body) s (fun _ s' => I s').
Proof.
  induction xs as [|x xs IH]; intros Hbody s Hs; simpl.
  - apply returns_ret. assumption.
  - apply returns_bind.
    eapply returns_weaken; [apply Hbody; [left; reflexivity | assumption]|].
    intros y s1 Hs1. apply returns_bind.
    eapply returns_weaken; [apply IH; [|assumption]|].
    + intros x' s' Hin. apply Hbody. right. assumption.
    + intros ys s2 Hs2. apply returns_ret. assumption.
Qed.

Section ScriptFacts.

Context {RS : RandomSource} {ML : MathLib} {Env : Environment}.

Lemma logged_logged w l1 l2 : logged (logged w l1) l2 = logged w (l1 ++ l2).
Proof. unfold logged. simpl. rewrite app_assoc. reflexivity. Qed.

Lemma log_logged (w : world) l : log (logged w l) = (log w ++ l)%list.
Proof. reflexivity. Qed.

Lemma logged_nil w : logged w [] = w.
Proof. unfold logged. rewrite app_nil_r. destruct w; reflexivity. Qed.

Lemma returns_emit e w (Q : unit -> world -> Prop) :
  Q tt (logged w [e]) -> returns (emit e) w Q.
Proof. intros HQ. exists tt, (logged w [e]). split; [reflexivity | exact HQ]. Qed.

Lemma returns_print line w (Q : unit -> world -> Prop) :
  Q tt (logged w [Print line]) -> returns (print line) w Q.
Proof. apply returns_emit. Qed.

Lemma returns_lift {A} (a : A) w (Q : A -> world -> Prop) :
  Q a w -> returns (lift (Ok a)) w Q.
Proof. intros HQ. exists a, w. split; [reflexivity | exact HQ]. Qed.

Lemma returns_open_w path w (Q : unit -> world -> Prop) :
  can_open path = true -> Q tt (logged w [Open path]) -> returns (open_w path) w Q.
Proof. intros Hopen HQ. unfold open_w. rewrite Hopen. apply returns_emit, HQ. Qed.


Lemma returns_draw {A} (m : Rand A) w (Q : A -> world -> Prop) :
  returns m (rng w) (fun a s' => Q a {| rng := s'; log := log w |}) ->
  returns (draw m) w Q.
Proof.
  intros (a & s' & Hm & HQ). exists a, {| rng := s'; log := log w |}.
  unfold draw. rewrite Hm. auto.
Qed.


Lemma extends_refl P w : extends P w w.
Proof. exists []. split; [symmetry; apply logged_nil | reflexivity]. Qed.

Lemma extends_step P w w' e :
  extends P w w' -> P e = true -> extends P w (logged w' [e]).
Proof.
  intros (l & -> & Hl) He. exists (l ++ [e])%list. split.
  - apply logged_logged.
  - rewrite forallb_app, Hl. simpl. rewrite He. reflexivity.
Qed.

Lemma extends_trans P w w' w'' :
  extends P w w' -> extends P w' w'' -> extends P w w''.
Proof.
  intros (l & -> & Hl) (l' & -> & Hl'). exists (l ++ l')%list. split.
  - apply logged_logged.
  - rewrite forallb_app, Hl, Hl'. reflexivity.
Qed.

(** One primitive step; [exec] also steps into a [bind] that starts with
    one. *)
Ltac prim :=
  lazymatch goal with
  | |- returns (ret _) _ _ => apply returns_ret
  | |- returns (print _) _ _ => apply returns_print
  | |- returns (emit _) _ _ => apply returns_emit
  | |- returns (lift ?o) _ _ =>
      let o' := eval cbn in o in
      change (lift o) with (lift o'); apply returns_lift
  | |- returns (open_w _) _ _ => apply returns_open_w; [solve [auto]|]
  end.

Ltac exec :=
  lazymatch goal with
  | |- returns (bind ?m _) _ _ =>
      lazymatch m with
      | ret _ => idtac | print _ => idtac | emit _ => idtac
      | lift _ => idtac | open_w _ => idtac
      end; apply returns_bind; prim
  | |- _ => prim
  end.

Ltac enter := apply returns_bind.

(** *** Writing one file *)

Lemma returns_write_json path data w (Q : unit -> world -> Prop) :
  can_open path = true ->
  Q tt (logged w [Open path; Write path (json_text data)]) ->
  returns (write_json path data) w Q.
Proof.
  intros Hopen HQ. unfold write_json. repeat exec.
  rewrite logged_logged. exact HQ.
Qed.

Lemma existsb_eqb_In k l : In k l -> existsb (String.eqb k) l = true.
Proof.
  intros Hin. apply existsb_exists. exists k. split; [assumption | apply String.eqb_refl].
Qed.

Lemma dict_to_list_keyed fields row :
  keyed fields row -> dict_to_list fields row = Ok (cells fields row).
Proof.
  intros (d & -> & <-). unfold dict_to_list, cells.
  replace (forallb _ (keys d)) with true; [reflexivity|].
  symmetry. apply forallb_forall. intros k Hk. apply existsb_eqb_In, Hk.
Qed.

Lemma returns_csv_rows path fields table w :
  Forall (keyed fields) table ->
  returns (for_each table (fun row =>
             values <- lift (dict_to_list fields row) ;;
             emit (Write path (csv_line values)))) w
    (fun _ w' =>
       w' = logged w (map (fun row => Write path (csv_line (cells fields row))) table)).
Proof.
  intros Htable. revert w. induction Htable as [|row table Hrow Hrest IH]; intros w; simpl.
  - apply returns_ret. symmetry. apply logged_nil.
  - rewrite (dict_to_list_keyed _ _ Hrow). enter. repeat exec.
    enter. eapply returns_weaken; [apply IH|]. intros ys w' ->. exec.
    apply logged_logged.
Qed.

Lemma returns_write_csv path fields table w (Q : unit -> world -> Prop) :
  can_open path = true -> table <> [] -> Forall (keyed fields) table ->
  Q tt (logged w (saved_csv path fields table)) ->
  returns (write_csv path table) w Q.
Proof.
  intros Hopen Hne Htable HQ. unfold write_csv.
  destruct table as [|row0 table']; [congruence|].
  pose proof (Forall_inv Htable) as (d0 & -> & Hd0).
  repeat exec. rewrite Hd0. enter.
  eapply returns_weaken; [apply (returns_csv_rows path fields); assumption|].
  intros _ w' ->. exec. rewrite !logged_logged. exact HQ.
Qed.

(** *** The three later phases *)

Lemma shapefile_event_target name :
  In name dataset_names ->
  existsb (String.eqb name) dataset_names = true /\
  existsb (fun t => String.eqb (name ++ ".prj") (t ++ ".prj")) dataset_names = true.
Proof.
  intros Hin. split; [apply existsb_eqb_In, Hin|].
  apply existsb_exists. exists name. split; [assumption | apply String.eqb_refl].
Qed.

Ltac frame :=
  repeat (apply extends_step; [|simpl; solve [assumption | reflexivity]]);
  solve [assumption | apply extends_refl].

Lemma returns_add_field name kv w0 w :
  In name dataset_names -> extends shapefile_event w0 w ->
  returns (add_field name kv) w (fun _ w' => extends shapefile_event w0 w').
Proof.
  intros Hname Hw. destruct (shapefile_event_target name Hname) as [Ht _].
  destruct kv as [key [z|f|s|l|d]]; simpl; exec; frame.
Qed.

Lemma record_values_dict ks d : exists vs, record_values ks (Dict d) = Ok vs.
Proof. destruct ks; eexists; reflexivity. Qed.

Lemma returns_shape_record name kind ks f w0 w :
  In name dataset_names -> extends shapefile_event w0 w -> shaped kind f ->
  returns (geom <- lift (getitem f "geometry") ;;
           props <- lift (getitem f "properties") ;;
           add_shape name kind geom ;;
           values <- lift (record_values ks props) ;;
           emit (ShpRecord name values)) w
    (fun _ w' => extends shapefile_event w0 w').
Proof.
  intros Hname Hw (g & coords & props & -> & _ & Hpoint).
  destruct (shapefile_event_target name Hname) as [Ht _].
  destruct (record_values_dict ks props) as [vs Hvs].
  unfold add_shape. repeat exec. enter. repeat exec.
  destruct kind.
  - destruct (Hpoint eq_refl) as (x & y & ->). repeat exec.
    rewrite Hvs. repeat exec. frame.
  - repeat exec. rewrite Hvs. repeat exec. frame.
  - repeat exec. rewrite Hvs. repeat exec. frame.
Qed.

Lemma returns_generate_shapefile kind name fs w :
  In name dataset_names ->
  (importable "shapefile" = true -> can_open (name ++ ".prj") = true) ->
  Forall (shaped kind) fs ->
  returns (generate_shapefile (collection fs) name) w
    (fun _ w' => extends shapefile_event w w').
Proof.
  intros Hname Hopen Hfs. unfold generate_shapefile.
  destruct (shapefile_event_target name Hname) as [Ht Hprj].
  destruct (importable "shapefile"); simpl negb; cbv iota.
  2:{ repeat exec. frame. }
  specialize (Hopen eq_refl).
  exec. destruct fs as [|f0 fs']; simpl truthy; simpl negb; cbv iota.
  { exec. apply extends_refl. }
  pose proof (Forall_inv Hfs) as (g & coords & props & Hf0 & Hkind & _).
  subst f0. repeat exec. rewrite Hkind. repeat exec.
  enter. eapply returns_weaken.
  { apply (returns_for_each_inv (extends shapefile_event w)).
    - intros kv w' _ Hw'. apply returns_add_field; assumption.
    - frame. }
  intros ? w1 Hw1. cbv beta in Hw1. repeat exec.
  enter. eapply returns_weaken.
  { apply (returns_for_each_inv (extends shapefile_event w)); [|exact Hw1].
    intros f w' Hin Hw'. apply returns_shape_record; try assumption.
    rewrite Forall_forall in Hfs. apply Hfs, Hin. }
  intros ? w2 Hw2. cbv beta in Hw2. repeat exec. frame.
Qed.

Lemma returns_generate_geotiff w :
  returns generate_geotiff w (fun _ w' => extends raster_event w w').
Proof.
  unfold generate_geotiff.
  destruct (importable "numpy" && importable "rasterio"); simpl negb; cbv iota;
    repeat exec; frame.
Qed.


Lemma returns_zip w :
  In "drillholes.geojson" (directory w) ->
  returns
    (try_except
       (shp_files <- glob "drillholes." ;;
        match shp_files with
        | [] => ret tt
        | _ =>
            (if can_open "drillholes_shp.zip"
             then emit (Zip "drillholes_shp.zip" shp_files)
             else raise (OSError "drillholes_shp.zip")) ;;
            print (nl ++ "Zipped shapefile: drillholes_shp.zip")
        end)
       (fun e => print ("  Could not create zip: " ++ str_exn e))) w
    (fun _ w' =>
       exists zip,
         w' = logged w zip /\ forallb zip_event zip = true /\
         (can_open "drillholes_shp.zip" = true ->
          exists members, In "drillholes.geojson" members /\ zip = zipped members)).
Proof.
  intros Hin. unfold returns, try_except, bind, glob.
  set (files := filter (String.prefix "drillholes.") (directory w)).
  assert (Hfiles : In "drillholes.geojson" files).
  { apply filter_In. split; [assumption | reflexivity]. }
  destruct files as [|f files'] eqn:Efiles; [destruct Hfiles|].
  destruct (can_open "drillholes_shp.zip"); simpl.
  - eexists tt, _. split; [reflexivity|]. exists (zipped (f :: files')).
    split; [unfold logged, zipped; simpl; rewrite <- app_assoc; reflexivity|].
    split; [reflexivity|]. intros _. exists (f :: files'). auto.
  - eexists tt, _. split; [reflexivity|].
    eexists [_]. split; [reflexivity|]. split; [reflexivity | discriminate].
Qed.

Lemma drillhole_shaped f : drillhole f -> shaped POINT f.
Proof.
  intros (p & props & -> & _). exists "Point", (point_value p), props.
  split; [reflexivity|]. split; [reflexivity|]. intros _. eexists _, _. reflexivity.
Qed.

Lemma geology_shaped f : geology_polygon f -> shaped POLYGON f.
Proof.
  intros (ring & props & -> & _). eexists "Polygon", _, props.
  split; [reflexivity|]. split; [reflexivity | discriminate].
Qed.

Lemma tenement_shaped f : tenement f -> shaped POLYGON f.
Proof.
  intros (c & sz & props & ty & st & -> & _). eexists "Polygon", _, props.
  split; [reflexivity|]. split; [reflexivity | discriminate].
Qed.

Lemma track_shaped f : track f -> shaped POLYLINE f.
Proof.
  intros (coords & props & -> & _). eexists "LineString", _, props.
  split; [reflexivity|]. split; [reflexivity | discriminate].
Qed.

Lemma located_row_keyed fields x y row : located_row fields x y row -> keyed fields row.
Proof. intros (p & d & -> & Hk & _). exists d. auto. Qed.

Lemma returns_shapefile_step kind name fs w0 w :
  In name dataset_names ->
  (importable "shapefile" = true -> can_open (name ++ ".prj") = true) ->
  Forall (shaped kind) fs -> extends shapefile_event w0 w ->
  returns (written <- generate_shapefile (collection fs) name ;;
           if written then print ("  " ++ name ++ ".shp") else ret tt) w
    (fun _ w' => extends shapefile_event w0 w').
Proof.
  intros Hname Hopen Hfs Hw. enter.
  eapply returns_weaken; [apply (returns_generate_shapefile kind); assumption|].
  intros written w' Hw'.
  assert (Hw0 : extends shapefile_event w0 w') by (eapply extends_trans; eassumption).
  destruct written; exec; [apply extends_step; [assumption | reflexivity] | assumption].
Qed.

Lemma opened_in_directory p w : In (Open p) (log w) -> In p (directory w).
Proof.
  intros Hin. unfold directory. apply nodup_In, in_or_app. right.
  apply in_flat_map. exists (Open p). split; [assumption | left; reflexivity].
Qed.

Lemma in_log_logged e w l : In e (log w) -> In e (log (logged w l)).
Proof. intros Hin. unfold logged. simpl. apply in_or_app. left. assumption. Qed.

Lemma in_log_logged_r e w l : In e l -> In e (log (logged w l)).
Proof. intros Hin. unfold logged. simpl. apply in_or_app. right. assumption. Qed.

Lemma extends_in_log P e w w' : extends P w w' -> In e (log w) -> In e (log w').
Proof. intros (l & -> & _). apply in_log_logged. Qed.

Ltac draw_with H :=
  apply returns_draw;
  eapply returns_weaken; [apply returns_run, H|]; cbv beta.

Lemma returns_save_json name fs n w (Q : unit -> world -> Prop) :
  can_open (name ++ ".geojson") = true ->
  List.length fs = Z.to_nat n -> 0 <= n ->
  Q tt (logged w (saved_json name (collection fs) n)) ->
  returns (write_json (name ++ ".geojson") (collection fs) ;;
           features <- lift (getitem (collection fs) "features") ;;
           count <- lift (len features) ;;
           print ("  " ++ (name ++ ".geojson") ++ " (" ++ str_Z count ++ " features)"))
    w Q.
Proof.
  intros Hopen Hlen Hn HQ. enter. apply returns_write_json; [assumption|].
  repeat exec. rewrite Hlen, Z2Nat.id by assumption.
  rewrite logged_logged. exact HQ.
Qed.

Lemma main_run w :
  outputs_writable -> returns main w (fun _ w' => complete_run w w').
Proof.
  intros (Hjson & Hassays & Hsurvey & Hprj). unfold main. repeat exec.
  enter. draw_with drillholes_collected. intros d s1 [Hd Cd].
  enter. draw_with geology_collected. intros g s2 [Hg Cg].
  enter. draw_with tenements_collected. intros t s3 [Ht Ct].
  enter. draw_with tracks_collected. intros k s4 [Hk Ck].
  simpl rng in *.
  pose proof Cd as (fd & Ed & Ld & Fd). pose proof Cg as (fg & Eg & Lg & Fg).
  pose proof Ct as (ft & Et & Lt & Ft). pose proof Ck as (fk & Ek & Lk & Fk).
  cbn [for_each]. cbv beta iota.
  rewrite Ed, Eg, Et, Ek.
  enter. enter.
  apply (returns_save_json _ _ 50); [apply Hjson; simpl; auto | assumption | lia |].
  enter. enter.
  apply (returns_save_json _ _ 15); [apply Hjson; simpl; auto | assumption | lia |].
  enter. enter.
  apply (returns_save_json _ _ 8); [apply Hjson; simpl; auto | assumption | lia |].
  enter. enter.
  apply (returns_save_json _ _ 5); [apply Hjson; simpl; auto 6 | assumption | lia |].
  repeat exec.
  enter. draw_with assays_tabulated. intros a s5 [Ha Ca].
  pose proof Ca as [La Fa].
  enter. apply (returns_write_csv _ assay_fields).
  { assumption. }
  { intros ->. discriminate La. }
  { eapply Forall_impl; [|exact Fa]. apply located_row_keyed. }
  rewrite La. change (Z.of_nat (Z.to_nat 100)) with 100. repeat exec.
  enter. draw_with survey_tabulated. intros v s6 [Hv Cv].
  pose proof Cv as [Lv Fv].
  enter. apply (returns_write_csv _ survey_fields).
  { assumption. }
  { intros ->. discriminate Lv. }
  { eapply Forall_impl; [|exact Fv]. apply located_row_keyed. }
  rewrite Lv. change (Z.of_nat (Z.to_nat 200)) with 200. repeat exec.
  simpl rng in *.
  match goal with |- returns _ ?w1 _ => set (w3 := w1) end.
  enter. enter. eapply returns_weaken.
  { apply (returns_shapefile_step POINT _ _ w3);
      [simpl; auto | intros Hi; apply Hprj; simpl; auto | | apply extends_refl].
    eapply Forall_impl; [|exact Fd]. apply drillhole_shaped. }
  intros ? wa Hwa. cbv beta in Hwa.
  enter. enter. eapply returns_weaken.
  { apply (returns_shapefile_step POLYGON _ _ w3);
      [simpl; auto | intros Hi; apply Hprj; simpl; auto | | exact Hwa].
    eapply Forall_impl; [|exact Fg]. apply geology_shaped. }
  intros ? wb Hwb. cbv beta in Hwb.
  enter. enter. eapply returns_weaken.
  { apply (returns_shapefile_step POLYGON _ _ w3);
      [simpl; auto | intros Hi; apply Hprj; simpl; auto | | exact Hwb].
    eapply Forall_impl; [|exact Ft]. apply tenement_shaped. }
  intros ? wc Hwc. cbv beta in Hwc.
  enter. enter. eapply returns_weaken.
  { apply (returns_shapefile_step POLYLINE _ _ w3);
      [simpl; auto 6 | intros Hi; apply Hprj; simpl; auto 6 | | exact Hwc].
    eapply Forall_impl; [|exact Fk]. apply track_shaped. }
  intros ? wd Hwd. cbv beta in Hwd. repeat exec.
  enter. eapply returns_weaken; [apply returns_generate_geotiff|].
  intros written we Hwe. cbv beta in Hwe.
  assert (Hwf : returns (if written
                         then print "  elevation.tif (single band)" ;;
                              print "  satellite_rgb.tif (3 bands)"
                         else ret tt) we
                  (fun _ wf =>
                     extends raster_event (logged wd [Print (nl ++ "GeoTIFF files:")]) wf)).
  { destruct written; repeat exec; [|assumption].
    apply extends_step; [apply extends_step|]; auto. }
  enter. eapply returns_weaken; [exact Hwf|]. clear Hwf.
  intros ? wf Hwf. cbv beta in Hwf.
  enter. eapply returns_weaken.
  { apply returns_zip, opened_in_directory.
    apply (extends_in_log _ _ _ _ Hwf), in_log_logged, (extends_in_log _ _ _ _ Hwd).
    unfold w3.
    repeat first [ solve [apply in_log_logged_r; simpl; auto]
                 | apply in_log_logged | progress simpl log ]. }
  intros ? wz (zip & -> & Hzip & Hmembers). exec.
  destruct Hwd as (shp & -> & Hshp). destruct Hwf as (tif & -> & Htif).
  subst d g t k. unfold complete_run.
  exists (collection fd), (collection fg), (collection ft), (collection fk).
  exists a, v, s4, s5, shp, tif, zip.
  split; [exists s1, s2, s3; repeat split; assumption|].
  split; [repeat split; assumption|].
  split; [|repeat split; assumption].
  unfold w3. repeat first [rewrite log_logged | progress cbn [log]].
  unfold opening, geojson_phase, csv_phase, saved_json, saved_csv.
  repeat (progress (cbn [app]; rewrite <- ?app_assoc)). reflexivity.
Qed.




End ScriptFacts.

(** ** What the log says about the files *)

Section FileFacts.

Context {RS : RandomSource} {ML : MathLib} {Env : Environment}.

Lemma contents_app path l1 l2 acc :
  contents path (l1 ++ l2) acc = contents path l2 (contents path l1 acc).
Proof.
  revert acc. induction l1 as [|e l1 IH]; intros acc; [reflexivity|].
  destruct e; simpl; apply IH.
Qed.

Lemma contents_untouched path l acc :
  forallb (fun e => negb (touches path e)) l = true -> contents path l acc = acc.
Proof.
  revert acc. induction l as [|e l IH]; intros acc Hl; [reflexivity|].
  simpl in Hl. apply andb_prop in Hl as [He Hl].
  destruct e; simpl in *; try (apply IH; assumption);
    apply negb_true_iff in He; rewrite He; apply IH; assumption.
Qed.

Lemma contents_lines path (line : value -> string) table c :
  contents path (map (fun row => Write path (line row)) table) (Some c) =
  Some (c ++ map line table)%list.
Proof.
  revert c. induction table as [|row table IH]; intros c; simpl.
  - rewrite app_nil_r. reflexivity.
  - rewrite String.eqb_refl, IH, <- app_assoc. reflexivity.
Qed.

Lemma contents_other_lines path other (line : value -> string) table acc :
  String.eqb other path = false ->
  contents path (map (fun row => Write other (line row)) table) acc = acc.
Proof.
  intros Hne. apply contents_untouched. apply forallb_forall.
  intros e He. apply in_map_iff in He as (row & <- & _). simpl. rewrite Hne. reflexivity.
Qed.

Lemma later_phases_untouched path shp tif zip :
  In path output_files ->
  forallb shapefile_event shp = true -> forallb raster_event tif = true ->
  forallb zip_event zip = true ->
  forallb (fun e => negb (touches path e))
    (Print (nl ++ "Shapefiles:") :: shp ++ Print (nl ++ "GeoTIFF files:") :: tif
     ++ zip ++ [finale]) = true.
Proof.
  intros Hpath Hshp Htif Hzip.
  assert (Hs : forall e, shapefile_event e = true -> negb (touches path e) = true).
  { intros e He. destruct e; try reflexivity; simpl in He |- *;
      repeat (apply orb_prop in He as [He|He]); try discriminate;
      apply String.eqb_eq in He; subst;
      simpl in Hpath; intuition (subst; reflexivity). }
  assert (Ht : forall e, raster_event e = true -> negb (touches path e) = true).
  { intros e He. destruct e; try reflexivity; discriminate. }
  assert (Hz : forall e, zip_event e = true -> negb (touches path e) = true).
  { intros e He. destruct e; try reflexivity; discriminate. }
  simpl. rewrite forallb_app. simpl. rewrite !forallb_app. simpl.
  rewrite !andb_true_r, !andb_true_iff. repeat split; apply forallb_forall; intros e He.
  - apply Hs. rewrite forallb_forall in Hshp. auto.
  - apply Ht. rewrite forallb_forall in Htif. auto.
  - apply Hz. rewrite forallb_forall in Hzip. auto.
Qed.


Lemma contents_saved_csv path fields table acc :
  contents path (saved_csv path fields table) acc =
  Some (csv_line (map Str fields)
        :: map (fun row => csv_line (cells fields row)) table).
Proof.
  unfold saved_csv. cbn [contents]. rewrite String.eqb_refl. cbn [app].
  rewrite (contents_lines path (fun row => csv_line (cells fields row))). reflexivity.
Qed.

Lemma contents_saved_csv_other path other fields table acc :
  String.eqb other path = false ->
  contents path (saved_csv other fields table) acc = acc.
Proof.
  intros Hne. unfold saved_csv. cbn [contents]. rewrite Hne.
  apply (contents_other_lines path other (fun row => csv_line (cells fields row))), Hne.
Qed.

Lemma contents_csv_phase path a v acc :
  contents path (csv_phase a v) acc =
  contents path (saved_csv "survey_points.csv" survey_fields v)
    (contents path (saved_csv "assays.csv" assay_fields a) acc).
Proof.
  unfold csv_phase, reported_csv. cbn [contents].
  rewrite contents_app. cbn [contents]. rewrite contents_app. reflexivity.
Qed.

Lemma files_after_run l0 d g t k a v shp tif zip :
  forallb shapefile_event shp = true -> forallb raster_event tif = true ->
  forallb zip_event zip = true ->
  files_written
    (l0 ++ opening ++ geojson_phase d g t k ++ csv_phase a v
     ++ Print (nl ++ "Shapefiles:") :: shp
     ++ Print (nl ++ "GeoTIFF files:") :: tif
     ++ zip ++ [finale])%list d g t k a v.
Proof.
  intros Hshp Htif Hzip.
  set (later := (Print (nl ++ "Shapefiles:") :: shp
                 ++ Print (nl ++ "GeoTIFF files:") :: tif ++ zip ++ [finale])%list).
  assert (Hlater : forall path acc, In path output_files ->
            contents path later acc = acc).
  { intros path acc H. apply contents_untouched.
    apply later_phases_untouched; assumption. }
  unfold files_written.
  repeat split; rewrite !contents_app, Hlater by (simpl; auto 10);
    rewrite contents_csv_phase;
    rewrite ?contents_saved_csv, ?contents_saved_csv_other by reflexivity;
    try reflexivity.
  all: unfold geojson_phase, saved_json; simpl;
    destruct (contents _ opening _); reflexivity.
Qed.

End FileFacts.

(** ** The shapefile writer, event by event *)

(** Steps through a computation: one primitive, a [bind] that starts with
    one, a [bind] to be entered by hand, a generator whose result is kept. *)
Ltac prim :=
  lazymatch goal with
  | |- returns (ret _) _ _ => apply returns_ret
  | |- returns (print _) _ _ => apply returns_print
  | |- returns (emit _) _ _ => apply returns_emit
  | |- returns (lift ?o) _ _ =>
      let o' := eval cbn in o in
      change (lift o) with (lift o'); apply returns_lift
  | |- returns (open_w _) _ _ => apply returns_open_w; [solve [auto]|]
  end.

Ltac exec :=
  lazymatch goal with
  | |- returns (bind ?m _) _ _ =>
      lazymatch m with
      | ret _ => idtac | print _ => idtac | emit _ => idtac
      | lift _ => idtac | open_w _ => idtac
      end; apply returns_bind; prim
  | |- _ => prim
  end.

Ltac enter := apply returns_bind.

Ltac draw_with H :=
  apply returns_draw;
  eapply returns_weaken; [apply returns_run, H|]; cbv beta.

Lemma for_each_app {S A B} (body : A -> Eff S B) xs ys s :
  for_each (xs ++ ys) body s =
  match for_each xs body s with
  | (Ok a, s') =>
      match for_each ys body s' with
      | (Ok b, s'') => (Ok (a ++ b)%list, s'')
      | (Raise e, s'') => (Raise e, s'')
      end
  | (Raise e, s') => (Raise e, s')
  end.
Proof.
  revert s. induction xs as [|x xs IH]; intros s; simpl.
  - unfold ret. destruct (for_each ys body s) as [[b|e] s']; reflexivity.
  - unfold bind, ret. destruct (body x s) as [[y|e] s1]; [|reflexivity].
    rewrite IH.
    destruct (for_each xs body s1) as [[a|e] s2]; [|reflexivity].
    destruct (for_each ys body s2) as [[b|e] s3]; reflexivity.
Qed.

Lemma raises_for_each_at {S A B} (body : A -> Eff S B) pre x post s e Q :
  returns (for_each pre body) s (fun _ s' => raises (body x) s' e Q) ->
  raises (for_each (pre ++ x :: post) body) s e Q.
Proof.
  intros (a & s' & Hpre & s'' & Hx & HQ). exists s''. split; [|exact HQ].
  rewrite for_each_app, Hpre. simpl. unfold bind. rewrite Hx. reflexivity.
Qed.

Section ShapefileFacts.

Context {RS : RandomSource} {ML : MathLib} {Env : Environment}.

Lemma add_field_emits target kv : add_field target kv = emit (field_event target kv).
Proof. destruct kv as [key [z|f|s|l|d]]; reflexivity. Qed.

Lemma returns_fields target fields : forall w,
  returns (for_each fields (add_field target)) w (fun _ w' =>
    w' = logged w (map (field_event target) fields)).
Proof.
  induction fields as [|kv fields IH]; intros w; simpl.
  - apply returns_ret. symmetry. apply logged_nil.
  - rewrite add_field_emits. exec. enter.
    eapply returns_weaken; [apply IH|]. intros ys w' ->. exec.
    apply logged_logged.
Qed.

Lemma record_values_blank ks props :
  record_values ks (Dict props) = Ok (map (get_or_blank props) ks).
Proof. destruct ks; reflexivity. Qed.

Lemma returns_feature target kind ks f w :
  accepted kind f ->
  returns (geom <- lift (getitem f "geometry") ;;
           props <- lift (getitem f "properties") ;;
           add_shape target kind geom ;;
           values <- lift (record_values ks props) ;;
           emit (ShpRecord target values)) w
    (fun _ w' => exists es,
       feature_written target kind ks f es /\ w' = logged w es).
Proof.
  intros (g & coords & props & -> & Hpoint).
  unfold add_shape. repeat exec. enter. repeat exec.
  destruct kind.
  - destruct (Hpoint eq_refl) as (x & y & ->). repeat exec.
    rewrite record_values_blank. repeat exec.
    eexists. split; [|apply logged_logged].
    eexists g, _, props, _. split; [reflexivity|]. split; [|reflexivity].
    exists x, y. split; reflexivity.
  - repeat exec. rewrite record_values_blank. repeat exec.
    eexists. split; [|apply logged_logged].
    eexists g, coords, props, _. split; [reflexivity|]. split; reflexivity.
  - repeat exec. rewrite record_values_blank. repeat exec.
    eexists. split; [|apply logged_logged].
    eexists g, coords, props, _. split; [reflexivity|]. split; reflexivity.
Qed.

Lemma returns_features target kind ks fs :
  Forall (accepted kind) fs ->
  forall w,
    returns (for_each fs (fun f =>
               geom <- lift (getitem f "geometry") ;;
               props <- lift (getitem f "properties") ;;
               add_shape target kind geom ;;
               values <- lift (record_values ks props) ;;
               emit (ShpRecord target values))) w
      (fun _ w' => exists body,
         Forall2 (feature_written target kind ks) fs body /\
         w' = logged w (List.concat body)).
Proof.
  induction 1 as [|f fs Hf Hfs IH]; intros w; cbn [for_each].
  - apply returns_ret. exists []. split; [constructor | symmetry; apply logged_nil].
  - enter. eapply returns_weaken; [apply (returns_feature target kind ks f w Hf)|].
    intros ? w1 (es & Hes & ->). enter.
    eapply returns_weaken; [apply IH|].
    intros ? w2 (body & Hbody & ->). apply returns_ret.
    exists (es :: body). split; [constructor; assumption|].
    simpl. apply logged_logged.
Qed.

Lemma generate_shapefile_writes name kind g0 c0 props0 rest w :
  importable "shapefile" = true ->
  can_open (name ++ ".prj") = true ->
  writer_kind (Str g0) = Some kind ->
  Forall (accepted kind) (feature g0 c0 props0 :: rest) ->
  returns (generate_shapefile (collection (feature g0 c0 props0 :: rest)) name) w
    (fun written w' =>
       written = true /\
       exists l, shapefile_written name kind (feature g0 c0 props0 :: rest) l /\
                 w' = logged w l).
Proof.
  intros Himp Hopen Hkind Hfs. unfold generate_shapefile.
  rewrite Himp. simpl negb. cbv iota. exec. simpl truthy. simpl negb. cbv iota.
  repeat exec. rewrite Hkind. repeat exec.
  enter. eapply returns_weaken; [apply returns_fields|].
  intros ? w1 ->. repeat exec. enter.
  eapply returns_weaken; [apply (returns_features name kind (keys props0) _ Hfs)|].
  intros ? w2 (body & Hbody & ->). repeat exec. split; [reflexivity|].
  eexists. split.
  - exists g0, c0, props0, rest. eexists. split; [reflexivity|].
    split; [assumption|]. split; [|reflexivity].
    exists body. split; [exact Hbody | reflexivity].
  - rewrite !logged_logged. unfold shapefile_end. f_equal.
    cbn [app]. rewrite <- !app_assoc. reflexivity.
Qed.

Lemma substring_length_le n : forall s, (String.length (substring 0 n s) <= n)%nat.
Proof.
  induction n as [|n IH]; intros [|c s]; simpl; try lia.
  specialize (IH s). lia.
Qed.

Lemma field_event_is_field target kv : is_field (field_event target kv) = true.
Proof. destruct kv as [key [z|f|s|l|d]]; reflexivity. Qed.

Lemma well_formed_field arity target kv : well_formed arity (field_event target kv).
Proof.
  destruct kv as [key [z|f|s|l|d]]; simpl; apply substring_length_le.
Qed.

(** What the events of one written feature are, kind by kind. *)
Lemma feature_written_events target kind ks f es :
  feature_written target kind ks f es ->
  filter is_field es = [] /\ count_events is_shape es = 1%nat /\
  count_events is_record es = 1%nat /\ flat_map created es = [] /\
  Forall (well_formed (List.length ks)) es.
Proof.
  intros (g & coords & props & shape & -> & Hshape & ->).
  assert (Hs : is_field shape = false /\ is_shape shape = true /\
               is_record shape = false /\ created shape = [] /\
               well_formed (List.length ks) shape).
  { destruct kind; simpl in Hshape.
    - destruct Hshape as (x & y & _ & ->). repeat split.
    - subst shape. repeat split.
    - subst shape. repeat split. }
  destruct Hs as (Hf & Hsh & Hr & Hc & Hw).
  unfold count_events. cbn [filter flat_map app is_field is_shape is_record created].
  rewrite Hf, Hsh, Hr, Hc. repeat split.
  apply Forall_cons; [assumption|]. apply Forall_cons; [|apply Forall_nil].
  simpl. apply length_map.
Qed.

Lemma written_body_events target kind ks fs body :
  Forall2 (feature_written target kind ks) fs body ->
  filter is_field (List.concat body) = [] /\
  count_events is_shape (List.concat body) = List.length fs /\
  count_events is_record (List.concat body) = List.length fs /\
  flat_map created (List.concat body) = [] /\
  Forall (well_formed (List.length ks)) (List.concat body).
Proof.
  induction 1 as [|f es fs body Hf Hrest (IHf & IHs & IHr & IHc & IHw)].
  - repeat split. constructor.
  - apply feature_written_events in Hf as (Ff & Fs & Fr & Fc & Fw).
    unfold count_events in *. cbn [List.concat List.length].
    rewrite !filter_app, flat_map_app, !length_app, Ff, Fs, Fr, Fc, IHf, IHs, IHr, IHc.
    repeat split. apply Forall_app. split; assumption.
Qed.

Lemma fields_events target props0 :
  filter is_field (map (field_event target) props0) = map (field_event target) props0 /\
  count_events is_shape (map (field_event target) props0) = 0%nat /\
  count_events is_record (map (field_event target) props0) = 0%nat /\
  flat_map created (map (field_event target) props0) = [].
Proof.
  unfold count_events. induction props0 as [|[key v] props0 (IHf & IHs & IHr & IHc)];
    [repeat split|].
  cbn [map filter flat_map]. rewrite field_event_is_field, IHf.
  destruct v; cbn; rewrite ?IHs, ?IHr, ?IHc; repeat split; assumption.
Qed.

Lemma written_body_touches_nothing target kind ks fs body path :
  Forall2 (feature_written target kind ks) fs body ->
  forallb (fun e => negb (touches path e)) (List.concat body) = true.
Proof.
  induction 1 as [|f es fs body Hf Hrest IH]; [reflexivity|].
  cbn [List.concat]. rewrite forallb_app, IH, andb_true_r.
  destruct Hf as (g & coords & props & shape & -> & Hshape & ->).
  destruct kind; simpl in Hshape.
  - destruct Hshape as (x & y & _ & ->). reflexivity.
  - subst shape. reflexivity.
  - subst shape. reflexivity.
Qed.

End ShapefileFacts.

(** ** The later phases of a run *)

Section RunFacts.

Context {RS : RandomSource} {ML : MathLib} {Env : Environment}.

Lemma shaped_accepted kind f : shaped kind f -> accepted kind f.
Proof. intros (g & coords & props & -> & _ & Hp). exists g, coords, props. auto. Qed.

Lemma returns_shapefile_step_exact kind name fs w :
  (importable "shapefile" = true -> can_open (name ++ ".prj") = true) ->
  fs <> [] -> Forall (shaped kind) fs ->
  returns (written <- generate_shapefile (collection fs) name ;;
           if written then print ("  " ++ name ++ ".shp") else ret tt) w
    (fun _ w' => exists l,
       shapefile_step name kind (collection fs) l /\ w' = logged w l).
Proof.
  intros Hopen Hne Hfs. unfold shapefile_step.
  destruct (importable "shapefile") eqn:Himp.
  - destruct fs as [|f0 rest]; [congruence|].
    pose proof (Forall_inv Hfs) as (g0 & c0 & props0 & -> & Hkind & _).
    enter. eapply returns_weaken.
    { apply (generate_shapefile_writes name kind); auto.
      eapply Forall_impl; [|exact Hfs]. apply shaped_accepted. }
    intros written w1 (-> & l & Hl & ->). exec.
    eexists. split; [|apply logged_logged].
    eexists _, l. split; [reflexivity|]. split; [exact Hl | reflexivity].
  - unfold generate_shapefile. rewrite Himp. simpl negb. cbv iota.
    enter. repeat exec. exists [skipped_shapefile name]. split; reflexivity.
Qed.

Lemma returns_geotiff_exact {A} (rest : IO A) w (Q : A -> world -> Prop) :
  returns rest (logged w geotiff_phase) Q ->
  returns (written <- generate_geotiff ;;
           (if written
            then print "  elevation.tif (single band)" ;;
                 print "  satellite_rgb.tif (3 bands)"
            else ret tt) ;;
           rest) w Q.
Proof.
  unfold generate_geotiff, geotiff_phase.
  destruct (importable "numpy" && importable "rasterio"); simpl negb; cbv iota;
    intros Hrest; enter; repeat exec; cbv iota.
  - enter. repeat exec. rewrite !logged_logged. exact Hrest.
  - repeat exec. exact Hrest.
Qed.

Lemma returns_zip_exact w :
  returns
    (try_except
       (shp_files <- glob "drillholes." ;;
        match shp_files with
        | [] => ret tt
        | _ =>
            (if can_open "drillholes_shp.zip"
             then emit (Zip "drillholes_shp.zip" shp_files)
             else raise (OSError "drillholes_shp.zip")) ;;
            print (nl ++ "Zipped shapefile: drillholes_shp.zip")
        end)
       (fun e => print ("  Could not create zip: " ++ str_exn e))) w
    (fun _ w' => w' = logged w (zip_phase (log w))).
Proof.
  unfold returns, try_except, bind, glob, zip_phase, zip_members, directory.
  destruct (filter _ _) as [|f files].
  - exists tt, w. split; [reflexivity | symmetry; apply logged_nil].
  - destruct (can_open "drillholes_shp.zip"); simpl.
    + eexists tt, _. split; [reflexivity|].
      unfold logged, zipped. simpl. rewrite <- app_assoc. reflexivity.
    + eexists tt, _. split; reflexivity.
Qed.

Lemma main_trace w :
  outputs_writable -> returns main w (fun _ w' => run_trace w w').
Proof.
  intros (Hjson & Hassays & Hsurvey & Hprj). unfold main. repeat exec.
  enter. draw_with drillholes_collected. intros d s1 [Hd Cd].
  enter. draw_with geology_collected. intros g s2 [Hg Cg].
  enter. draw_with tenements_collected. intros t s3 [Ht Ct].
  enter. draw_with tracks_collected. intros k s4 [Hk Ck].
  simpl rng in *.
  pose proof Cd as (fd & Ed & Ld & Fd). pose proof Cg as (fg & Eg & Lg & Fg).
  pose proof Ct as (ft & Et & Lt & Ft). pose proof Ck as (fk & Ek & Lk & Fk).
  cbn [for_each]. cbv beta iota.
  rewrite Ed, Eg, Et, Ek.
  enter. enter.
  apply (returns_save_json _ _ 50); [apply Hjson; simpl; auto | assumption | lia |].
  enter. enter.
  apply (returns_save_json _ _ 15); [apply Hjson; simpl; auto | assumption | lia |].
  enter. enter.
  apply (returns_save_json _ _ 8); [apply Hjson; simpl; auto | assumption | lia |].
  enter. enter.
  apply (returns_save_json _ _ 5); [apply Hjson; simpl; auto 6 | assumption | lia |].
  repeat exec.
  enter. draw_with assays_tabulated. intros a s5 [Ha Ca].
  pose proof Ca as [La Fa].
  enter. apply (returns_write_csv _ assay_fields).
  { assumption. }
  { intros ->. discriminate La. }
  { eapply Forall_impl; [|exact Fa]. apply located_row_keyed. }
  rewrite La. change (Z.of_nat (Z.to_nat 100)) with 100. repeat exec.
  enter. draw_with survey_tabulated. intros v s6 [Hv Cv].
  pose proof Cv as [Lv Fv].
  enter. apply (returns_write_csv _ survey_fields).
  { assumption. }
  { intros ->. discriminate Lv. }
  { eapply Forall_impl; [|exact Fv]. apply located_row_keyed. }
  rewrite Lv. change (Z.of_nat (Z.to_nat 200)) with 200. repeat exec.
  simpl rng in *.
  match goal with |- returns _ ?w1 _ => set (w3 := w1) end.
  enter. enter. eapply returns_weaken.
  { apply (returns_shapefile_step_exact POINT);
      [intros Hi; apply Hprj; simpl; auto | intros ->; discriminate Ld |].
    eapply Forall_impl; [|exact Fd]. apply drillhole_shaped. }
  intros ? wa (ld & Hld & ->).
  enter. enter. eapply returns_weaken.
  { apply (returns_shapefile_step_exact POLYGON);
      [intros Hi; apply Hprj; simpl; auto | intros ->; discriminate Lg |].
    eapply Forall_impl; [|exact Fg]. apply geology_shaped. }
  intros ? wb (lg & Hlg & ->).
  enter. enter. eapply returns_weaken.
  { apply (returns_shapefile_step_exact POLYGON);
      [intros Hi; apply Hprj; simpl; auto | intros ->; discriminate Lt |].
    eapply Forall_impl; [|exact Ft]. apply tenement_shaped. }
  intros ? wc (lt & Hlt & ->).
  enter. enter. eapply returns_weaken.
  { apply (returns_shapefile_step_exact POLYLINE);
      [intros Hi; apply Hprj; simpl; auto 6 | intros ->; discriminate Lk |].
    eapply Forall_impl; [|exact Fk]. apply track_shaped. }
  intros ? wd (lk & Hlk & ->). repeat exec.
  apply returns_geotiff_exact.
  enter. eapply returns_weaken; [apply returns_zip_exact|].
  intros ? wz ->. exec.
  subst d g t k. unfold run_trace.
  exists (collection fd), (collection fg), (collection ft), (collection fk).
  exists a, v, s4, s5, (ld ++ lg ++ lt ++ lk)%list.
  split; [exists s1, s2, s3; repeat split; assumption|].
  split; [repeat split; assumption|].
  split; [exists ld, lg, lt, lk; repeat split; assumption|].
  match goal with |- context [zip_phase (log ?x)] => set (wf := x) end.
  assert (Hbefore :
    log wf = (log w ++ before_zip (collection fd) (collection fg) (collection ft)
                         (collection fk) a v (ld ++ lg ++ lt ++ lk))%list).
  { unfold wf, w3. repeat first [rewrite log_logged | progress cbn [log]].
    unfold before_zip, opening, geojson_phase, csv_phase, saved_json, saved_csv.
    repeat (progress (cbn [app]; rewrite <- ?app_assoc)). reflexivity. }
  rewrite !log_logged, Hbefore, <- !app_assoc. reflexivity.
Qed.

(** *** The files of a run *)

Lemma created_rows path (lines : list string) :
  flat_map created (map (Write path) lines) = [].
Proof. induction lines; simpl; auto. Qed.

Lemma created_saved_csv path fields table :
  flat_map created (saved_csv path fields table) = [path].
Proof.
  unfold saved_csv. cbn [flat_map created app]. f_equal.
  induction table; simpl; auto.
Qed.

Lemma created_csv_phase a v :
  flat_map created (csv_phase a v) = ["assays.csv"; "survey_points.csv"].
Proof.
  unfold csv_phase. cbn [flat_map created app].
  rewrite flat_map_app, created_saved_csv. cbn [flat_map created app].
  rewrite flat_map_app, created_saved_csv. reflexivity.
Qed.

Lemma created_shapefile_written name kind fs l :
  shapefile_written name kind fs l -> flat_map created l = shapefile_parts name.
Proof.
  intros (g & c & p & r & begun & -> & _ & (body & Hbody & ->) & ->).
  apply written_body_events in Hbody as (_ & _ & _ & Bc & _).
  destruct (fields_events name p) as (_ & _ & _ & Fc).
  rewrite <- app_comm_cons. cbn [flat_map created].
  rewrite !flat_map_app, Bc, Fc. reflexivity.
Qed.

Lemma created_shapefile_step name kind data l :
  shapefile_step name kind data l ->
  flat_map created l = if importable "shapefile" then shapefile_parts name else [].
Proof.
  unfold shapefile_step. destruct (importable "shapefile").
  - intros (fs & written & _ & Hw & ->).
    rewrite flat_map_app, (created_shapefile_written _ _ _ _ Hw). reflexivity.
  - intros ->. reflexivity.
Qed.

Lemma created_before_zip d g t k a v shp :
  shapefile_phase d g t k shp ->
  flat_map created (before_zip d g t k a v shp) =
    (output_files
     ++ (if importable "shapefile" then flat_map shapefile_parts dataset_names else [])
     ++ (if importable "numpy" && importable "rasterio" then raster_files else []))%list.
Proof.
  intros (ld & lg & lt & lk & Hd & Hg & Ht & Hk & ->).
  apply created_shapefile_step in Hd, Hg, Ht, Hk.
  unfold before_zip, geotiff_phase.
  rewrite !flat_map_app. cbn [flat_map app created].
  rewrite !flat_map_app, created_csv_phase, Hd, Hg, Ht, Hk.
  destruct (importable "shapefile"), (importable "numpy" && importable "rasterio");
    reflexivity.
Qed.

Lemma geojson_among_zip_members w d g t k a v shp :
  In "drillholes.geojson" (zip_members (log w ++ before_zip d g t k a v shp)).
Proof.
  unfold zip_members. apply filter_In. split; [|reflexivity].
  apply nodup_In, in_or_app. right. rewrite flat_map_app. apply in_or_app. right.
  unfold before_zip. rewrite !flat_map_app. apply in_or_app. right.
  apply in_or_app. left. left. reflexivity.
Qed.

Lemma zip_phase_cases w d g t k a v shp :
  exists members,
    members = zip_members (log w ++ before_zip d g t k a v shp) /\
    zip_phase (log w ++ before_zip d g t k a v shp) =
      if can_open "drillholes_shp.zip" then zipped members else [zip_failure].
Proof.
  pose proof (geojson_among_zip_members w d g t k a v shp) as Hin.
  unfold zip_phase. destruct (zip_members _) as [|m ms]; [destruct Hin|].
  exists (m :: ms). split; reflexivity.
Qed.

Lemma in_directory m (w : world) :
  In m (directory w) <-> In m listing \/ In m (flat_map created (log w)).
Proof. unfold directory. rewrite nodup_In, in_app_iff. reflexivity. Qed.

End RunFacts.

(** * The claims *)

Section GeneratorClaims.

Context {RS : RandomSource} {ML : MathLib}.

Lemma collects_features_all (P Q : value -> Prop) n v :
  (forall f, P f -> Q f) -> collects P n v -> features_all Q v.
Proof.
  intros HPQ (fs & -> & _ & Hfs). exists fs. split; [reflexivity|].
  eapply Forall_impl; [exact HPQ | exact Hfs].
Qed.

Lemma collects_impl (P Q : value -> Prop) n v :
  (forall f, P f -> Q f) -> collects P n v -> collects Q n v.
Proof.
  intros HPQ (fs & -> & Hlen & Hfs). exists fs. split; [reflexivity|].
  split; [assumption|]. eapply Forall_impl; [exact HPQ | exact Hfs].
Qed.

(** C1: for every [n] and every state of the random source each GeoJSON
    generator returns a collection of exactly [n] features ([max n 0] of
    them); every one of the drillholes is a "Point", every one of the tracks
    a "LineString", every one of the geology and of the tenements a
    "Polygon", and each carries a non-empty "properties" object. *)
Theorem geometry_type_by_generator (n : Z) (s : rstate) :
  returns (generate_drillholes_geojson n) s (fun v _ =>
    collects (fun f => geometry_type f = Ok (Str "Point") /\ has_properties f) n v) /\
  returns (generate_tracks_geojson n) s (fun v _ =>
    collects (fun f => geometry_type f = Ok (Str "LineString") /\ has_properties f) n v) /\
  returns (generate_geology_geojson n) s (fun v _ =>
    collects (fun f => geometry_type f = Ok (Str "Polygon") /\ has_properties f) n v) /\
  returns (generate_tenements_geojson n) s (fun v _ =>
    collects (fun f => geometry_type f = Ok (Str "Polygon") /\ has_properties f) n v).
Proof.
  repeat split.
  - eapply returns_weaken; [apply drillholes_collected|]. intros v s'. cbv beta.
    apply collects_impl. intros f (p & props & -> & _ & Hne).
    split; [reflexivity|]. exists props. auto.
  - eapply returns_weaken; [apply tracks_collected|]. intros v s'. cbv beta.
    apply collects_impl. intros f (coords & props & -> & Hne).
    split; [reflexivity|]. exists props. auto.
  - eapply returns_weaken; [apply geology_collected|]. intros v s'. cbv beta.
    apply collects_impl. intros f (ring & props & -> & _ & _ & Hne).
    split; [reflexivity|]. exists props. auto.
  - eapply returns_weaken; [apply tenements_collected|]. intros v s'. cbv beta.
    apply collects_impl.
    intros f (c & sz & props & ty & st & -> & Hkeys & _).
    split; [reflexivity|]. exists props. split; [reflexivity|].
    intros ->. discriminate Hkeys.
Qed.

(** C5: [generate_tenements_geojson n] returns exactly [n] tenements, and
    every one is a "Polygon" whose properties hold the keys tenement_id,
    type, holder, area_km2, granted and status, with status one of "Active",
    "Pending" and type one of "Exploration", "Mining", "Prospecting",
    "Retention". *)
Theorem tenement_is_polygon_with_attributes (n : Z) (s : rstate) :
  returns (generate_tenements_geojson n) s (fun v _ =>
    collects (fun f =>
      geometry_type f = Ok (Str "Polygon") /\
      exists props,
        getitem f "properties" = Ok (Dict props) /\
        Forall (fun key => In key (keys props))
          ["tenement_id"; "type"; "holder"; "area_km2"; "granted"; "status"] /\
        (exists status, property f "status" = Ok (Str status) /\
                        In status ["Active"; "Pending"]) /\
        (exists type, property f "type" = Ok (Str type) /\
                      In type ["Exploration"; "Mining"; "Prospecting"; "Retention"])) n v).
Proof.
  eapply returns_weaken; [apply tenements_collected|]. intros v s'. cbv beta.
  apply collects_impl.
  intros f (c & sz & props & ty & st & -> & Hkeys & Hty & Hin_ty & Hst & Hin_st).
  split; [reflexivity|]. exists props. split; [reflexivity|].
  split.
  { rewrite Hkeys. unfold tenement_fields.
    repeat (apply Forall_cons; [simpl; auto 10|]). apply Forall_nil. }
  split.
  - exists st. split; [|assumption]. unfold property. simpl. rewrite Hst. reflexivity.
  - exists ty. split; [|assumption]. unfold property. simpl. rewrite Hty. reflexivity.
Qed.

Lemma located_row_reads fields x y row :
  located_row fields x y row ->
  exists p, in_bounds p /\
    getitem row x = Ok (round_value (fst p) 6) /\
    getitem row y = Ok (round_value (snd p) 6).
Proof.
  intros (p & d & -> & _ & Hp & Hx & Hy). exists p.
  unfold getitem. rewrite Hx, Hy. auto.
Qed.

(** C8: [random_point] returns, from every state of the random source, a
    longitude in [116.5, 118.5] and a latitude in [-23.5, -21.5], compared as
    binary64 numbers; so every drillhole point lies within the bounds, and
    the longitude/latitude of every assay row and the x/y of every survey row
    are the roundings of a point within them. *)
Theorem coordinates_within_bounds :
  (forall s, returns random_point s (fun p _ => in_bounds p)) /\
  (forall n s, returns (generate_drillholes_geojson n) s (fun v _ =>
     features_all (fun f =>
       exists p, coordinates f = Ok (point_value p) /\ in_bounds p) v)) /\
  (forall n s, returns (generate_assays_csv n) s (fun table _ =>
     Forall (fun row =>
       exists p, in_bounds p /\
         getitem row "longitude" = Ok (round_value (fst p) 6) /\
         getitem row "latitude" = Ok (round_value (snd p) 6)) table)) /\
  (forall n s, returns (generate_survey_csv n) s (fun table _ =>
     Forall (fun row =>
       exists p, in_bounds p /\
         getitem row "x" = Ok (round_value (fst p) 6) /\
         getitem row "y" = Ok (round_value (snd p) 6)) table)).
Proof.
  split; [exact returns_random_point|]. split; [|split]; intros n s.
  - eapply returns_weaken; [apply drillholes_collected|]. intros v s'. cbv beta.
    apply collects_features_all. intros f (p & props & -> & Hp & _).
    exists p. split; [reflexivity | assumption].
  - eapply returns_weaken; [apply assays_tabulated|]. intros table s' [_ Hrows].
    eapply Forall_impl; [|exact Hrows]. apply located_row_reads.
  - eapply returns_weaken; [apply survey_tabulated|]. intros table s' [_ Hrows].
    eapply Forall_impl; [|exact Hrows]. apply located_row_reads.
Qed.


Lemma generator_returns g n s :
  In g generators -> returns (g n) s (fun _ _ => True).
Proof.
  unfold generators. simpl.
  intros [<-|[<-|[<-|[<-|[<-|[<-|[]]]]]]].
  - eapply returns_weaken; [apply drillholes_collected | auto].
  - eapply returns_weaken; [apply geology_collected | auto].
  - eapply returns_weaken; [apply tenements_collected | auto].
  - eapply returns_weaken; [apply tracks_collected | auto].
  - unfold as_value. apply returns_bind.
    eapply returns_weaken; [apply assays_tabulated|]. intros. apply returns_ret. exact I.
  - unfold as_value. apply returns_bind.
    eapply returns_weaken; [apply survey_tabulated|]. intros. apply returns_ret. exact I.
Qed.

Lemma generator_idle g n s : In g generators -> n <= 0 -> snd (g n s) = s.
Proof.
  intros Hg Hn. assert (Hrange : range n = []).
  { unfold range. replace (Z.to_nat n) with 0%nat by lia. reflexivity. }
  unfold generators in Hg. simpl in Hg.
  destruct Hg as [<-|[<-|[<-|[<-|[<-|[<-|[]]]]]]];
    unfold generate_drillholes_geojson, generate_geology_geojson,
           generate_tenements_geojson, generate_tracks_geojson, as_value,
           generate_assays_csv, generate_survey_csv;
    rewrite Hrange; reflexivity.
Qed.

Lemma generator_empty g n s s' :
  In g generators -> n <= 0 -> fst (g n s) = fst (g n s').
Proof.
  intros Hg Hn. pose proof (range_nonpositive n Hn) as Hrange.
  unfold generators in Hg. simpl in Hg.
  destruct Hg as [<-|[<-|[<-|[<-|[<-|[<-|[]]]]]]];
    unfold generate_drillholes_geojson, generate_geology_geojson,
           generate_tenements_geojson, generate_tracks_geojson, as_value,
           generate_assays_csv, generate_survey_csv;
    rewrite Hrange; reflexivity.
Qed.

Lemma generators_in_sequence g1 g2 n1 n2 s :
  In g1 generators -> In g2 generators ->
  returns (g1 n1 ;; g2 n2) s (fun _ _ => True).
Proof.
  intros Hg1 Hg2. apply returns_bind.
  eapply returns_weaken; [apply generator_returns, Hg1|].
  intros v1 s1 _. apply generator_returns, Hg2.
Qed.

Lemma generators_independent_when_idle g1 g2 n1 n2 s :
  In g1 generators -> In g2 generators ->
  n1 <= 0 \/ n2 <= 0 -> independent (g1 n1) (g2 n2) s.
Proof.
  intros Hg1 Hg2 [Hn | Hn]; unfold independent.
  - rewrite generator_idle by assumption. reflexivity.
  - apply generator_empty; assumption.
Qed.

End GeneratorClaims.



(** C3, counterexample: from state 0 of the linear congruential source, the
    survey row generated after one drillhole is not the row generated alone. *)
Lemma survey_after_drillholes :
  exists after alone,
    fst (as_value (generate_survey_csv (RS := Demo.lcg) (ML := Demo.math) 1)
           (snd (generate_drillholes_geojson (RS := Demo.lcg) (ML := Demo.math) 1 0%Z)))
      = Ok after /\
    fst (as_value (generate_survey_csv (RS := Demo.lcg) (ML := Demo.math) 1) 0%Z)
      = Ok alone /\
    after <> alone /\
    ~ independent (RS := Demo.lcg)
        (generate_drillholes_geojson (ML := Demo.math) 1)
        (as_value (generate_survey_csv (ML := Demo.math) 1)) 0%Z.
Proof.
  eexists _, _. split; [vm_compute; reflexivity|]. split; [vm_compute; reflexivity|].
  split; [discriminate|]. unfold independent. vm_compute. discriminate.
Qed.

(** C3, as amended: the generators share the random state and nothing
    else.  Any generator returns after any other, for all sizes and from
    every state; what it returns does not depend on the one run before it
    when that one is asked for no item (it draws nothing) or when it is
    itself asked for none (it returns the empty result); and with one item
    asked of each it can depend on it, since the first moves the state the
    second draws from. *)
Theorem generators_meet_in_the_random_state :
  (forall (RS : RandomSource) (ML : MathLib) g1 g2 (n1 n2 : Z) (s : rstate),
     In g1 generators -> In g2 generators ->
     returns (g1 n1 ;; g2 n2) s (fun _ _ => True) /\
     (n1 <= 0 \/ n2 <= 0 -> independent (g1 n1) (g2 n2) s)) /\
  (exists (RS : RandomSource) (ML : MathLib) g1 g2 (s : rstate),
     In g1 generators /\ In g2 generators /\
     ~ independent (g1 1) (g2 1) s).
Proof.
  split.
  - intros RS ML g1 g2 n1 n2 s Hg1 Hg2. split.
    + apply generators_in_sequence; assumption.
    + apply generators_independent_when_idle; assumption.
  - exists Demo.lcg, Demo.math.
    exists (generate_drillholes_geojson (RS := Demo.lcg) (ML := Demo.math)).
    exists (fun n => as_value (generate_survey_csv (RS := Demo.lcg) (ML := Demo.math) n)).
    exists 0%Z.
    split; [simpl; auto|]. split; [simpl; auto 10|].
    unfold independent. vm_compute. discriminate.
Qed.

Lemma generators_meet_in_the_random_state_witness :
  returns (generate_geology_geojson (RS := Demo.lcg) (ML := Demo.math) 2 ;;
           generate_tracks_geojson (RS := Demo.lcg) 3) 0%Z (fun _ _ => True) /\
  independent (RS := Demo.lcg)
    (generate_drillholes_geojson (ML := Demo.math) 0)
    (as_value (generate_survey_csv (ML := Demo.math) 1)) 0%Z /\
  independent (RS := Demo.lcg)
    (generate_drillholes_geojson (ML := Demo.math) 1)
    (as_value (generate_survey_csv (ML := Demo.math) 0)) 0%Z.
Proof.
  assert (H1 : In (generate_drillholes_geojson (RS := Demo.lcg) (ML := Demo.math))
                  (generators (RS := Demo.lcg) (ML := Demo.math))) by (simpl; auto).
  assert (H2 : In (fun n => as_value
                     (generate_survey_csv (RS := Demo.lcg) (ML := Demo.math) n))
                  (generators (RS := Demo.lcg) (ML := Demo.math))) by (simpl; auto 10).
  assert (H3 : In (generate_geology_geojson (RS := Demo.lcg) (ML := Demo.math))
                  (generators (RS := Demo.lcg) (ML := Demo.math))) by (simpl; auto).
  assert (H4 : In (generate_tracks_geojson (RS := Demo.lcg))
                  (generators (RS := Demo.lcg) (ML := Demo.math))) by (simpl; auto 10).
  split; [|split].
  - exact (proj1 (proj1 generators_meet_in_the_random_state
                    Demo.lcg Demo.math _ _ 2 3 0%Z H3 H4)).
  - apply (proj2 (proj1 generators_meet_in_the_random_state
                    Demo.lcg Demo.math _ _ 0 1 0%Z H1 H2)). left. lia.
  - apply (proj2 (proj1 generators_meet_in_the_random_state
                    Demo.lcg Demo.math _ _ 1 0 0%Z H1 H2)). right. lia.
Defined.

Section ScriptClaims.

Context {RS : RandomSource} {ML : MathLib} {Env : Environment}.

Lemma writer_kind_none gtype :
  gtype <> Str "Point" -> gtype <> Str "LineString" -> gtype <> Str "Polygon" ->
  writer_kind gtype = None.
Proof.
  intros H1 H2 H3. unfold writer_kind, eq_str.
  destruct gtype as [z|f|s|l|d]; try reflexivity.
  destruct (String.eqb_spec s "Point"); [subst; congruence|].
  destruct (String.eqb_spec s "LineString"); [subst; congruence|].
  destruct (String.eqb_spec s "Polygon"); [subst; congruence|].
  reflexivity.
Qed.

(** C10: given an empty "features" array, or a first feature whose geometry
    type is none of "Point", "LineString", "Polygon", [generate_shapefile]
    returns False and creates no file; when the module is importable it does
    nothing at all. *)
Theorem shapefile_refused (data : value) (name : string) (w : world) :
  getitem data "features" = Ok (Lst []) \/
  (exists f0 rest gtype,
     getitem data "features" = Ok (Lst (f0 :: rest)) /\
     geometry_type f0 = Ok gtype /\
     gtype <> Str "Point" /\ gtype <> Str "LineString" /\ gtype <> Str "Polygon") ->
  exists l,
    generate_shapefile data name w = (Ok false, logged w l) /\
    flat_map created l = [] /\
    (importable "shapefile" = true -> l = []).
Proof.
  intros Hdata. unfold generate_shapefile.
  destruct (importable "shapefile"); simpl negb; cbv iota.
  2:{ eexists [_]. split; [reflexivity|]. split; [reflexivity | discriminate]. }
  exists []. rewrite logged_nil. split; [|split; reflexivity].
  destruct Hdata as [Hfs | (f0 & rest & gtype & Hfs & Hgeom & H1 & H2 & H3)];
    unfold bind, lift; rewrite Hfs; simpl; [reflexivity|].
  unfold geometry_type, and_then in Hgeom.
  destruct (getitem f0 "geometry") as [geometry|e]; [|discriminate].
  rewrite Hgeom, writer_kind_none by assumption. reflexivity.
Qed.

Lemma geojson_collection_of (P : value -> Prop) n v :
  (forall f, P f -> exists g c p, f = feature g c p) ->
  collects P n v -> geojson_collection v.
Proof.
  intros HP (fs & -> & _ & Hfs). split; [reflexivity|].
  exists fs. split; [reflexivity|]. eapply Forall_impl; [|exact Hfs].
  intros f Hf. destruct (HP f Hf) as (g & c & p & ->).
  split; [reflexivity|]. split; [eexists _, g, c|exists p]; repeat split.
Qed.

Lemma complete_run_files w w' :
  complete_run w w' ->
  exists d g t k a v s4 s5,
    generated (rng w) d g t k a v s4 s5 (rng w') /\
    (collects drillhole 50 d /\ collects geology_polygon 15 g /\
     collects tenement 8 t /\ collects track 5 k /\
     rows (located_row assay_fields "longitude" "latitude") 100 a /\
     rows (located_row survey_fields "x" "y") 200 v) /\
    files_written (log w') d g t k a v.
Proof.
  intros (d & g & t & k & a & v & s4 & s5 & shp & tif & zip &
          Hgen & Hshape & Hlog & Hshp & Htif & Hzip & _).
  exists d, g, t, k, a, v, s4, s5. split; [assumption|]. split; [assumption|].
  rewrite Hlog. apply files_after_run; assumption.
Qed.


Lemma main_run_files w :
  outputs_writable ->
  returns main w (fun _ w' =>
    exists d g t k a v s4 s5 shp,
      generated (rng w) d g t k a v s4 s5 (rng w') /\
      files_written (log w') d g t k a v /\
      shapefile_phase d g t k shp /\
      log w' =
        (log w ++ before_zip d g t k a v shp
         ++ zip_phase (log w ++ before_zip d g t k a v shp) ++ [finale])%list).
Proof.
  intros Hw.
  eapply returns_weaken; [apply returns_and; [apply main_run | apply main_trace]; exact Hw|].
  intros r w' [Hrun Htrace]. cbv beta in Hrun, Htrace.
  apply complete_run_files in Hrun
    as (d & g & t & k & a & v & s4 & s5 & Hgen & _ & Hfiles).
  destruct Htrace as (d' & g' & t' & k' & a' & v' & s4' & s5' & shp & Hgen' & _ & Hshp & Hlog).
  destruct Hgen as (s1 & s2 & s3 & Hd & Hg & Ht & Hk & Ha & Hv).
  destruct Hgen' as (s1' & s2' & s3' & Hd' & Hg' & Ht' & Hk' & Ha' & Hv').
  rewrite Hd in Hd'. injection Hd' as <- <-.
  rewrite Hg in Hg'. injection Hg' as <- <-.
  rewrite Ht in Ht'. injection Ht' as <- <-.
  rewrite Hk in Hk'. injection Hk' as <- <-.
  rewrite Ha in Ha'. injection Ha' as <- <-.
  rewrite Hv in Hv'. injection Hv' as <-.
  exists d, g, t, k, a, v, s4, s5, shp.
  split; [exists s1, s2, s3; repeat split; assumption|].
  split; [assumption|]. split; assumption.
Qed.

(** C2: the two optional outputs are skipped one by one.  When [shapefile]
    cannot be imported, [generate_shapefile] returns False, raises nothing
    and only prints a line; when [numpy] or [rasterio] cannot,
    [generate_geotiff] does the same; and [main], its own output files being
    writable, returns with the four GeoJSON files and the two CSV files
    holding the generated data, having created no file of any shapefile in
    the first case and no raster in the second. *)
Theorem optional_writers_are_skipped (data : value) (name : string) (w : world) :
  (importable "shapefile" = false ->
   generate_shapefile data name w =
     (Ok false, logged w [Print ("  Skipping " ++ name ++ ".shp (pip install pyshp)")])) /\
  (importable "numpy" && importable "rasterio" = false ->
   generate_geotiff w =
     (Ok false, logged w [Print "  Skipping GeoTIFF (pip install numpy rasterio)"])) /\
  (outputs_writable ->
   returns main w (fun _ w' =>
     exists d g t k a v s4 s5 l,
       generated (rng w) d g t k a v s4 s5 (rng w') /\
       files_written (log w') d g t k a v /\
       log w' = (log w ++ l)%list /\
       (importable "shapefile" = false ->
        forall x p, In x dataset_names -> In p (shapefile_parts x) ->
                    ~ In p (flat_map created l)) /\
       (importable "numpy" && importable "rasterio" = false ->
        forall p, In p raster_files -> ~ In p (flat_map created l)))).
Proof.
  split; [|split].
  - intros Hshp. unfold generate_shapefile. rewrite Hshp. reflexivity.
  - intros Htif. unfold generate_geotiff. rewrite Htif. reflexivity.
  - intros Hw. eapply returns_weaken; [apply main_run_files, Hw|].
    intros r w' (d & g & t & k & a & v & s4 & s5 & shp & Hgen & Hfiles & Hshp & Hlog).
    destruct (zip_phase_cases w d g t k a v shp) as (members & _ & Hzip).
    rewrite Hzip in Hlog.
    eexists d, g, t, k, a, v, s4, s5, _.
    split; [exact Hgen|]. split; [exact Hfiles|]. split; [exact Hlog|].
    rewrite !flat_map_app, (created_before_zip _ _ _ _ _ _ _ Hshp).
    split.
    + intros Himp x p Hx Hp. rewrite Himp.
      destruct (importable "numpy" && importable "rasterio"),
        (can_open "drillholes_shp.zip");
        simpl in Hx, Hp |- *;
        intuition (subst; simpl in *; intuition discriminate).
    + intros Himp p Hp. rewrite Himp.
      destruct (importable "shapefile"), (can_open "drillholes_shp.zip");
        simpl in Hp |- *; intuition (subst; simpl in *; intuition discriminate).
Qed.

Lemma rows_keyed fields x y n table :
  rows (located_row fields x y) n table ->
  List.length table = Z.to_nat n /\ Forall (keyed fields) table.
Proof.
  intros [Hlen Hrows]. split; [assumption|].
  eapply Forall_impl; [|exact Hrows].
  intros row (p & d & -> & Hk & _). exists d. auto.
Qed.

(** C4: for every [n >= 1] each CSV generator returns exactly [n] rows with
    one and the same list of field names; [main] writes each file as the
    header line naming those fields followed by one line for each row it
    generated, in order, 100 for the assays and 200 for the survey. *)
Theorem csv_outputs_are_tabular :
  (forall n s, 1 <= n ->
     returns (generate_assays_csv n) s (fun table _ =>
       Z.of_nat (List.length table) = n /\ Forall (keyed assay_fields) table)) /\
  (forall n s, 1 <= n ->
     returns (generate_survey_csv n) s (fun table _ =>
       Z.of_nat (List.length table) = n /\ Forall (keyed survey_fields) table)) /\
  (forall w, outputs_writable ->
     returns main w (fun _ w' =>
       exists d g t k a v s4 s5,
         generated (rng w) d g t k a v s4 s5 (rng w') /\
         List.length a = 100%nat /\ Forall (keyed assay_fields) a /\
         List.length v = 200%nat /\ Forall (keyed survey_fields) v /\
         contents "assays.csv" (log w') None =
           Some (csv_line (map Str assay_fields)
                 :: map (fun row => csv_line (cells assay_fields row)) a) /\
         contents "survey_points.csv" (log w') None =
           Some (csv_line (map Str survey_fields)
                 :: map (fun row => csv_line (cells survey_fields row)) v))).
Proof.
  split; [|split].
  - intros n s Hn. eapply returns_weaken; [apply assays_tabulated|].
    intros table s' Hrows. apply rows_keyed in Hrows as [Hlen Hkeys].
    split; [lia | assumption].
  - intros n s Hn. eapply returns_weaken; [apply survey_tabulated|].
    intros table s' Hrows. apply rows_keyed in Hrows as [Hlen Hkeys].
    split; [lia | assumption].
  - intros w Hw. eapply returns_weaken; [apply main_run, Hw|].
    intros r w' Hrun. cbv beta in Hrun. apply complete_run_files in Hrun
      as (d & g & t & k & a & v & s4 & s5 & Hgen & Hshape & Hfiles).
    destruct Hshape as (_ & _ & _ & _ & Ha & Hv).
    apply rows_keyed in Ha as [La Ka]. apply rows_keyed in Hv as [Lv Kv].
    destruct Hfiles as (_ & _ & _ & _ & Fa & Fv).
    exists d, g, t, k, a, v, s4, s5. repeat split; assumption.
Qed.

Lemma collects_counted (P : value -> Prop) n v :
  0 <= n -> collects P n v -> counted n v.
Proof.
  intros Hn (fs & -> & Hlen & _). exists fs. split; [reflexivity | lia].
Qed.

(** C6: each of the four values [main] writes is a feature collection, an
    object of type "FeatureCollection" whose "features", 50 drillholes, 15
    geology units, 8 tenements and 5 tracks, all have type "Feature", a
    "geometry" object with a "type" and "coordinates", and a "properties"
    object; the file holds its JSON serialization. *)
Theorem geojson_files_hold_feature_collections (w : world) :
  outputs_writable ->
  returns main w (fun _ w' =>
    exists d g t k s4,
      generated_geojson (rng w) d g t k s4 /\
      Forall geojson_collection [d; g; t; k] /\
      Forall2 counted [50; 15; 8; 5] [d; g; t; k] /\
      contents "drillholes.geojson" (log w') None = Some [json_text d] /\
      contents "geology.geojson" (log w') None = Some [json_text g] /\
      contents "tenements.geojson" (log w') None = Some [json_text t] /\
      contents "tracks.geojson" (log w') None = Some [json_text k]).
Proof.
  intros Hw. eapply returns_weaken; [apply main_run, Hw|].
  intros r w' Hrun. cbv beta in Hrun. apply complete_run_files in Hrun
    as (d & g & t & k & a & v & s4 & s5 & Hgen & Hshape & Hfiles).
  destruct Hgen as (s1 & s2 & s3 & Hd & Hg & Ht & Hk & _).
  destruct Hshape as (Cd & Cg & Ct & Ck & _).
  destruct Hfiles as (Fd & Fg & Ft & Fk & _).
  exists d, g, t, k, s4. split; [exists s1, s2, s3; auto|].
  split; [|split; [|auto]].
  2:{ repeat (apply Forall2_cons; [eapply collects_counted; [lia | eassumption]|]).
      apply Forall2_nil. }
  apply Forall_cons.
  { apply (geojson_collection_of drillhole 50); [|assumption].
    intros f (p & props & -> & _). eexists _, _, _. reflexivity. }
  apply Forall_cons.
  { apply (geojson_collection_of geology_polygon 15); [|assumption].
    intros f (ring & props & -> & _). eexists _, _, _. reflexivity. }
  apply Forall_cons.
  { apply (geojson_collection_of tenement 8); [|assumption].
    intros f (c & sz & props & ty & st & -> & _). eexists _, _, _. reflexivity. }
  apply Forall_cons; [|apply Forall_nil].
  apply (geojson_collection_of track 5); [|assumption].
  intros f (coords & props & -> & _). eexists _, _, _. reflexivity.
Qed.


End ScriptClaims.

(** * Further properties *)

(** ** What the generators put into their items *)

Lemma Forall2_range_numbered {B} (P : Z -> B -> Prop) m : forall a ys i y,
  Forall2 P (map Z.of_nat (seq a m)) ys ->
  nth_error ys i = Some y -> P (Z.of_nat (a + i)) y.
Proof.
  induction m as [|m IH]; intros a ys i y H Hi; simpl in H.
  - inversion H; subst. destruct i; discriminate.
  - inversion H as [|x y0 xs ys0 Hxy Hrest]; subst.
    destruct i as [|i]; simpl in Hi.
    + injection Hi as <-. rewrite Nat.add_0_r. assumption.
    + replace (a + S i)%nat with (S a + i)%nat by lia. eapply IH; eassumption.
Qed.

Lemma Forall2_range_nth {B} (P : Z -> B -> Prop) n ys i y :
  Forall2 P (range n) ys -> nth_error ys i = Some y -> P (Z.of_nat i) y.
Proof. unfold range. intros H Hi. apply (Forall2_range_numbered P _ 0%nat ys i y H Hi). Qed.

Lemma returns_for_fold_counted {S A X} (I : nat -> A -> Prop)
  (body : X -> A -> Eff S A) xs :
  (forall x a s k, I k a -> returns (body x a) s (fun a' _ => I (Datatypes.S k) a')) ->
  forall a s k, I k a ->
    returns (for_fold xs body a) s (fun a' _ => I (k + List.length xs)%nat a').
Proof.
  intros Hbody. induction xs as [|x xs IH]; intros a s k Ha; simpl.
  - apply returns_ret. rewrite Nat.add_0_r. assumption.
  - apply returns_bind. eapply returns_weaken; [apply Hbody; eassumption|].
    intros a' s' Ha'. cbv beta in Ha'.
    replace (k + Datatypes.S (List.length xs))%nat
      with (Datatypes.S k + List.length xs)%nat by lia.
    apply IH. assumption.
Qed.

Lemma string_length_append (a b : string) :
  String.length (a ++ b) = (String.length a + String.length b)%nat.
Proof. induction a as [|c a IH]; simpl; [reflexivity | rewrite IH; reflexivity]. Qed.

(** A decidable property checked on every integer of an interval. *)
Lemma holds_on_interval (p : Z -> bool) (lo count : Z) :
  forallb (fun k => p (lo + Z.of_nat k)) (seq 0 (Z.to_nat count)) = true ->
  forall z, lo <= z < lo + count -> p z = true.
Proof.
  intros Hall z Hz. rewrite forallb_forall in Hall.
  replace z with (lo + Z.of_nat (Z.to_nat (z - lo))) by lia.
  apply Hall, in_seq. lia.
Qed.

Lemma four_digits z :
  1000 <= z <= 9999 -> String.length (str_Z z) = 4%nat.
Proof.
  intros Hz. apply Nat.eqb_eq.
  apply (holds_on_interval (fun z => Nat.eqb (String.length (str_Z z)) 4) 1000 9000);
    [vm_compute; reflexivity | lia].
Qed.

Lemma two_digits z : 10 <= z <= 99 -> String.length (str_Z z) = 2%nat.
Proof.
  intros Hz. apply Nat.eqb_eq.
  apply (holds_on_interval (fun z => Nat.eqb (String.length (str_Z z)) 2) 10 90);
    [vm_compute; reflexivity | lia].
Qed.

Lemma padded_to_2 z : 0 <= z <= 99 -> String.length (fmt_0d 2 z) = 2%nat.
Proof.
  intros Hz. apply Nat.eqb_eq.
  apply (holds_on_interval (fun z => Nat.eqb (String.length (fmt_0d 2 z)) 2) 0 100);
    [vm_compute; reflexivity | lia].
Qed.

Lemma assoc_keys_values (d : list (string * value)) :
  NoDup (keys d) ->
  map (fun k => match assoc k d with Some v => v | None => Str "" end) (keys d)
  = map snd d.
Proof.
  induction d as [|[k v] d IH]; intros Hnd; [reflexivity|].
  inversion Hnd as [|k' ks Hnotin Hrest]; subst.
  cbn [keys map fst snd assoc]. rewrite String.eqb_refl. f_equal.
  rewrite <- IH by assumption. apply map_ext_in.
  intros k' Hin. destruct (String.eqb_spec k' k); [subst; contradiction | reflexivity].
Qed.

Section GeneratorAttributes.

Context {RS : RandomSource} {ML : MathLib}.

Ltac draw :=
  lazymatch goal with
  | |- returns (bind _ _) _ _ => apply returns_bind
  | |- returns (ret _) _ _ => apply returns_ret
  | |- returns random_point _ _ =>
      eapply returns_weaken; [apply returns_random_point | intros ? ? ?]
  | |- returns (uniform _ _) _ _ =>
      eapply returns_weaken; [apply returns_uniform | intros ? ? _]
  | |- returns (gauss _ _) _ _ =>
      eapply returns_weaken; [apply returns_gauss | intros ? ? _]
  | |- returns (randint _ _) _ _ =>
      eapply returns_weaken; [apply returns_randint; lia | intros ? ? ?]
  | |- returns (choice _) _ _ =>
      eapply returns_weaken; [apply returns_choice; discriminate | intros ? ? ?]
  | |- returns (random_polygon _ _ _) _ _ =>
      eapply returns_weaken;
      [apply returns_random_polygon; split; [lia | reflexivity] | intros ? ? [? ?]]
  end; cbv beta in *.

(** A loop over [range n] whose item at index [i] satisfies [P i]. *)
Ltac number P :=
  eapply returns_weaken;
  [ apply (returns_for_each P); intros i ? _
  | intros fs ? Hfs; cbv beta ].

Lemma numbered_collection (read : value -> outcome value) label n fs :
  Forall2 (fun i f => read f = Ok (label (i + 1))) (range n) fs ->
  List.length fs = Z.to_nat n /\ numbered read label fs.
Proof.
  intros H. split.
  - rewrite (Forall2_length_eq _ _ _ H), range_length. reflexivity.
  - intros i x Hi. apply (Forall2_range_nth _ _ _ _ _ H Hi).
Qed.


(** X1: each generator returns exactly [max n 0] items, and numbers them
    from 1 in the order of the list: [hole_id] is ["DDH-%04d"], [unit_id],
    [track_id] and [point_id] are the number itself, [sample_id] is
    ["S%05d"]. *)
Theorem items_are_numbered_in_order n s :
  returns (generate_drillholes_geojson n) s (fun v _ => exists fs,
    v = collection fs /\ List.length fs = Z.to_nat n /\
    numbered (fun f => property f "hole_id")
             (fun k => Str ("DDH-" ++ fmt_0d 4 k)) fs) /\
  returns (generate_geology_geojson n) s (fun v _ => exists fs,
    v = collection fs /\ List.length fs = Z.to_nat n /\
    numbered (fun f => property f "unit_id") Int fs) /\
  returns (generate_tracks_geojson n) s (fun v _ => exists fs,
    v = collection fs /\ List.length fs = Z.to_nat n /\
    numbered (fun f => property f "track_id") Int fs) /\
  returns (generate_assays_csv n) s (fun rows _ =>
    List.length rows = Z.to_nat n /\
    numbered (fun r => getitem r "sample_id")
             (fun k => Str ("S" ++ fmt_0d 5 k)) rows) /\
  returns (generate_survey_csv n) s (fun rows _ =>
    List.length rows = Z.to_nat n /\
    numbered (fun r => getitem r "point_id") Int rows).
Proof.
  repeat split.
  - unfold generate_drillholes_geojson. apply returns_bind.
    number (fun i f => property f "hole_id" = Ok (Str ("DDH-" ++ fmt_0d 4 (i + 1)))).
    + repeat draw. reflexivity.
    + apply returns_ret. exists fs. split; [reflexivity|].
      apply (numbered_collection (fun f => property f "hole_id")
               (fun k => Str ("DDH-" ++ fmt_0d 4 k))), Hfs.
  - unfold generate_geology_geojson. apply returns_bind.
    number (fun i f => property f "unit_id" = Ok (Int (i + 1))).
    + repeat draw. reflexivity.
    + apply returns_ret. exists fs. split; [reflexivity|].
      apply (numbered_collection (fun f => property f "unit_id") Int), Hfs.
  - unfold generate_tracks_geojson. apply returns_bind.
    number (fun i f => property f "track_id" = Ok (Int (i + 1))).
    + draw. draw. draw. draw. draw.
      eapply returns_weaken.
      { apply (returns_for_fold (fun _ => True)); [|exact I].
        intros ? [cur cs] ? _. repeat draw. exact I. }
      intros ? ? _. repeat draw. reflexivity.
    + apply returns_ret. exists fs. split; [reflexivity|].
      apply (numbered_collection (fun f => property f "track_id") Int), Hfs.
  - unfold generate_assays_csv.
    number (fun i r => getitem r "sample_id" = Ok (Str ("S" ++ fmt_0d 5 (i + 1)))).
    + repeat draw. reflexivity.
    + apply (numbered_collection (fun r => getitem r "sample_id")
               (fun k => Str ("S" ++ fmt_0d 5 k))), Hfs.
  - unfold generate_survey_csv.
    number (fun i r => getitem r "point_id" = Ok (Int (i + 1))).
    + repeat draw. reflexivity.
    + apply (numbered_collection (fun r => getitem r "point_id") Int), Hfs.
Qed.


(** X3: the [code], [name], [age_ma] and [color] of a geology feature are
    those of one and the same row of the unit table, and its [confidence]
    is High, Medium or Low. *)
Theorem geology_attributes_from_one_unit n s :
  returns (generate_geology_geojson n) s (fun v _ =>
    features_all geology_attributes v).
Proof.
  unfold generate_geology_geojson. apply returns_bind.
  number (fun (_ : Z) f => geology_attributes f).
  - repeat draw. split.
    + eexists. split; [eassumption|]. repeat split; reflexivity.
    + eexists. split; [reflexivity | assumption].
  - apply returns_ret. exists fs. split; [reflexivity|].
    apply (Forall2_Forall_r _ _ _ _ Hfs). auto.
Qed.

(** X4: [generate_tracks_geojson n] returns exactly [n] tracks, and every
    one is a "LineString" of 6 to 13 points that starts at a point within
    the bounds, with a [surface] and a [width_m] from the fixed lists. *)
Theorem track_lines_have_6_to_13_points n s :
  returns (generate_tracks_geojson n) s (fun v _ => collects track_line n v).
Proof.
  unfold generate_tracks_geojson. apply returns_bind.
  number (fun (_ : Z) f => track_line f).
  - draw. draw. draw. draw. draw.
    match goal with
    | Hp : in_bounds ?p |- _ =>
        eapply returns_weaken;
        [ apply (returns_for_fold_counted
                   (fun j acc => exists rest,
                      snd acc = p :: rest /\ List.length rest = j))
            with (k := 0%nat)
        | intros [cur cs] ? (rest & Hcs & Hlen) ]
    end.
    { intros ? [cur cs] ? j (rest & Hcs & Hlen). repeat draw.
      simpl in Hcs |- *. subst cs. eexists. split; [reflexivity|].
      rewrite length_app. simpl. lia. }
    { exists []. split; reflexivity. }
    simpl in Hcs. subst cs. rewrite range_length in Hlen. simpl in Hlen.
    repeat draw. split; [reflexivity|]. exists a, rest. split; [reflexivity|].
    split; [assumption|]. split; [lia|]. split.
    + eexists. split; [reflexivity | assumption].
    + eexists. split; [reflexivity | assumption].
  - apply returns_ret. exists fs. split; [reflexivity|]. split.
    + rewrite (Forall2_length_eq _ _ _ Hfs), range_length. reflexivity.
    + apply (Forall2_Forall_r _ _ _ _ Hfs). auto.
Qed.

(** X5: every tenement has an eight-character [tenement_id]
    ["E<45..52>/<1000..9999>"], a [holder] from the four companies, and a
    ten-character [granted] date ["YYYY-MM-DD"] with a year from 2010 to
    2023, a month from 01 to 12 and a day from 01 to 28. *)
Theorem tenement_ids_and_dates_are_well_formed n s :
  returns (generate_tenements_geojson n) s (fun v _ =>
    features_all tenement_attributes v).
Proof.
  unfold generate_tenements_geojson. apply returns_bind.
  number (fun (_ : Z) f => tenement_attributes f).
  - repeat draw. repeat split.
    + eexists. split; [reflexivity|]. eexists _, _.
      split; [eassumption|]. split; [eassumption|]. split; [reflexivity|].
      cbn [String.append String.length]. rewrite !string_length_append.
      cbn [String.length]. rewrite two_digits, four_digits by lia. reflexivity.
    + eexists. split; [reflexivity | assumption].
    + eexists. split; [reflexivity|]. eexists _, _, _.
      split; [eassumption|]. split; [eassumption|]. split; [eassumption|].
      split; [reflexivity|].
      repeat (rewrite string_length_append; cbn [String.append String.length]).
      rewrite four_digits, !padded_to_2 by lia. reflexivity.
  - apply returns_ret. exists fs. split; [reflexivity|].
    apply (Forall2_Forall_r _ _ _ _ Hfs). auto.
Qed.

(** X6: asked for [n <= 0] items, every generator returns an empty
    collection, or an empty table, and leaves the random state as it was. *)
Theorem nothing_generated_for_nonpositive_n n s :
  n <= 0 ->
  generate_drillholes_geojson n s = (Ok (collection []), s) /\
  generate_geology_geojson n s = (Ok (collection []), s) /\
  generate_tenements_geojson n s = (Ok (collection []), s) /\
  generate_tracks_geojson n s = (Ok (collection []), s) /\
  generate_assays_csv n s = (Ok [], s) /\
  generate_survey_csv n s = (Ok [], s).
Proof.
  intros Hn.
  unfold generate_drillholes_geojson, generate_geology_geojson,
    generate_tenements_geojson, generate_tracks_geojson,
    generate_assays_csv, generate_survey_csv.
  rewrite (range_nonpositive n Hn). repeat split.
Qed.

End GeneratorAttributes.

(** ** The shapefile of a generated dataset *)

Section ShapefileProperties.

Context {RS : RandomSource} {ML : MathLib} {Env : Environment}.

(** What the writer is asked to do, call by call, as long as every call
    succeeds; the third-party writer is taken to succeed on what it is
    given, which holds for the features the generators build. *)
Lemma layout_of_accepted name kind g0 c0 props0 rest w :
  importable "shapefile" = true ->
  can_open (name ++ ".prj") = true ->
  writer_kind (Str g0) = Some kind ->
  Forall (accepted kind) (feature g0 c0 props0 :: rest) ->
  returns (generate_shapefile (collection (feature g0 c0 props0 :: rest)) name) w
    (fun written w' =>
       written = true /\
       exists l,
         w' = logged w l /\
         shapefile_written name kind (feature g0 c0 props0 :: rest) l /\
         filter is_field l = map (field_event name) props0 /\
         count_events is_shape l = Datatypes.S (List.length rest) /\
         count_events is_record l = Datatypes.S (List.length rest) /\
         Forall (well_formed (List.length props0)) l /\
         flat_map created l =
           [name ++ ".shp"; name ++ ".shx"; name ++ ".dbf"; name ++ ".prj"]).
Proof.
  intros Himp Hopen Hkind Hfs.
  eapply returns_weaken; [apply generate_shapefile_writes; eassumption|].
  intros written w' (-> & l & Hl & ->). split; [reflexivity|].
  exists l. split; [reflexivity|]. split; [exact Hl|].
  destruct Hl as (g & c & p & r & begun & Heq & _ & (body & Hbody & ->) & ->).
  injection Heq as <- <- <- <-.
  apply written_body_events in Hbody as (Bf & Bs & Br & Bc & Bw).
  destruct (fields_events name props0) as (Ff & Fs & Fr & Fc).
  unfold count_events in *. unfold shapefile_end.
  rewrite <- app_comm_cons. cbn [filter flat_map is_field is_shape is_record created].
  rewrite !filter_app, !flat_map_app, !length_app, Bf, Bs, Br, Bc, Ff, Fs, Fr, Fc.
  unfold keys in Bw. rewrite length_map in Bw.
  cbn [filter flat_map is_field is_shape is_record created app List.length Nat.add].
  rewrite ?Nat.add_0_r, ?app_nil_r.
  split; [reflexivity|]. split; [reflexivity|]. split; [reflexivity|].
  split; [|reflexivity].
  apply Forall_cons; [exact I|]. apply Forall_app. split.
  - apply Forall_app. split; [|assumption].
    apply Forall_forall. intros e He. apply in_map_iff in He as (kv & <- & _).
    apply well_formed_field.
  - repeat constructor.
Qed.

Lemma generated_shaped g kind n s :
  In (g, kind) shapefile_inputs ->
  returns (g n) s (fun v _ =>
    exists fs, v = collection fs /\ List.length fs = Z.to_nat n /\
               Forall (shaped kind) fs).
Proof.
  unfold shapefile_inputs. simpl. intros [H|[H|[H|[H|[]]]]]; injection H as <- <-.
  - eapply returns_weaken; [apply drillholes_collected|].
    intros v s' (fs & -> & Hlen & Hfs). exists fs. split; [reflexivity|].
    split; [assumption|]. eapply Forall_impl; [|exact Hfs]. apply drillhole_shaped.
  - eapply returns_weaken; [apply geology_collected|].
    intros v s' (fs & -> & Hlen & Hfs). exists fs. split; [reflexivity|].
    split; [assumption|]. eapply Forall_impl; [|exact Hfs]. apply geology_shaped.
  - eapply returns_weaken; [apply tenements_collected|].
    intros v s' (fs & -> & Hlen & Hfs). exists fs. split; [reflexivity|].
    split; [assumption|]. eapply Forall_impl; [|exact Hfs]. apply tenement_shaped.
  - eapply returns_weaken; [apply tracks_collected|].
    intros v s' (fs & -> & Hlen & Hfs). exists fs. split; [reflexivity|].
    split; [assumption|]. eapply Forall_impl; [|exact Hfs]. apply track_shaped.
Qed.

(** The features of a generated dataset, the first apart. *)
Lemma generated_features g kind n s :
  In (g, kind) shapefile_inputs -> 1 <= n ->
  exists g0 c0 props0 rest s',
    g n s = (Ok (collection (feature g0 c0 props0 :: rest)), s') /\
    List.length (feature g0 c0 props0 :: rest) = Z.to_nat n /\
    writer_kind (Str g0) = Some kind /\
    Forall (accepted kind) (feature g0 c0 props0 :: rest).
Proof.
  intros Hin Hn.
  destruct (generated_shaped g kind n s Hin) as (v & s' & Hrun & fs & -> & Hlen & Hfs).
  destruct fs as [|f0 rest]; [simpl in Hlen; lia|].
  pose proof (Forall_inv Hfs) as (g0 & c0 & props0 & -> & Hkind & _).
  exists g0, c0, props0, rest, s'. split; [exact Hrun|]. split; [exact Hlen|].
  split; [exact Hkind|]. eapply Forall_impl; [|exact Hfs]. apply shaped_accepted.
Qed.

(** X8: with [shapefile] importable and the [.prj] writable,
    [generate_shapefile], given under one of the script's four names a
    dataset that one of the four GeoJSON generators returned for [n >= 1],
    returns True after one [Writer] of the kind of the dataset's geometry,
    one field for each property of the first feature (its name cut to 10
    characters, its type read off the first feature's value), one shape and
    one record for each of the [n] features, every record holding one value
    for each field, the close and the [.prj]; the four files of the
    shapefile are created. *)
Theorem shapefile_layout g kind n s name w :
  In (g, kind) shapefile_inputs -> 1 <= n -> In name dataset_names ->
  importable "shapefile" = true ->
  can_open (name ++ ".prj") = true ->
  exists g0 c0 props0 rest s',
    g n s = (Ok (collection (feature g0 c0 props0 :: rest)), s') /\
    returns (generate_shapefile (collection (feature g0 c0 props0 :: rest)) name) w
      (fun written w' =>
         written = true /\
         exists l,
           w' = logged w l /\
           shapefile_written name kind (feature g0 c0 props0 :: rest) l /\
           filter is_field l = map (field_event name) props0 /\
           count_events is_shape l = Z.to_nat n /\
           count_events is_record l = Z.to_nat n /\
           Forall (well_formed (List.length props0)) l /\
           flat_map created l =
             [name ++ ".shp"; name ++ ".shx"; name ++ ".dbf"; name ++ ".prj"]).
Proof.
  intros Hin Hn _ Himp Hopen.
  destruct (generated_features g kind n s Hin Hn)
    as (g0 & c0 & props0 & rest & s' & Hrun & Hlen & Hkind & Hfs).
  exists g0, c0, props0, rest, s'. split; [exact Hrun|].
  rewrite <- Hlen. cbn [List.length].
  apply layout_of_accepted; assumption.
Qed.

(** The writer as modelled stops at a feature without a readable
    ["geometry"], whatever the features before it. *)
Lemma abort_of_accepted name kind g0 c0 props0 pre f post e w :
  importable "shapefile" = true ->
  writer_kind (Str g0) = Some kind ->
  Forall (accepted kind) (feature g0 c0 props0 :: pre) ->
  getitem f "geometry" = Raise e ->
  raises (generate_shapefile
            (collection (feature g0 c0 props0 :: pre ++ f :: post)) name) w e
    (fun w' =>
       exists l,
         w' = logged w l /\
         shapefile_begun name kind props0 (feature g0 c0 props0 :: pre) l /\
         count_events is_record l = Datatypes.S (List.length pre) /\
         flat_map created l = [name ++ ".shp"; name ++ ".shx"; name ++ ".dbf"] /\
         forallb (fun e => negb (touches (name ++ ".prj") e)) l = true).
Proof.
  intros Himp Hkind Hfs Hgeom. unfold generate_shapefile.
  rewrite Himp. simpl negb. cbv iota.
  apply raises_later. prim. simpl truthy. simpl negb. cbv iota.
  apply raises_later. prim. apply raises_later. prim. apply raises_later. prim.
  rewrite Hkind.
  apply raises_later. prim. apply raises_later. prim. apply raises_later. prim.
  apply raises_later. eapply returns_weaken; [apply returns_fields|].
  intros ? w1 ->. apply raises_later. prim. apply raises_now.
  apply (raises_for_each_at _ (feature g0 c0 props0 :: pre) f post).
  eapply returns_weaken; [apply (returns_features name kind (keys props0) _ Hfs)|].
  intros ? w2 (body & Hbody & ->).
  unfold raises, bind, lift. rewrite Hgeom. eexists. split; [reflexivity|].
  eexists. split; [rewrite !logged_logged; reflexivity|].
  split; [exists body; split; [exact Hbody | reflexivity]|].
  pose proof (written_body_touches_nothing _ _ _ _ _ (name ++ ".prj") Hbody) as Bt.
  apply written_body_events in Hbody as (Bf & Bs & Br & Bc & Bw).
  destruct (fields_events name props0) as (Ff & Fs & Fr & Fc).
  unfold count_events in *.
  cbn [app filter flat_map is_record created forallb touches negb andb].
  rewrite !filter_app, !flat_map_app, !length_app, Br, Bc, Fr, Fc.
  split; [reflexivity|]. split; [reflexivity|].
  rewrite forallb_app. apply andb_true_intro. split.
  - apply forallb_forall. intros x Hx. apply in_map_iff in Hx as ([key v] & <- & _).
    destruct v; reflexivity.
  - exact Bt.
Qed.

(** X9: [generate_shapefile] checks nothing beforehand.  Given a dataset
    that one of the four GeoJSON generators returned for [n >= 1], followed
    by a feature without a readable ["geometry"], it raises that feature's
    exception after the writer was created and the [n] generated features
    were written; [w.close()] is not reached and no [.prj] is opened or
    written. *)
Theorem shapefile_aborts_midway g kind n s name f post e w :
  In (g, kind) shapefile_inputs -> 1 <= n -> In name dataset_names ->
  importable "shapefile" = true ->
  getitem f "geometry" = Raise e ->
  exists g0 c0 props0 rest s',
    g n s = (Ok (collection (feature g0 c0 props0 :: rest)), s') /\
    raises (generate_shapefile
              (collection (feature g0 c0 props0 :: rest ++ f :: post)) name) w e
      (fun w' =>
         exists l,
           w' = logged w l /\
           shapefile_begun name kind props0 (feature g0 c0 props0 :: rest) l /\
           count_events is_record l = Z.to_nat n /\
           flat_map created l = [name ++ ".shp"; name ++ ".shx"; name ++ ".dbf"] /\
           forallb (fun e => negb (touches (name ++ ".prj") e)) l = true).
Proof.
  intros Hin Hn _ Himp Hgeom.
  destruct (generated_features g kind n s Hin Hn)
    as (g0 & c0 & props0 & rest & s' & Hrun & Hlen & Hkind & Hfs).
  exists g0, c0, props0, rest, s'. split; [exact Hrun|].
  rewrite <- Hlen. cbn [List.length].
  apply abort_of_accepted; assumption.
Qed.

End ShapefileProperties.

(** ** The files of a run and its archive *)

Section RunProperties.

Context {RS : RandomSource} {ML : MathLib} {Env : Environment}.

(** X10: a run whose own outputs are writable creates the six data files,
    the four files of each of the four shapefiles if [shapefile] is
    importable, the two rasters if [numpy] and [rasterio] are, and the zip
    archive if it can be opened; nothing else. *)
Theorem run_creates_these_files w :
  outputs_writable ->
  returns main w (fun _ w' => exists l,
    log w' = (log w ++ l)%list /\
    flat_map created l =
      (output_files
       ++ (if importable "shapefile"
           then flat_map shapefile_parts dataset_names else [])
       ++ (if importable "numpy" && importable "rasterio" then raster_files else [])
       ++ (if can_open "drillholes_shp.zip" then ["drillholes_shp.zip"] else []))%list).
Proof.
  intros Hw. eapply returns_weaken; [apply main_trace, Hw|].
  intros ? w' (d & g & t & k & a & v & s4 & s5 & shp & _ & _ & Hshp & Hlog).
  destruct (zip_phase_cases w d g t k a v shp) as (members & _ & Hzip).
  rewrite Hzip in Hlog. eexists. split; [exact Hlog|].
  rewrite !flat_map_app, (created_before_zip _ _ _ _ _ _ _ Hshp).
  rewrite <- !app_assoc. do 3 f_equal.
  destruct (can_open "drillholes_shp.zip"); reflexivity.
Qed.

(** X11: the archive [drillholes_shp.zip] holds exactly the files of the
    directory whose names start with ["drillholes."]: those that were there
    before the run, [drillholes.geojson], and the four files of the
    drillholes shapefile if [shapefile] is importable.  Without the module
    the archive is still made, of the GeoJSON file alone. *)
Theorem zip_holds_every_drillholes_file w :
  outputs_writable -> can_open "drillholes_shp.zip" = true ->
  returns main w (fun _ w' => exists before members,
    log w' = (log w ++ before ++ zipped members ++ [finale])%list /\
    forall m,
      In m members <->
      (String.prefix "drillholes." m = true /\ In m (directory w)) \/
      m = "drillholes.geojson" \/
      (importable "shapefile" = true /\ In m (shapefile_parts "drillholes"))).
Proof.
  intros Hw Hopen. eapply returns_weaken; [apply main_trace, Hw|].
  intros ? w' (d & g & t & k & a & v & s4 & s5 & shp & _ & _ & Hshp & Hlog).
  destruct (zip_phase_cases w d g t k a v shp) as (members & Hmembers & Hzip).
  rewrite Hzip, Hopen in Hlog. exists (before_zip d g t k a v shp), members.
  split; [exact Hlog|]. intros m. subst members. unfold zip_members.
  rewrite filter_In, nodup_In, flat_map_app, !in_app_iff, in_directory.
  rewrite (created_before_zip _ _ _ _ _ _ _ Hshp).
  split.
  - intros [[Hold | [Hold | Hnew]] Hprefix]; [left; auto | left; auto |].
    right. destruct (importable "shapefile"),
      (importable "numpy" && importable "rasterio");
      simpl in Hnew; intuition (subst; try discriminate; auto);
      right; split; simpl; auto.
  - intros [[Hprefix [Hold | Hold]] | [-> | [Hshape Hin]]].
    + auto.
    + auto.
    + split; [|reflexivity]. right. right. simpl. auto.
    + rewrite Hshape. split.
      * right. right. apply in_or_app. right. apply in_or_app. left.
        simpl in Hin |- *. intuition.
      * simpl in Hin. intuition (subst; reflexivity).
Qed.

(** X12: a zip archive that cannot be created does not stop the run: the
    failure is reported on one line, no archive is among the files created,
    and the closing line is still printed. *)
Theorem zip_failure_is_reported w :
  outputs_writable -> can_open "drillholes_shp.zip" = false ->
  returns main w (fun _ w' => exists before,
    log w' = (log w ++ before ++ [zip_failure; finale])%list /\
    ~ In "drillholes_shp.zip" (flat_map created before)).
Proof.
  intros Hw Hopen. eapply returns_weaken; [apply main_trace, Hw|].
  intros ? w' (d & g & t & k & a & v & s4 & s5 & shp & _ & _ & Hshp & Hlog).
  destruct (zip_phase_cases w d g t k a v shp) as (members & _ & Hzip).
  rewrite Hzip, Hopen in Hlog. exists (before_zip d g t k a v shp).
  split; [exact Hlog|].
  rewrite (created_before_zip _ _ _ _ _ _ _ Hshp).
  destruct (importable "shapefile"), (importable "numpy" && importable "rasterio");
    simpl; intuition discriminate.
Qed.

End RunProperties.

(** ** Data and surroundings *)

Section DataFacts.

Context {RS : RandomSource} {ML : MathLib}.

Lemma generated_functional s0 d g t k a v s4 s5 s6 d' g' t' k' a' v' s4' s5' s6' :
  generated s0 d g t k a v s4 s5 s6 ->
  generated s0 d' g' t' k' a' v' s4' s5' s6' ->
  d = d' /\ g = g' /\ t = t' /\ k = k' /\ a = a' /\ v = v' /\
  s4 = s4' /\ s5 = s5' /\ s6 = s6'.
Proof.
  intros (s1 & s2 & s3 & Hd & Hg & Ht & Hk & Ha & Hv)
         (s1' & s2' & s3' & Hd' & Hg' & Ht' & Hk' & Ha' & Hv').
  rewrite Hd in Hd'. injection Hd' as <- <-.
  rewrite Hg in Hg'. injection Hg' as <- <-.
  rewrite Ht in Ht'. injection Ht' as <- <-.
  rewrite Hk in Hk'. injection Hk' as <- <-.
  rewrite Ha in Ha'. injection Ha' as <- <-.
  rewrite Hv in Hv'. injection Hv' as <- <-.
  repeat split.
Qed.

(** X14: what a run generates does not depend on its surroundings: from
    the same random state, runs in any two environments whose outputs are
    writable generate the same six datasets, write them to the six data
    files and leave the same random state, whichever optional modules are
    installed. *)
Theorem data_does_not_depend_on_the_environment (E1 E2 : Environment)
  (w : world) :
  outputs_writable (Env := E1) -> outputs_writable (Env := E2) ->
  exists w1 w2 d g t k a v s4 s5,
    main (Env := E1) w = (Ok tt, w1) /\
    main (Env := E2) w = (Ok tt, w2) /\
    rng w1 = rng w2 /\
    generated (rng w) d g t k a v s4 s5 (rng w1) /\
    files_written (Env := E1) (log w1) d g t k a v /\
    files_written (Env := E2) (log w2) d g t k a v.
Proof.
  intros H1 H2.
  destruct (main_run (Env := E1) w H1) as ([] & w1 & Hm1 & Hrun1).
  destruct (main_run (Env := E2) w H2) as ([] & w2 & Hm2 & Hrun2).
  apply complete_run_files in Hrun1
    as (d & g & t & k & a & v & s4 & s5 & Hgen1 & _ & Hfiles1).
  apply complete_run_files in Hrun2
    as (d' & g' & t' & k' & a' & v' & s4' & s5' & Hgen2 & _ & Hfiles2).
  destruct (generated_functional _ _ _ _ _ _ _ _ _ _ _ _ _ _ _ _ _ _ _ Hgen1 Hgen2)
    as (<- & <- & <- & <- & <- & <- & <- & <- & Hrng).
  exists w1, w2, d, g, t, k, a, v, s4, s5.
  split; [assumption|]. split; [assumption|]. split; [assumption|].
  split; [assumption|]. split; assumption.
Qed.

End DataFacts.

Section CsvFacts.

Context {RS : RandomSource} {ML : MathLib} {Env : Environment}.

Lemma located_row_values fields x y row :
  NoDup fields -> located_row fields x y row ->
  cells fields row = row_values row.
Proof.
  intros Hnd (p & d & -> & Hkeys & _). unfold cells, row_values.
  rewrite <- Hkeys in *. apply assoc_keys_values, Hnd.
Qed.

Lemma assay_fields_distinct : NoDup assay_fields.
Proof.
  unfold assay_fields.
  repeat (apply NoDup_cons; [simpl; intuition discriminate|]). apply NoDup_nil.
Qed.

Lemma survey_fields_distinct : NoDup survey_fields.
Proof.
  unfold survey_fields.
  repeat (apply NoDup_cons; [simpl; intuition discriminate|]). apply NoDup_nil.
Qed.

(** X7: every line of [assays.csv] and [survey_points.csv] after the
    header holds the values of one generated row, all of them and in the
    order of the row's keys: no cell is filled in with a blank and no row is
    refused for a key outside the header. *)
Theorem csv_lines_hold_the_rows_values w :
  outputs_writable ->
  returns main w (fun _ w' =>
    exists d g t k a v s4 s5,
      generated (rng w) d g t k a v s4 s5 (rng w') /\
      contents "assays.csv" (log w') None =
        Some (csv_line (map Str assay_fields)
              :: map (fun row => csv_line (row_values row)) a) /\
      contents "survey_points.csv" (log w') None =
        Some (csv_line (map Str survey_fields)
              :: map (fun row => csv_line (row_values row)) v)).
Proof.
  intros Hw. eapply returns_weaken; [apply main_run, Hw|].
  intros r w' Hrun. cbv beta in Hrun. apply complete_run_files in Hrun
    as (d & g & t & k & a & v & s4 & s5 & Hgen & Hshape & Hfiles).
  destruct Hshape as (_ & _ & _ & _ & [_ Ha] & [_ Hv]).
  destruct Hfiles as (_ & _ & _ & _ & Fa & Fv).
  exists d, g, t, k, a, v, s4, s5. split; [assumption|].
  rewrite Fa, Fv. split; do 2 f_equal; apply map_ext_in; intros row Hin; f_equal.
  - rewrite Forall_forall in Ha.
    apply (located_row_values _ _ _ _ assay_fields_distinct (Ha row Hin)).
  - rewrite Forall_forall in Hv.
    apply (located_row_values _ _ _ _ survey_fields_distinct (Hv row Hin)).
Qed.

End CsvFacts.

(** ** A shapefile that cannot be finished *)

Section PrjFacts.

Context {RS : RandomSource} {ML : MathLib} {Env : Environment}.



End PrjFacts.

#[local] Existing Instance Demo.lcg.
#[local] Existing Instance Demo.math.

Lemma shapefile_refused_witness :
  getitem (collection []) "features" = Ok (Lst []) /\
  exists l,
    generate_shapefile (Env := Demo.full) (collection []) "empty" Demo.start =
      (Ok false, logged Demo.start l) /\
    flat_map created l = [] /\
    (importable (Environment := Demo.full) "shapefile" = true -> l = []).
Proof.
  split; [reflexivity|].
  apply (@shapefile_refused Demo.lcg Demo.full). left. reflexivity.
Defined.

Lemma full_outputs_writable : outputs_writable (Env := Demo.full).
Proof. unfold outputs_writable. simpl. repeat split; auto. Qed.

Lemma bare_outputs_writable : outputs_writable (Env := Demo.bare).
Proof.
  unfold outputs_writable. simpl. repeat split; auto; discriminate.
Qed.

Lemma no_pyshp_outputs_writable : outputs_writable (Env := Demo.no_pyshp).
Proof.
  unfold outputs_writable. simpl. repeat split; auto; discriminate.
Qed.

Lemma optional_writers_are_skipped_witness :
  (importable (Environment := Demo.no_pyshp) "shapefile" = false /\
   generate_shapefile (Env := Demo.no_pyshp) (Int 0) "none" Demo.start =
     (Ok false,
      logged Demo.start [Print ("  Skipping " ++ "none" ++ ".shp (pip install pyshp)")])) /\
  (importable (Environment := Demo.no_numpy) "numpy"
     && importable (Environment := Demo.no_numpy) "rasterio" = false /\
   generate_geotiff (Env := Demo.no_numpy) Demo.start =
     (Ok false,
      logged Demo.start [Print "  Skipping GeoTIFF (pip install numpy rasterio)"])) /\
  (outputs_writable (Env := Demo.no_pyshp) /\
   returns (main (RS := Demo.lcg) (ML := Demo.math) (Env := Demo.no_pyshp)) Demo.start
     (fun _ w' =>
        exists d g t k a v s4 s5 l,
          generated (rng Demo.start) d g t k a v s4 s5 (rng w') /\
          files_written (Env := Demo.no_pyshp) (log w') d g t k a v /\
          log w' = (log Demo.start ++ l)%list /\
          (importable (Environment := Demo.no_pyshp) "shapefile" = false ->
           forall x p, In x dataset_names -> In p (shapefile_parts x) ->
                       ~ In p (flat_map created l)) /\
          (importable (Environment := Demo.no_pyshp) "numpy"
             && importable (Environment := Demo.no_pyshp) "rasterio" = false ->
           forall p, In p raster_files -> ~ In p (flat_map created l)))).
Proof.
  split; [|split]; (split; [first [reflexivity | exact no_pyshp_outputs_writable]|]).
  - exact (proj1 (@optional_writers_are_skipped Demo.lcg Demo.math Demo.no_pyshp
                    (Int 0) "none" Demo.start) eq_refl).
  - exact (proj1 (proj2 (@optional_writers_are_skipped Demo.lcg Demo.math Demo.no_numpy
                           (Int 0) "none" Demo.start)) eq_refl).
  - exact (proj2 (proj2 (@optional_writers_are_skipped Demo.lcg Demo.math Demo.no_pyshp
                           (Int 0) "none" Demo.start))
             no_pyshp_outputs_writable).
Defined.

Lemma csv_outputs_are_tabular_witness :
  (1 <= 3 /\
   returns (generate_assays_csv (RS := Demo.lcg) (ML := Demo.math) 3) 0%Z
     (fun table _ =>
        Z.of_nat (List.length table) = 3 /\ Forall (keyed assay_fields) table)) /\
  (1 <= 2 /\
   returns (generate_survey_csv (RS := Demo.lcg) (ML := Demo.math) 2) 0%Z
     (fun table _ =>
        Z.of_nat (List.length table) = 2 /\ Forall (keyed survey_fields) table)) /\
  (outputs_writable (Env := Demo.bare) /\
   returns (main (RS := Demo.lcg) (ML := Demo.math) (Env := Demo.bare)) Demo.start
     (fun _ w' =>
        exists d g t k a v s4 s5,
          generated (rng Demo.start) d g t k a v s4 s5 (rng w') /\
          List.length a = 100%nat /\ Forall (keyed assay_fields) a /\
          List.length v = 200%nat /\ Forall (keyed survey_fields) v /\
          contents "assays.csv" (log w') None =
            Some (Demo.line (map Str assay_fields)
                  :: map (fun row => Demo.line (cells assay_fields row)) a) /\
          contents "survey_points.csv" (log w') None =
            Some (Demo.line (map Str survey_fields)
                  :: map (fun row => Demo.line (cells survey_fields row)) v))).
Proof.
  split; [split; [lia|] | split; [split; [lia|] | split; [exact bare_outputs_writable|]]].
  - apply (proj1 (@csv_outputs_are_tabular Demo.lcg Demo.math Demo.bare)). lia.
  - apply (proj1 (proj2 (@csv_outputs_are_tabular Demo.lcg Demo.math Demo.bare))). lia.
  - exact (proj2 (proj2 (@csv_outputs_are_tabular Demo.lcg Demo.math Demo.bare))
             Demo.start bare_outputs_writable).
Defined.

Lemma geojson_files_hold_feature_collections_witness :
  outputs_writable (Env := Demo.bare) /\
  returns (main (RS := Demo.lcg) (ML := Demo.math) (Env := Demo.bare)) Demo.start
    (fun _ w' =>
       exists d g t k s4,
         generated_geojson (rng Demo.start) d g t k s4 /\
         Forall geojson_collection [d; g; t; k] /\
         Forall2 counted [50; 15; 8; 5] [d; g; t; k] /\
         contents "drillholes.geojson" (log w') None = Some [Demo.json d] /\
         contents "geology.geojson" (log w') None = Some [Demo.json g] /\
         contents "tenements.geojson" (log w') None = Some [Demo.json t] /\
         contents "tracks.geojson" (log w') None = Some [Demo.json k]).
Proof.
  split; [exact bare_outputs_writable|].
  exact (@geojson_files_hold_feature_collections Demo.lcg Demo.math Demo.bare
           Demo.start bare_outputs_writable).
Defined.


(** ** Closed instances of the further properties *)

Lemma nothing_generated_for_nonpositive_n_witness :
  -3 <= 0 /\
  generate_drillholes_geojson (RS := Demo.lcg) (ML := Demo.math) (-3) 0%Z
    = (Ok (collection []), 0%Z) /\
  generate_geology_geojson (RS := Demo.lcg) (ML := Demo.math) (-3) 0%Z
    = (Ok (collection []), 0%Z) /\
  generate_tenements_geojson (RS := Demo.lcg) (ML := Demo.math) (-3) 0%Z
    = (Ok (collection []), 0%Z) /\
  generate_tracks_geojson (RS := Demo.lcg) (-3) 0%Z
    = (Ok (collection []), 0%Z) /\
  generate_assays_csv (RS := Demo.lcg) (ML := Demo.math) (-3) 0%Z = (Ok [], 0%Z) /\
  generate_survey_csv (RS := Demo.lcg) (ML := Demo.math) (-3) 0%Z = (Ok [], 0%Z).
Proof.
  split; [lia|].
  apply (@nothing_generated_for_nonpositive_n Demo.lcg Demo.math (-3) 0%Z). lia.
Defined.

Lemma drillholes_among_inputs :
  In (generate_drillholes_geojson (RS := Demo.lcg) (ML := Demo.math), POINT)
     (shapefile_inputs (RS := Demo.lcg) (ML := Demo.math)).
Proof. left. reflexivity. Qed.

Lemma drillholes_named : In "drillholes" dataset_names.
Proof. simpl. auto. Qed.

Lemma shapefile_layout_witness :
  In (generate_drillholes_geojson (RS := Demo.lcg) (ML := Demo.math), POINT)
     (shapefile_inputs (RS := Demo.lcg) (ML := Demo.math)) /\
  1 <= 2 /\ In "drillholes" dataset_names /\
  importable (Environment := Demo.full) "shapefile" = true /\
  can_open (Environment := Demo.full) ("drillholes" ++ ".prj") = true /\
  exists g0 c0 props0 rest s',
    generate_drillholes_geojson (RS := Demo.lcg) (ML := Demo.math) 2 0%Z
      = (Ok (collection (feature g0 c0 props0 :: rest)), s') /\
    returns (generate_shapefile (Env := Demo.full)
               (collection (feature g0 c0 props0 :: rest)) "drillholes") Demo.start
      (fun written w' =>
         written = true /\
         exists l,
           w' = logged Demo.start l /\
           shapefile_written "drillholes" POINT (feature g0 c0 props0 :: rest) l /\
           filter is_field l = map (field_event "drillholes") props0 /\
           count_events is_shape l = Z.to_nat 2 /\
           count_events is_record l = Z.to_nat 2 /\
           Forall (well_formed (List.length props0)) l /\
           flat_map created l =
             ["drillholes" ++ ".shp"; "drillholes" ++ ".shx"; "drillholes" ++ ".dbf";
              "drillholes" ++ ".prj"]).
Proof.
  split; [exact drillholes_among_inputs|]. split; [lia|].
  split; [exact drillholes_named|]. split; [reflexivity|]. split; [reflexivity|].
  exact (@shapefile_layout Demo.lcg Demo.math Demo.full _ POINT 2 0%Z "drillholes"
           Demo.start drillholes_among_inputs ltac:(lia) drillholes_named
           eq_refl eq_refl).
Defined.

Lemma shapefile_aborts_midway_witness :
  In (generate_drillholes_geojson (RS := Demo.lcg) (ML := Demo.math), POINT)
     (shapefile_inputs (RS := Demo.lcg) (ML := Demo.math)) /\
  1 <= 2 /\ In "drillholes" dataset_names /\
  importable (Environment := Demo.full) "shapefile" = true /\
  getitem (Str "not a feature") "geometry" = Raise TypeError /\
  exists g0 c0 props0 rest s',
    generate_drillholes_geojson (RS := Demo.lcg) (ML := Demo.math) 2 0%Z
      = (Ok (collection (feature g0 c0 props0 :: rest)), s') /\
    raises (generate_shapefile (Env := Demo.full)
              (collection (feature g0 c0 props0 :: rest ++ Str "not a feature" :: []))
              "drillholes")
      Demo.start TypeError
      (fun w' =>
         exists l,
           w' = logged Demo.start l /\
           shapefile_begun "drillholes" POINT props0 (feature g0 c0 props0 :: rest) l /\
           count_events is_record l = Z.to_nat 2 /\
           flat_map created l =
             ["drillholes" ++ ".shp"; "drillholes" ++ ".shx"; "drillholes" ++ ".dbf"] /\
           forallb (fun e => negb (touches ("drillholes" ++ ".prj") e)) l = true).
Proof.
  split; [exact drillholes_among_inputs|]. split; [lia|].
  split; [exact drillholes_named|]. split; [reflexivity|]. split; [reflexivity|].
  exact (@shapefile_aborts_midway Demo.lcg Demo.math Demo.full _ POINT 2 0%Z "drillholes"
           (Str "not a feature") [] TypeError Demo.start
           drillholes_among_inputs ltac:(lia) drillholes_named eq_refl eq_refl).
Defined.

Lemma no_zip_outputs_writable : outputs_writable (Env := Demo.no_zip).
Proof.
  unfold outputs_writable. simpl. repeat split; try discriminate.
  intros name [<-|[<-|[<-|[<-|[]]]]]; reflexivity.
Qed.

Lemma run_creates_these_files_witness :
  outputs_writable (Env := Demo.full) /\
  returns (main (RS := Demo.lcg) (ML := Demo.math) (Env := Demo.full)) Demo.start
    (fun _ w' => exists l,
       log w' = (log Demo.start ++ l)%list /\
       flat_map created l =
         (output_files
          ++ flat_map shapefile_parts dataset_names
          ++ raster_files ++ ["drillholes_shp.zip"])%list).
Proof.
  split; [exact full_outputs_writable|].
  exact (@run_creates_these_files Demo.lcg Demo.math Demo.full Demo.start
           full_outputs_writable).
Defined.

Lemma zip_holds_every_drillholes_file_witness :
  outputs_writable (Env := Demo.bare) /\
  can_open (Environment := Demo.bare) "drillholes_shp.zip" = true /\
  returns (main (RS := Demo.lcg) (ML := Demo.math) (Env := Demo.bare)) Demo.start
    (fun _ w' => exists before members,
       log w' = (log Demo.start ++ before ++ zipped members ++ [finale])%list /\
       forall m,
         In m members <->
         (String.prefix "drillholes." m = true /\
          In m (directory (Env := Demo.bare) Demo.start)) \/
         m = "drillholes.geojson" \/
         (importable (Environment := Demo.bare) "shapefile" = true /\
          In m (shapefile_parts "drillholes"))).
Proof.
  split; [exact bare_outputs_writable|]. split; [reflexivity|].
  exact (@zip_holds_every_drillholes_file Demo.lcg Demo.math Demo.bare Demo.start
           bare_outputs_writable eq_refl).
Defined.

Lemma zip_failure_is_reported_witness :
  outputs_writable (Env := Demo.no_zip) /\
  can_open (Environment := Demo.no_zip) "drillholes_shp.zip" = false /\
  returns (main (RS := Demo.lcg) (ML := Demo.math) (Env := Demo.no_zip)) Demo.start
    (fun _ w' => exists before,
       log w' = (log Demo.start ++ before
                 ++ [zip_failure (Env := Demo.no_zip); finale])%list /\
       ~ In "drillholes_shp.zip" (flat_map created before)).
Proof.
  split; [exact no_zip_outputs_writable|]. split; [reflexivity|].
  exact (@zip_failure_is_reported Demo.lcg Demo.math Demo.no_zip Demo.start
           no_zip_outputs_writable eq_refl).
Defined.

Lemma data_does_not_depend_on_the_environment_witness :
  outputs_writable (Env := Demo.bare) /\ outputs_writable (Env := Demo.full) /\
  exists w1 w2 d g t k a v s4 s5,
    main (RS := Demo.lcg) (ML := Demo.math) (Env := Demo.bare) Demo.start = (Ok tt, w1) /\
    main (RS := Demo.lcg) (ML := Demo.math) (Env := Demo.full) Demo.start = (Ok tt, w2) /\
    rng w1 = rng w2 /\
    generated (rng Demo.start) d g t k a v s4 s5 (rng w1) /\
    files_written (Env := Demo.bare) (log w1) d g t k a v /\
    files_written (Env := Demo.full) (log w2) d g t k a v.
Proof.
  split; [exact bare_outputs_writable|]. split; [exact full_outputs_writable|].
  exact (@data_does_not_depend_on_the_environment Demo.lcg Demo.math Demo.bare
           Demo.full Demo.start bare_outputs_writable full_outputs_writable).
Defined.

Lemma csv_lines_hold_the_rows_values_witness :
  outputs_writable (Env := Demo.bare) /\
  returns (main (RS := Demo.lcg) (ML := Demo.math) (Env := Demo.bare)) Demo.start
    (fun _ w' =>
       exists d g t k a v s4 s5,
         generated (rng Demo.start) d g t k a v s4 s5 (rng w') /\
         contents "assays.csv" (log w') None =
           Some (Demo.line (map Str assay_fields)
                 :: map (fun row => Demo.line (row_values row)) a) /\
         contents "survey_points.csv" (log w') None =
           Some (Demo.line (map Str survey_fields)
                 :: map (fun row => Demo.line (row_values row)) v)).
Proof.
  split; [exact bare_outputs_writable|].
  exact (@csv_lines_hold_the_rows_values Demo.lcg Demo.math Demo.bare Demo.start
           bare_outputs_writable).
Defined.

